(** * Subscription discovery service: a shallow embedding

    This development embeds the algorithmic core of
    [server/services/subscription_discovery_service.py]
    (class [SubscriptionDiscoveryService]) and states the properties of its
    recurring-pattern detector, merchant classifier, email extractors, merge
    engines and analytics.

    Conventions of the embedding.
    - Python [float] and [Decimal] values are exact rationals ([Q]); the
      rounding error of binary floating point is not modelled.  The
      thresholds the detector compares against (a ratio of two counts
      against 0.3, an average of integers against integer bounds) are
      decided alike by both arithmetics.  Where a float computation lands
      on a boundary the two can part: a difference of amounts of exactly
      1.00 passes the duplicate test here and can miss it in floats, a
      number read from a text within float rounding of 0.99 or 999.99 can
      fall on the other side of the band, and [round(x, 2)] of a value
      halfway between two cents goes to either side in floats; what is
      stated of rounded values holds of both.
    - Python [str] is [string] over 8-bit [ascii], and the embedding is
      that of ASCII text: [lower], [title], [strip] and the
      regular-expression classes are Python's on the characters below 128,
      and a character from 128 on is carried as a character without case
      that is no white space.  A statement that compares a text with its
      lower-cased or title-cased form is made for ASCII text.
    - A key of a dictionary that comes from JSON is absent, null or a
      value where the code meets all three ([Py.field]); an exception is an
      outcome ([Py.result]), caught where the code has a handler.
    - A [datetime] is a number of microseconds since [datetime.min] together
      with the flag that tells an offset-aware value from a naive one;
      ordering or subtracting an aware and a naive value raises [TypeError],
      and the functions that can meet both return a [result].
      [timedelta.days] is the floored quotient by one day.
    - [dict]s whose iteration order the code relies on are association lists
      in insertion order. *)

From Stdlib Require Import ZArith QArith Qabs Qround Qminmax Lia Lqa.
From Stdlib Require Import Bool List String Ascii Permutation SetoidList.
From Stdlib Require Import Sorted DecimalString.
Import ListNotations.

Local Open Scope string_scope.
Local Open Scope Q_scope.

(* ================================================================== *)
(** ** Python primitives *)
(* ================================================================== *)

Module Py.

  (** *** Characters and strings *)

Definition code (c : ascii) : nat := nat_of_ascii c.

Definition between (lo hi : nat) (c : ascii) : bool :=
  (lo <=? code c)%nat && (code c <=? hi)%nat.

Definition is_upper : ascii -> bool := between 65 90.
Definition is_lower : ascii -> bool := between 97 122.
Definition is_alpha (c : ascii) : bool := is_upper c || is_lower c.
Definition is_digit : ascii -> bool := between 48 57.

(** [str.isspace] on the ASCII range: TAB..CR, FS..US and the blank. *)
Definition is_space (c : ascii) : bool :=
  between 9 13 c || between 28 32 c.

Definition to_lower (c : ascii) : ascii :=
  if is_upper c then ascii_of_nat (code c + 32) else c.

Definition to_upper (c : ascii) : ascii :=
  if is_lower c then ascii_of_nat (code c - 32) else c.

Definition chars : string -> list ascii := list_ascii_of_string.
Definition str : list ascii -> string := string_of_list_ascii.

(** [s.lower()] *)
Definition lower (s : string) : string := str (map to_lower (chars s)).

(** [s.title()]: a cased character is upper-cased when the character
    before it is not cased, lower-cased otherwise. *)
Fixpoint title_from (prev_cased : bool) (l : list ascii) : list ascii :=
  match l with
  | [] => []
  | c :: l' =>
      (if prev_cased then to_lower c else to_upper c)
        :: title_from (is_alpha c) l'
  end.

Definition title (s : string) : string := str (title_from false (chars s)).

(** [len(s)] *)
Definition len (s : string) : nat := String.length s.

(** [sub in s] *)
Fixpoint contains (sub s : string) : bool :=
  if String.prefix sub s then true
  else match s with
       | EmptyString => false
       | String _ s' => contains sub s'
       end.

(** [any(w in s for w in ws)] *)
Definition any_in (ws : list string) (s : string) : bool :=
  existsb (fun w => contains w s) ws.

(** [s.strip()] and [s.strip(chars)] through a predicate on characters. *)
Fixpoint lstrip_by (p : ascii -> bool) (l : list ascii) : list ascii :=
  match l with
  | c :: l' => if p c then lstrip_by p l' else l
  | [] => []
  end.

Definition strip_by (p : ascii -> bool) (l : list ascii) : list ascii :=
  rev (lstrip_by p (rev (lstrip_by p l))).

(** [s.split(sep)] for a one-character separator. *)
Fixpoint split_on (sep : ascii) (cur : list ascii) (l : list ascii)
  : list (list ascii) :=
  match l with
  | [] => [rev cur]
  | c :: l' =>
      if Ascii.eqb c sep then rev cur :: split_on sep [] l'
      else split_on sep (c :: cur) l'
  end.

(** Truth value of a string and of an optional string. *)
Definition truthy (s : string) : bool := negb (String.eqb s "").

Definition truthy_opt (o : option string) : bool :=
  match o with Some s => truthy s | None => false end.

(** [a or b] on optional strings: [a] when it is neither [None] nor empty. *)
Definition or_str (a b : option string) : option string :=
  if truthy_opt a then a else b.

(** [a or b] on optional objects that are always true when present. *)
Definition or_obj {A : Type} (a b : option A) : option A :=
  match a with Some _ => a | None => b end.

(** *** Numbers *)

Definition Qltb (x y : Q) : bool := negb (Qle_bool y x).

(** [min(x, y)] returns [x] unless [y < x]; [max(x, y)] returns [x] unless
    [y > x]. *)
Definition min (x y : Q) : Q := if Qltb y x then y else x.
Definition max (x y : Q) : Q := if Qltb x y then y else x.

(** [abs(x)] *)
Definition abs (x : Q) : Q := Qabs x.

(** [round(x, 2)]: the nearest multiple of 1/100.  Where the exact value
    lies halfway between two multiples the answer of the code depends on the
    binary float it holds for that value ([round(99.9 / 12, 2)] is 8.33, the
    float being just above 8.325); the model then takes the even neighbour.
    No statement below rests on that choice: what is stated of a rounded
    value is that it is a multiple of 1/100 within 1/200 of the exact one,
    which holds of either neighbour. *)
Definition round_half_even (x : Q) : Z :=
  let f := Qfloor x in
  match Qcompare (x - inject_Z f) (1 # 2) with
  | Lt => f
  | Gt => (f + 1)%Z
  | Eq => if Z.even f then f else (f + 1)%Z
  end.

Definition round2 (x : Q) : Q := Qmake (round_half_even (x * 100)) 100.

(** [sum], [max] and [min] of a non-empty list of integers. *)
Definition sumZ (l : list Z) : Z := fold_left Z.add l 0%Z.

Definition maxZ (l : list Z) : Z :=
  match l with [] => 0%Z | x :: l' => fold_left Z.max l' x end.

Definition minZ (l : list Z) : Z :=
  match l with [] => 0%Z | x :: l' => fold_left Z.min l' x end.

Definition sumQ (l : list Q) : Q := fold_left Qplus l 0.

(** [len(set(l))] for a list of numbers: one representative per value. *)
Fixpoint set_of (l : list Q) : list Q :=
  match l with
  | [] => []
  | x :: l' => if existsb (Qeq_bool x) l' then set_of l' else x :: set_of l'
  end.

(** *** Exceptions *)

Inductive raised : Type := TypeError | AttributeError | ValueError.

(** The outcome of a call that may raise. *)
Definition result (A : Type) : Type := (A + raised)%type.

Definition ok {A : Type} (a : A) : result A := inl a.
Definition raise {A : Type} (e : raised) : result A := inr e.

Definition bind {A B : Type} (m : result A) (f : A -> result B) : result B :=
  match m with
  | inl a => f a
  | inr e => inr e
  end.

(** *** Values read from a JSON object *)

(** What a key of a dictionary parsed from JSON can hold: nothing (the key
    is absent), [None] (the value is null), or a value.  [d.get(key, x)]
    answers [x] for an absent key only; for a null it answers [None]. *)
Inductive field (A : Type) : Type :=
| Absent
| Null
| Value (a : A).

Arguments Absent {A}.
Arguments Null {A}.
Arguments Value {A} a.

(** [float(d.get(key, 0))]: [float(None)] raises. *)
Definition float_or_zero (x : field Q) : result Q :=
  match x with
  | Absent => ok 0
  | Null => raise TypeError
  | Value a => ok a
  end.

(** *** Dates *)

Definition us_per_day : Z := 86400000000.

(** [(a - b).days] for two naive instants. *)
Definition days_between (a b : Z) : Z := ((a - b) / us_per_day)%Z.

Record datetime : Type := {
  instant : Z;
  aware : bool
}.

(** A value without time zone, as [strptime] and [datetime.now()] give. *)
Definition naive (z : Z) : datetime := {| instant := z; aware := false |}.

(** [datetime.min.replace(tzinfo=None)] *)
Definition datetime_min : datetime := naive 0.

(** [d + timedelta(days=n)] *)
Definition add_days (d : datetime) (n : Z) : datetime :=
  {| instant := (instant d + n * us_per_day)%Z; aware := aware d |}.

(** [a < b], which raises between an aware and a naive value. *)
Definition dt_lt (a b : datetime) : result bool :=
  if Bool.eqb (aware a) (aware b) then ok (instant a <? instant b)%Z
  else raise TypeError.

(** A text handed to [datetime.strptime(text, '%Y-%m-%d')]: it is a date,
    carried as the naive instant it parses to, or it is not, and the call
    raises. *)
Inductive date_string : Type :=
| Parses (at_instant : Z)
| Malformed.

Definition strptime (text : date_string) : result Z :=
  match text with
  | Parses z => ok z
  | Malformed => raise ValueError
  end.

(** [a == b], which is false between an aware and a naive value. *)
Definition dt_eq (a b : datetime) : bool :=
  Bool.eqb (aware a) (aware b) && (instant a =? instant b)%Z.

(** [(a - b).days], which raises between an aware and a naive value. *)
Definition dt_days_between (a b : datetime) : result Z :=
  if Bool.eqb (aware a) (aware b) then ok (days_between (instant a) (instant b))
  else raise TypeError.

End Py.

(* ================================================================== *)
(** ** Regular expressions of the [re] module, as far as the service uses
       them *)
(* ================================================================== *)

Module Re.

Inductive regex : Type :=
| Eps                              (* the empty pattern *)
| Chr (c : ascii)                  (* a literal character *)
| Cls (p : ascii -> bool)          (* a class: \d, \s, [...] *)
| Seq (r1 r2 : regex)
| Alt (r1 r2 : regex)              (* r1|r2, r1 tried first *)
| Star (r : regex)                 (* greedy r* *)
| Grp (r : regex).                 (* the capturing group (...) *)

(** [r?] and [r+], both greedy. *)
Definition Opt (r : regex) : regex := Alt r Eps.
Definition Plus (r : regex) : regex := Seq r (Star r).

(** A run of literal characters. *)
Fixpoint Lit (s : string) : regex :=
  match s with
  | EmptyString => Eps
  | String c s' => Seq (Chr c) (Lit s')
  end.

Section Matcher.

(** [re.IGNORECASE] *)
Variable icase : bool.

Definition chr_eq (c x : ascii) : bool :=
  if icase then Ascii.eqb (Py.to_lower c) (Py.to_lower x)
  else Ascii.eqb c x.

(** Backtracking matcher in continuation-passing style: [k] receives the
    unread input and the text of the group, and answers [None] to ask for
    the next alternative. *)
Fixpoint rmatch {A : Type} (r : regex) (s : list ascii)
         (g : option (list ascii))
         (k : list ascii -> option (list ascii) -> option A) : option A :=
  match r with
  | Eps => k s g
  | Chr c =>
      match s with
      | x :: s' => if chr_eq c x then k s' g else None
      | [] => None
      end
  | Cls p =>
      match s with
      | x :: s' => if p x then k s' g else None
      | [] => None
      end
  | Seq r1 r2 => rmatch r1 s g (fun s1 g1 => rmatch r2 s1 g1 k)
  | Alt r1 r2 =>
      match rmatch r1 s g k with
      | Some a => Some a
      | None => rmatch r2 s g k
      end
  | Star r1 =>
      (fix loop (n : nat) (s : list ascii) (g : option (list ascii))
         : option A :=
         match n with
         | O => k s g
         | S n' =>
             match rmatch r1 s g
                     (fun s1 g1 =>
                        if (List.length s1 <? List.length s)%nat
                        then loop n' s1 g1 else None) with
             | Some a => Some a
             | None => k s g
             end
         end) (List.length s) s g
  | Grp r1 =>
      rmatch r1 s g
        (fun s1 _ =>
           k s1 (Some (firstn (List.length s - List.length s1) s)))
  end.

(** One match: the matched text, the text of the group and the unread
    input. *)
Record found : Type := {
  whole : list ascii;
  group1 : list ascii;
  rest : list ascii
}.

(** A match starting at the head of [s] ([re.match]). *)
Definition match_at (r : regex) (s : list ascii) : option found :=
  rmatch r s None
    (fun s1 g =>
       Some {| whole := firstn (List.length s - List.length s1) s;
               group1 := match g with Some t => t | None => [] end;
               rest := s1 |}).

(** The leftmost match ([re.search]). *)
Fixpoint search (r : regex) (s : list ascii) : option found :=
  match match_at r s with
  | Some f => Some f
  | None =>
      match s with
      | [] => None
      | _ :: s' => search r s'
      end
  end.

(** The group of every match, left to right, without overlap
    ([re.findall] for a pattern with one group). *)
Fixpoint findall_from (fuel : nat) (r : regex) (s : list ascii)
  : list (list ascii) :=
  match fuel with
  | O => []
  | S fuel' =>
      match search r s with
      | None => []
      | Some f =>
          group1 f ::
            match whole f, rest f with
            | [], _ :: s' => findall_from fuel' r s'
            | [], [] => []
            | _ :: _, s' => findall_from fuel' r s'
            end
      end
  end.

Definition findall (r : regex) (s : list ascii) : list (list ascii) :=
  findall_from (S (List.length s)) r s.

End Matcher.

(** Common classes. *)
Definition digit : regex := Cls Py.is_digit.
Definition space : regex := Cls Py.is_space.
Definition alpha : regex := Cls Py.is_alpha.
Definition other_than (c : ascii) : regex :=
  Cls (fun x => negb (Ascii.eqb x c)).

(** The group of a decimal number: digits, an optional dot, more digits
    (written [\d+\.?\d*] between parentheses in the source). *)
Definition number_group : regex :=
  Grp (Seq (Plus digit) (Seq (Opt (Chr ".")) (Star digit))).

End Re.


(* ================================================================== *)
(** ** The data model *)
(* ================================================================== *)

(** The dictionary returned by [_get_cancellation_info]. *)
Record CancellationInfo : Type := {
  method : string;
  url : string;
  instructions : string
}.

(** [@dataclass DetectedSubscription] *)
Record DetectedSubscription : Type := {
  merchant_name : string;
  service_name : option string;
  amount : Q;
  billing_cycle : string;
  category : string;
  confidence_score : Q;
  detection_source : string;          (* 'bank', 'email', 'both' *)
  last_transaction_date : option Py.datetime;
  next_billing_date : option Py.datetime;
  cancellation_info : option CancellationInfo;
  plaid_stream_id : option string
}.

(** One entry of the table of [_load_subscription_patterns]. *)
Record PatternGroup : Type := {
  patterns : list Re.regex;
  declared_category : string;         (* the entry's 'category' field *)
  typical_amounts : list Q
}.

(* ================================================================== *)
(** ** Merchant taxonomy and classifier *)
(* ================================================================== *)

(** [_load_subscription_patterns]: the keys in insertion order, each with
    its patterns, its 'category' field and its typical amounts. *)
Definition _load_subscription_patterns : list (string * PatternGroup) :=
  [ ("streaming",
     {| patterns :=
          [ Re.Lit "netflix"; Re.Lit "spotify"; Re.Lit "apple music";
            Re.Lit "amazon prime"; Re.Lit "hulu";
            Re.Seq (Re.Lit "disney") (Re.Opt (Re.Chr "+"));
            Re.Lit "hbo"; Re.Lit "paramount"; Re.Lit "peacock" ];
        declared_category := "entertainment";
        typical_amounts := [9.99; 12.99; 15.49; 19.99] |});
    ("productivity",
     {| patterns :=
          [ Re.Lit "microsoft 365"; Re.Lit "office 365"; Re.Lit "adobe";
            Re.Lit "dropbox"; Re.Lit "google workspace"; Re.Lit "slack";
            Re.Lit "zoom"; Re.Lit "notion" ];
        declared_category := "productivity";
        typical_amounts := [9.99; 19.99; 29.99; 99.99] |});
    ("cloud_storage",
     {| patterns :=
          [ Re.Lit "icloud"; Re.Lit "google drive"; Re.Lit "onedrive";
            Re.Lit "dropbox"; Re.Lit "box.com"; Re.Lit "mega" ];
        declared_category := "cloud_storage";
        typical_amounts := [0.99; 2.99; 9.99; 19.99] |});
    ("fitness",
     {| patterns :=
          [ Re.Lit "peloton"; Re.Lit "fitbit"; Re.Lit "myfitnesspal";
            Re.Lit "strava"; Re.Lit "nike training"; Re.Lit "apple fitness" ];
        declared_category := "fitness";
        typical_amounts := [9.99; 14.99; 39.99] |});
    ("news",
     {| patterns :=
          [ Re.Lit "new york times"; Re.Lit "washington post";
            Re.Lit "wall street journal"; Re.Lit "the economist";
            Re.Lit "medium"; Re.Lit "substack" ];
        declared_category := "news";
        typical_amounts := [4.99; 9.99; 19.99; 39.99] |}) ].

(** [re.search(pattern, text)] as a truth value. *)
Definition re_search_in (icase : bool) (pattern : Re.regex) (text : string)
  : bool :=
  match Re.search icase pattern (Py.chars text) with
  | Some _ => true
  | None => false
  end.

Definition subscription_indicators : list string :=
  ["subscription"; "monthly"; "premium"; "pro"; "plus"].

(** [_classify_merchant]: the first table entry one of whose patterns is
    found in the lower-cased name answers with its key. *)
Definition _classify_merchant (merchant_name : string) : string * Q :=
  let merchant_lower := Py.lower merchant_name in
  match
    find (fun entry =>
            existsb (fun pattern => re_search_in false pattern merchant_lower)
                    (patterns (snd entry)))
         _load_subscription_patterns
  with
  | Some (category, _) => (category, 0.9)
  | None =>
      if Py.any_in subscription_indicators merchant_lower
      then ("unknown", 0.6)
      else ("unknown", 0.3)
  end.

(** [_get_service_name] *)
Definition service_names : list (string * string) :=
  [ ("netflix", "Netflix"); ("spotify", "Spotify");
    ("adobe", "Adobe Creative Cloud"); ("microsoft", "Microsoft 365");
    ("apple", "Apple Services"); ("google", "Google Workspace");
    ("amazon", "Amazon Prime") ].

Definition lookup_by_substring {A : Type} (table : list (string * A))
  (merchant_name : string) : option A :=
  let merchant_lower := Py.lower merchant_name in
  option_map snd
    (find (fun entry => Py.contains (fst entry) merchant_lower) table).

Definition _get_service_name (merchant_name : string) : option string :=
  lookup_by_substring service_names merchant_name.

(** [_get_cancellation_info] *)
Definition cancellation_table : list (string * CancellationInfo) :=
  [ ("netflix",
     {| method := "web";
        url := "https://www.netflix.com/account";
        instructions := "Sign in to your account and go to Account settings" |});
    ("spotify",
     {| method := "web";
        url := "https://www.spotify.com/account/subscription/";
        instructions := "Log in and manage your subscription" |});
    ("adobe",
     {| method := "web";
        url := "https://account.adobe.com/plans";
        instructions := "Sign in to Adobe account and manage plans" |}) ].

Definition _get_cancellation_info (merchant_name : string)
  : option CancellationInfo :=
  lookup_by_substring cancellation_table merchant_name.


(* ================================================================== *)
(** ** Recurring pattern detector and the transaction path *)
(* ================================================================== *)

(** A transaction as stored in a merchant's group by
    [_analyze_recurring_transactions]. *)
Record Transaction : Type := {
  tx_amount : Q;
  tx_date : Z;                        (* a naive instant *)
  transaction_id : string;
  account_id : string
}.

(** The dictionary returned by [_detect_recurring_pattern]. *)
Module Pattern.
Record t : Type := {
  billing_cycle : string;
  average_amount : Q;
  interval_consistency : Q;
  last_transaction_date : Z;
  transaction_count : nat
}.
End Pattern.

(** [len(l)] as a float operand. *)
Definition count_of {A : Type} (l : list A) : Q :=
  inject_Z (Z.of_nat (List.length l)).

(** [(dates[i] - dates[i-1]).days for i in range(1, len(dates))] *)
Fixpoint intervals_of (dates : list Z) : list Z :=
  match dates with
  | d0 :: ((d1 :: _) as later) => Py.days_between d1 d0 :: intervals_of later
  | _ => []
  end.

(** [len(set(amounts)) / len(amounts)] *)
Definition amount_consistency_of (transactions : list Transaction) : Q :=
  let amounts := map tx_amount transactions in
  count_of (Py.set_of amounts) / count_of amounts.

(** [sum(intervals) / len(intervals)] *)
Definition avg_interval_of (transactions : list Transaction) : Q :=
  let intervals := intervals_of (map tx_date transactions) in
  inject_Z (Py.sumZ intervals) / count_of intervals.

(** The chain [if 25 <= avg <= 35 ... elif ... else: return None]. *)
Definition cycle_of_interval (avg_interval : Q) : option string :=
  if Qle_bool 25 avg_interval && Qle_bool avg_interval 35 then Some "monthly"
  else if Qle_bool 85 avg_interval && Qle_bool avg_interval 95
       then Some "quarterly"
  else if Qle_bool 350 avg_interval && Qle_bool avg_interval 375
       then Some "annual"
  else if Qle_bool 6 avg_interval && Qle_bool avg_interval 8
       then Some "weekly"
  else None.

(** [_detect_recurring_pattern] *)
Definition _detect_recurring_pattern (transactions : list Transaction)
  : option Pattern.t :=
  if (List.length transactions <? 2)%nat then None
  else
    let amounts := map tx_amount transactions in
    let amount_consistency := amount_consistency_of transactions in
    if Py.Qltb 0.3 amount_consistency then None
    else
      let dates := map tx_date transactions in
      let intervals := intervals_of dates in
      let avg_interval := avg_interval_of transactions in
      match cycle_of_interval avg_interval with
      | None => None
      | Some cycle =>
          Some {| Pattern.billing_cycle := cycle;
                  Pattern.average_amount := Py.sumQ amounts / count_of amounts;
                  Pattern.interval_consistency :=
                    1 - inject_Z (Py.maxZ intervals - Py.minZ intervals)
                        / avg_interval;
                  Pattern.last_transaction_date := Py.maxZ dates;
                  Pattern.transaction_count := List.length transactions |}
      end.

(** A raw transaction of the bank collaborator.  ['merchant_name'] and
    ['amount'] are read with [dict.get], so each may be absent, null (what
    the bank sends for a merchant it cannot name) or a value; ['date'],
    ['transaction_id'] and ['account_id'] are read by subscript and are
    taken to be present, the date being a text [strptime] may reject. *)
Record RawTransaction : Type := {
  raw_merchant_name : Py.field string;
  raw_amount : Py.field Q;
  raw_date : Py.date_string;
  raw_transaction_id : string;
  raw_account_id : string
}.

(** One entry of the list returned by [_analyze_recurring_transactions]. *)
Module Recurring.
Record t : Type := {
  merchant_name : string;
  pattern : Pattern.t;
  category : string;
  confidence : Q;
  transactions : list Transaction
}.
End Recurring.

(** [merchant_transactions[merchant_name].append(...)], creating the key at
    the end of the dictionary when it is new. *)
Fixpoint group_add (groups : list (string * list Transaction))
  (merchant : string) (t : Transaction) : list (string * list Transaction) :=
  match groups with
  | [] => [(merchant, [t])]
  | (key, ts) :: others =>
      if String.eqb key merchant then (key, (ts ++ [t])%list) :: others
      else (key, ts) :: group_add others merchant t
  end.

(** [transaction.get('merchant_name', '').lower()]: the default serves an
    absent key only, and [None.lower()] raises. *)
Definition lowered_merchant_name (transaction : RawTransaction)
  : Py.result string :=
  match raw_merchant_name transaction with
  | Py.Absent => Py.ok (Py.lower "")
  | Py.Null => Py.raise Py.AttributeError
  | Py.Value name => Py.ok (Py.lower name)
  end.

(** One turn of the first loop of [_analyze_recurring_transactions]; nothing
    in the function catches what it raises. *)
Definition add_transaction (groups : list (string * list Transaction))
  (transaction : RawTransaction)
  : Py.result (list (string * list Transaction)) :=
  Py.bind (lowered_merchant_name transaction) (fun merchant_name =>
  if negb (Py.truthy merchant_name) then Py.ok groups
  else
    Py.bind (Py.float_or_zero (raw_amount transaction)) (fun amount =>
    Py.bind (Py.strptime (raw_date transaction)) (fun date =>
    Py.ok (group_add groups merchant_name
             {| tx_amount := Py.abs amount;
                tx_date := date;
                transaction_id := raw_transaction_id transaction;
                account_id := raw_account_id transaction |})))).

Fixpoint group_from (groups : list (string * list Transaction))
  (raw : list RawTransaction)
  : Py.result (list (string * list Transaction)) :=
  match raw with
  | [] => Py.ok groups
  | transaction :: later =>
      Py.bind (add_transaction groups transaction)
              (fun groups' => group_from groups' later)
  end.

(** The first loop of [_analyze_recurring_transactions]. *)
Definition group_by_merchant (raw : list RawTransaction)
  : Py.result (list (string * list Transaction)) :=
  group_from [] raw.

(** [transactions_list.sort(key=lambda x: x['date'])]: ascending and
    stable. *)
Fixpoint insert_by_date (x : Transaction) (l : list Transaction)
  : list Transaction :=
  match l with
  | [] => [x]
  | y :: l' =>
      if (tx_date y <? tx_date x)%Z then y :: insert_by_date x l'
      else x :: l
  end.

Definition sort_by_date (l : list Transaction) : list Transaction :=
  fold_right insert_by_date [] l.

(** The body of the second loop of [_analyze_recurring_transactions] for one
    merchant: the entry it appends, if any. *)
Definition analyze_group (group : string * list Transaction)
  : option Recurring.t :=
  let (merchant, transactions_list) := group in
  if (List.length transactions_list <? 2)%nat then None
  else
    let sorted := sort_by_date transactions_list in
    match _detect_recurring_pattern sorted with
    | None => None
    | Some recurring_pattern =>
        let (category, confidence) := _classify_merchant merchant in
        if Py.Qltb 0.7 confidence
        then Some {| Recurring.merchant_name := merchant;
                     Recurring.pattern := recurring_pattern;
                     Recurring.category := category;
                     Recurring.confidence := confidence;
                     Recurring.transactions := sorted |}
        else None
    end.

(** [_analyze_recurring_transactions] *)
Definition _analyze_recurring_transactions (raw : list RawTransaction)
  : Py.result (list Recurring.t) :=
  Py.bind (group_by_merchant raw) (fun merchant_transactions =>
  Py.ok (flat_map (fun group => match analyze_group group with
                                | Some entry => [entry]
                                | None => []
                                end)
                  merchant_transactions)).

(** [_create_subscription_from_transaction] *)
Definition _create_subscription_from_transaction
  (recurring_data : Recurring.t) : option DetectedSubscription :=
  let pattern := Recurring.pattern recurring_data in
  let last_date := Py.naive (Pattern.last_transaction_date pattern) in
  let cycle := Pattern.billing_cycle pattern in
  let next_date :=
    if String.eqb cycle "monthly" then Some (Py.add_days last_date 30)
    else if String.eqb cycle "quarterly" then Some (Py.add_days last_date 90)
    else if String.eqb cycle "annual" then Some (Py.add_days last_date 365)
    else if String.eqb cycle "weekly" then Some (Py.add_days last_date 7)
    else None in
  Some {| merchant_name := Py.title (Recurring.merchant_name recurring_data);
          service_name :=
            _get_service_name (Recurring.merchant_name recurring_data);
          amount := Pattern.average_amount pattern;
          billing_cycle := cycle;
          category := Recurring.category recurring_data;
          confidence_score :=
            Recurring.confidence recurring_data
            * Pattern.interval_consistency pattern;
          detection_source := "bank";
          last_transaction_date := Some last_date;
          next_billing_date := next_date;
          cancellation_info :=
            _get_cancellation_info (Recurring.merchant_name recurring_data);
          plaid_stream_id := None |}.


(* ================================================================== *)
(** ** The recurring streams of the bank collaborator *)
(* ================================================================== *)

(** One outflow stream; every field is read with [dict.get].
    - ['stream_id'] and ['frequency']: [None] stands for an absent key and
      for a null alike, which the code does not tell apart (an absent
      frequency is 'UNKNOWN', and both 'UNKNOWN' and [None] fall to the
      defaults of the two frequency tables).
    - ['merchant_name']: absent, null or a name.
    - ['last_amount']: absent, null or an object whose ['amount'] is absent,
      null or a number.
    - ['last_date']: [None] for an absent key, a null or the empty text,
      all of which skip the parsing; else a text [strptime] may reject.
    ['category'] is read and not used; a list or a null, as the bank sends
    it, raises nothing there. *)
Record PlaidStream : Type := {
  stream_id : option string;
  stream_merchant_name : Py.field string;
  stream_last_amount : Py.field (Py.field Q);
  stream_frequency : option string;
  stream_last_date : option Py.date_string
}.

(** [_map_plaid_frequency_to_billing_cycle] *)
Definition _map_plaid_frequency_to_billing_cycle (frequency : string)
  : string :=
  if String.eqb frequency "WEEKLY" then "weekly"
  else if String.eqb frequency "BIWEEKLY" then "biweekly"
  else if String.eqb frequency "MONTHLY" then "monthly"
  else if String.eqb frequency "QUARTERLY" then "quarterly"
  else if String.eqb frequency "ANNUALLY" then "annual"
  else "monthly".

(** [_calculate_next_billing_date] *)
Definition _calculate_next_billing_date (last_date : Py.datetime)
  (frequency : string) : option Py.datetime :=
  let days_to_add :=
    if String.eqb frequency "WEEKLY" then 7%Z
    else if String.eqb frequency "BIWEEKLY" then 14%Z
    else if String.eqb frequency "MONTHLY" then 30%Z
    else if String.eqb frequency "QUARTERLY" then 90%Z
    else if String.eqb frequency "ANNUALLY" then 365%Z
    else 30%Z in
  Some (Py.add_days last_date days_to_add).

(** [abs(float(last_amount.get('amount', 0)))] for
    [last_amount = stream.get('last_amount', {})]: a null [last_amount] has
    no [get], a null amount is no number. *)
Definition stream_amount (stream : PlaidStream) : Py.result Q :=
  match stream_last_amount stream with
  | Py.Absent => Py.ok (Py.abs 0)
  | Py.Null => Py.raise Py.AttributeError
  | Py.Value last_amount =>
      Py.bind (Py.float_or_zero last_amount) (fun a => Py.ok (Py.abs a))
  end.

(** The [try] block of [_create_subscription_from_plaid_stream]. *)
Definition stream_attempt (stream : PlaidStream)
  : Py.result (option DetectedSubscription) :=
  let merchant_name : option string :=
    match stream_merchant_name stream with
    | Py.Absent => Some "Unknown Merchant"
    | Py.Null => None
    | Py.Value name => Some name
    end in
  Py.bind (stream_amount stream) (fun price =>
  if Qeq_bool price 0 then Py.ok None
  else
    let frequency :=
      match stream_frequency stream with
      | Some f => f
      | None => "UNKNOWN"
      end in
    Py.bind (match stream_last_date stream with
             | Some last_date_str =>
                 Py.bind (Py.strptime last_date_str)
                         (fun z => Py.ok (Some (Py.naive z)))
             | None => Py.ok None
             end) (fun last_date =>
    let next_date :=
      match last_date with
      | Some d => _calculate_next_billing_date d frequency
      | None => None
      end in
    match merchant_name with
    | None => Py.raise Py.AttributeError     (* [None.lower()] *)
    | Some name =>
        let (category_mapped, confidence) := _classify_merchant name in
        Py.ok
          (Some {| merchant_name := Py.title name;
                   service_name := _get_service_name name;
                   amount := price;
                   billing_cycle :=
                     _map_plaid_frequency_to_billing_cycle frequency;
                   category := category_mapped;
                   confidence_score := Py.min (confidence + 0.2) 1.0;
                   detection_source := "bank";
                   last_transaction_date := last_date;
                   next_billing_date := next_date;
                   cancellation_info := _get_cancellation_info name;
                   plaid_stream_id := stream_id stream |})
    end)).

(** [_create_subscription_from_plaid_stream]: whatever the [try] block
    raises is logged and answered with [None]. *)
Definition _create_subscription_from_plaid_stream (stream : PlaidStream)
  : option DetectedSubscription :=
  match stream_attempt stream with
  | inl subscription => subscription
  | inr _ => None
  end.

(* ================================================================== *)
(** ** Email signal extraction *)
(* ================================================================== *)

(** [float(text)] for the texts the amount patterns capture: digits with at
    most one dot, at least one digit.  Any other text is a [ValueError]. *)
Definition digits_value (ds : list ascii) : Z :=
  fold_left (fun acc c => (acc * 10 + (Z.of_nat (Py.code c) - 48))%Z) ds 0%Z.

Definition fraction_value (ds : list ascii) : Q :=
  Qmake (digits_value ds) (Z.to_pos (10 ^ Z.of_nat (List.length ds))).

Definition py_float (text : list ascii) : option Q :=
  match Py.split_on "." [] text with
  | [whole_part] =>
      if forallb Py.is_digit whole_part
         && negb (List.length whole_part =? 0)%nat
      then Some (inject_Z (digits_value whole_part))
      else None
  | [whole_part; fraction] =>
      if forallb Py.is_digit whole_part && forallb Py.is_digit fraction
         && negb (List.length whole_part + List.length fraction =? 0)%nat
      then Some (inject_Z (digits_value whole_part) + fraction_value fraction)
      else None
  | _ => None
  end.

(** The class [[:\s]] of the amount patterns. *)
Definition colon_or_space : Re.regex :=
  Re.Cls (fun c => Ascii.eqb c ":" || Py.is_space c).

(** A keyword, then [[:\s]*], an optional dollar sign and the number. *)
Definition labelled_amount (label : string) : Re.regex :=
  Re.Seq (Re.Lit label)
    (Re.Seq (Re.Star colon_or_space)
       (Re.Seq (Re.Opt (Re.Chr "$")) Re.number_group)).

(** The list [patterns] of [_extract_amount_from_text]. *)
Definition amount_patterns_of_text : list Re.regex :=
  [ Re.Seq (Re.Chr "$") Re.number_group;
    Re.Seq Re.number_group
      (Re.Seq (Re.Star Re.space)
         (Re.Alt (Re.Lit "usd") (Re.Seq (Re.Lit "dollar") (Re.Opt (Re.Chr "s")))));
    labelled_amount "amount";
    labelled_amount "total";
    labelled_amount "charged";
    labelled_amount "billed" ].

(** [0.99 <= amount <= 999.99] *)
Definition in_subscription_range (amount : Q) : bool :=
  Qle_bool 0.99 amount && Qle_bool amount 999.99.

(** The loop of [_extract_amount_from_text] over a list of patterns: for
    each pattern with matches, only [matches[0]] is examined. *)
Fixpoint amount_from_patterns (patterns : list Re.regex) (text : list ascii)
  : option Q :=
  match patterns with
  | [] => None
  | pattern :: later =>
      match Re.findall true pattern text with
      | [] => amount_from_patterns later text
      | first :: _ =>
          match py_float first with
          | Some amount =>
              if in_subscription_range amount then Some amount
              else amount_from_patterns later text
          | None => amount_from_patterns later text
          end
      end
  end.

(** [_extract_amount_from_text] *)
Definition _extract_amount_from_text (text : string) : option Q :=
  amount_from_patterns amount_patterns_of_text (Py.chars text).

(** [_extract_billing_cycle_from_text] *)
Definition _extract_billing_cycle_from_text (text : string) : string :=
  if Py.any_in ["monthly"; "month"; "/mo"] text then "monthly"
  else if Py.any_in ["annual"; "yearly"; "year"; "/yr"] text then "annual"
  else if Py.any_in ["weekly"; "week"] text then "weekly"
  else if Py.any_in ["quarterly"; "quarter"] text then "quarterly"
  else "monthly".

(** [re.sub(r'\s+', ' ', name)] *)
Fixpoint collapse_spaces (in_run : bool) (l : list ascii) : list ascii :=
  match l with
  | [] => []
  | c :: l' =>
      if Py.is_space c
      then if in_run then collapse_spaces true l'
           else " "%char :: collapse_spaces true l'
      else c :: collapse_spaces false l'
  end.

(** The prefix pattern of [_extract_merchant_from_sender]: one of no-reply,
    noreply, support, billing, then an optional at-sign, at the start. *)
Definition sender_prefix : Re.regex :=
  Re.Seq
    (Re.Grp
       (Re.Alt (Re.Seq (Re.Lit "no") (Re.Seq (Re.Opt (Re.Chr "-")) (Re.Lit "reply")))
          (Re.Alt (Re.Lit "support")
             (Re.Alt (Re.Lit "billing") (Re.Lit "noreply")))))
    (Re.Opt (Re.Chr "@")).

(** [re.sub] of a pattern anchored at the start by the empty text. *)
Definition remove_prefix (pattern : Re.regex) (l : list ascii) : list ascii :=
  match Re.match_at true pattern l with
  | Some f => Re.rest f
  | None => l
  end.

Definition is_quote (c : ascii) : bool := (Py.code c =? 34)%nat.

(** [_extract_merchant_from_sender] *)
Definition _extract_merchant_from_sender (sender : string) : option string :=
  if negb (Py.truthy sender) then None
  else
    let from_name :=
      match Re.match_at false (Re.Grp (Re.Plus (Re.other_than "<")))
                        (Py.chars sender) with
      | Some name_match =>
          let name := Py.strip_by is_quote
                        (Py.strip_by Py.is_space (Re.group1 name_match)) in
          let name := remove_prefix sender_prefix name in
          let name := Py.strip_by Py.is_space (collapse_spaces false name) in
          if (2 <? List.length name)%nat then Some (Py.str name) else None
      | None => None
      end in
    match from_name with
    | Some name => Some name
    | None =>
        match Re.search false
                (Re.Seq (Re.Chr "@") (Re.Grp (Re.Plus (Re.other_than "."))))
                (Py.chars sender) with
        | Some email_match =>
            let domain := Py.str (Re.group1 email_match) in
            if existsb (String.eqb (Py.lower domain))
                       ["gmail"; "yahoo"; "hotmail"; "outlook"; "mail"]
            then None
            else Some (Py.title domain)
        | None => None
        end
    end.

Definition one_of (words : list string) : Re.regex :=
  fold_right (fun w r => Re.Alt (Re.Lit w) r)
             (Re.Cls (fun _ => false)) words.

Definition word_group : Re.regex := Re.Grp (Re.Plus Re.alpha).

(** The list [patterns] of [_extract_merchant_from_subject]. *)
Definition subject_patterns : list Re.regex :=
  [ Re.Seq (Re.Lit "your")
      (Re.Seq (Re.Plus Re.space)
         (Re.Seq word_group
            (Re.Seq (Re.Plus Re.space)
               (one_of ["subscription"; "bill"; "invoice"]))));
    Re.Seq word_group
      (Re.Seq (Re.Plus Re.space)
         (one_of ["premium"; "pro"; "plus"; "subscription"]));
    Re.Seq (Re.Lit "thank you for choosing")
      (Re.Seq (Re.Plus Re.space) word_group);
    Re.Seq (Re.Lit "welcome to") (Re.Seq (Re.Plus Re.space) word_group) ].

Fixpoint merchant_from_patterns (patterns : list Re.regex)
  (subject : list ascii) : option string :=
  match patterns with
  | [] => None
  | pattern :: later =>
      match Re.search true pattern subject with
      | Some m =>
          let merchant := Py.strip_by Py.is_space (Re.group1 m) in
          if (2 <? List.length merchant)%nat then Some (Py.str merchant)
          else merchant_from_patterns later subject
      | None => merchant_from_patterns later subject
      end
  end.

(** [_extract_merchant_from_subject] *)
Definition _extract_merchant_from_subject (subject : string) : option string :=
  if negb (Py.truthy subject) then None
  else merchant_from_patterns subject_patterns (Py.chars subject).

(** [_calculate_next_billing_date_from_cycle] *)
Definition _calculate_next_billing_date_from_cycle
  (last_date : Py.datetime) (cycle : string) : option Py.datetime :=
  let days :=
    if String.eqb cycle "weekly" then 7%Z
    else if String.eqb cycle "monthly" then 30%Z
    else if String.eqb cycle "quarterly" then 90%Z
    else if String.eqb cycle "annual" then 365%Z
    else 30%Z in
  Some (Py.add_days last_date days).

(** The dictionary returned by [_extract_subscription_info_from_email]. *)
Module Info.
Record t : Type := {
  merchant_name : string;
  service_name : option string;
  amount : Q;
  billing_cycle : string;
  category : string;
  confidence_score : Q;
  next_billing_date : option Py.datetime;
  cancellation_info : option CancellationInfo
}.
End Info.

(** The merchant name [_extract_subscription_info_from_email] works with:
    from the sender, else from the subject. *)
Definition email_merchant (subject sender : string) : option string :=
  Py.or_str (_extract_merchant_from_sender sender)
            (_extract_merchant_from_subject subject).

(** The text [_extract_subscription_info_from_email] searches: subject,
    sender and body joined by blanks, lower-cased. *)
Definition full_text_of (subject sender body : string) : string :=
  Py.lower (subject ++ " " ++ sender ++ " " ++ body).

(** [_extract_subscription_info_from_email] *)
Definition _extract_subscription_info_from_email
  (subject sender body : string) (date : option Py.datetime)
  : option Info.t :=
  let full_text := full_text_of subject sender body in
  match email_merchant subject sender with
  | None => None
  | Some merchant_name =>
      if negb (Py.truthy merchant_name) then None
      else
        match _extract_amount_from_text full_text with
        | None => None
        | Some amount =>
            if Qeq_bool amount 0 then None
            else
              let billing_cycle := _extract_billing_cycle_from_text full_text in
              let (category, confidence) := _classify_merchant merchant_name in
              let confidence := Py.min (confidence + 0.1) 1.0 in
              Some {| Info.merchant_name := Py.title merchant_name;
                      Info.service_name := _get_service_name merchant_name;
                      Info.amount := amount;
                      Info.billing_cycle := billing_cycle;
                      Info.category := category;
                      Info.confidence_score := confidence;
                      Info.next_billing_date :=
                        match date with
                        | Some d =>
                            if Py.truthy billing_cycle
                            then _calculate_next_billing_date_from_cycle
                                   d billing_cycle
                            else None
                        | None => None
                        end;
                      Info.cancellation_info :=
                        _get_cancellation_info merchant_name |}
        end
  end.

(** [_analyze_email_for_subscription], from the headers and the body text of
    the fetched message on. *)
Definition _analyze_email_for_subscription
  (subject sender body_text : string) (message_date : option Py.datetime)
  : option DetectedSubscription :=
  match _extract_subscription_info_from_email
          subject sender body_text message_date with
  | None => None
  | Some subscription_info =>
      Some {| merchant_name := Info.merchant_name subscription_info;
              service_name := Info.service_name subscription_info;
              amount := Info.amount subscription_info;
              billing_cycle := Info.billing_cycle subscription_info;
              category := Info.category subscription_info;
              confidence_score := Info.confidence_score subscription_info;
              detection_source := "email";
              last_transaction_date := message_date;
              next_billing_date := Info.next_billing_date subscription_info;
              cancellation_info := Info.cancellation_info subscription_info;
              plaid_stream_id := None |}
  end.


(* ================================================================== *)
(** ** The earlier email extractor

    [_extract_subscription_from_email] and its helpers are kept in the class
    next to the extractor above.  Their only caller is the first definition
    of [discover_subscriptions_from_email], which the second definition of
    that name replaces when the class body is executed. *)
(* ================================================================== *)

(** [_extract_merchant_from_email]; the body of the message is not read. *)
Definition _extract_merchant_from_email (sender subject : string)
  : option string :=
  let from_domain :=
    if Py.contains "@" sender then
      let domain :=
        map Py.to_lower (nth 1 (Py.split_on "@" [] (Py.chars sender)) []) in
      let domain_parts := Py.split_on "." [] domain in
      if (2 <=? List.length domain_parts)%nat then
        let merchant :=
          Py.str (nth (List.length domain_parts - 2) domain_parts []) in
        if existsb (String.eqb merchant) ["gmail"; "yahoo"; "outlook"; "hotmail"]
        then None
        else Some (Py.title merchant)
      else None
    else None in
  match from_domain with
  | Some merchant => Some merchant
  | None =>
      let subject_lower := Py.chars (Py.lower subject) in
      let all_patterns :=
        flat_map (fun entry => patterns (snd entry))
                 _load_subscription_patterns in
      match
        find (fun pattern =>
                match Re.search false pattern subject_lower with
                | Some _ => true
                | None => false
                end) all_patterns
      with
      | Some pattern =>
          option_map (fun m => Py.title (Py.str (Re.whole m)))
                     (Re.search false pattern subject_lower)
      | None => None
      end
  end.

(** ['amount_patterns'] of [_load_email_patterns]. *)
Definition amount_patterns_of_email : list Re.regex :=
  [ Re.Seq (Re.Chr "$") Re.number_group;
    Re.Seq Re.number_group (Re.Seq (Re.Star Re.space) (Re.Lit "USD"));
    labelled_amount "total" ].

(** [_extract_amount_from_email]: the number of the first pattern that is
    found and parses, whatever its value. *)
Fixpoint amount_from_email_patterns (patterns : list Re.regex)
  (body : list ascii) : option Q :=
  match patterns with
  | [] => None
  | pattern :: later =>
      match Re.search true pattern body with
      | Some m =>
          match py_float (Re.group1 m) with
          | Some amount => Some amount
          | None => amount_from_email_patterns later body
          end
      | None => amount_from_email_patterns later body
      end
  end.

Definition _extract_amount_from_email (body : string) : option Q :=
  amount_from_email_patterns amount_patterns_of_email (Py.chars body).

(** [_extract_billing_cycle_from_email] *)
Definition _extract_billing_cycle_from_email (body : string) : option string :=
  let body_lower := Py.lower body in
  if Py.any_in ["monthly"; "month"; "/mo"] body_lower then Some "monthly"
  else if Py.any_in ["annual"; "yearly"; "year"; "/yr"] body_lower
       then Some "annual"
  else if Py.any_in ["weekly"; "week"] body_lower then Some "weekly"
  else if Py.any_in ["quarterly"; "quarter"] body_lower then Some "quarterly"
  else None.

(** [_extract_subscription_from_email], from the subject, the sender and the
    body of the message on. *)
Definition _extract_subscription_from_email (subject sender body : string)
  : option DetectedSubscription :=
  let merchant := _extract_merchant_from_email sender subject in
  let amount_found := _extract_amount_from_email body in
  let cycle_found := _extract_billing_cycle_from_email body in
  match merchant, amount_found with
  | Some merchant_name, Some amount_value =>
      if Py.truthy merchant_name && negb (Qeq_bool amount_value 0) then
        let (category, confidence) := _classify_merchant merchant_name in
        Some {| merchant_name := merchant_name;
                service_name := _get_service_name merchant_name;
                amount := amount_value;
                billing_cycle :=
                  match Py.or_str cycle_found (Some "monthly") with
                  | Some cycle => cycle
                  | None => "monthly"
                  end;
                category := category;
                confidence_score := confidence * 0.8;
                detection_source := "email";
                last_transaction_date := None;
                next_billing_date := None;
                cancellation_info := _get_cancellation_info merchant_name;
                plaid_stream_id := None |}
      else None
  | _, _ => None
  end.

(* ================================================================== *)
(** ** Merge engines *)
(* ================================================================== *)

(** The table [variations] of [_are_subscriptions_duplicate]. *)
Definition variations : list (string * list string) :=
  [ ("netflix", ["netflix.com"; "netflix inc"]);
    ("spotify", ["spotify.com"; "spotify ab"]);
    ("amazon", ["amazon.com"; "amzn"; "amazon prime"]);
    ("apple", ["apple.com"; "itunes"; "app store"]);
    ("google", ["google.com"; "youtube"; "google play"]);
    ("microsoft", ["microsoft.com"; "msft"; "office 365"]) ].

Definition strip (s : string) : string :=
  Py.str (Py.strip_by Py.is_space (Py.chars s)).

Definition names_variation (name : string) (entry : string * list string)
  : bool :=
  Py.contains (fst entry) name || Py.any_in (snd entry) name.

(** [_are_subscriptions_duplicate].  The amounts are compared as exact
    rationals; the code subtracts the floats nearest to them, so two amounts
    exactly 1.00 apart, duplicates here, can come out a hair above 1.0
    there (1.99 and 2.99 do). *)
Definition _are_subscriptions_duplicate (sub1 sub2 : DetectedSubscription)
  : bool :=
  let name1 := strip (Py.lower (merchant_name sub1)) in
  let name2 := strip (Py.lower (merchant_name sub2)) in
  if String.eqb name1 name2 then true
  else if Py.contains name1 name2 || Py.contains name2 name1 then true
  else if existsb (fun entry => names_variation name1 entry
                                && names_variation name2 entry) variations
       then true
  else if Qle_bool (Py.abs (amount sub1 - amount sub2)) 1.0
          && String.eqb (billing_cycle sub1) (billing_cycle sub2)
          && String.eqb (category sub1) (category sub2)
       then true
  else false.

(** [max(a, b, key=len)]: [a] unless [b] is strictly longer. *)
Definition longer (a b : string) : string :=
  if (Py.len a <? Py.len b)%nat then b else a.

(** [max(a or datetime.min, b or datetime.min)], [None] when it is
    [datetime.min]. *)
Definition latest (a b : option Py.datetime)
  : Py.result (option Py.datetime) :=
  let da := match a with Some d => d | None => Py.datetime_min end in
  let db := match b with Some d => d | None => Py.datetime_min end in
  Py.bind (Py.dt_lt da db) (fun db_is_later =>
    let last_date := if db_is_later then db else da in
    Py.ok (if Py.dt_eq last_date Py.datetime_min then None
           else Some last_date)).

(** [_merge_duplicate_subscriptions] *)
Definition _merge_duplicate_subscriptions (sub1 sub2 : DetectedSubscription)
  : Py.result DetectedSubscription :=
  let bank_sub :=
    if String.eqb (detection_source sub1) "bank" then sub1 else sub2 in
  let email_sub :=
    if String.eqb (detection_source sub2) "email" then sub2 else sub1 in
  let bank_is_bank := String.eqb (detection_source bank_sub) "bank" in
  let confidence :=
    Py.max (confidence_score bank_sub) (confidence_score email_sub) in
  Py.bind (latest (last_transaction_date bank_sub)
                  (last_transaction_date email_sub)) (fun last_date =>
  Py.ok
  {| merchant_name := longer (merchant_name bank_sub) (merchant_name email_sub);
     service_name := Py.or_str (service_name email_sub) (service_name bank_sub);
     amount := if bank_is_bank then amount bank_sub else amount email_sub;
     billing_cycle :=
       if bank_is_bank then billing_cycle bank_sub
       else billing_cycle email_sub;
     category := category bank_sub;
     confidence_score := Py.min (confidence + 0.1) 1.0;
     detection_source := "both";
     last_transaction_date := last_date;
     next_billing_date :=
       Py.or_obj (next_billing_date bank_sub) (next_billing_date email_sub);
     cancellation_info :=
       Py.or_obj (cancellation_info bank_sub) (cancellation_info email_sub);
     plaid_stream_id :=
       if bank_is_bank then plaid_stream_id bank_sub else None |}).

(** The inner loop of [_merge_subscription_sources]: the first entry of
    [merged] that duplicates [email_sub] is replaced by the merge of the
    two; [None] when there is none ([duplicate_found] stays false). *)
Fixpoint merge_into (merged : list DetectedSubscription)
  (email_sub : DetectedSubscription)
  : Py.result (option (list DetectedSubscription)) :=
  match merged with
  | [] => Py.ok None
  | existing_sub :: others =>
      if _are_subscriptions_duplicate existing_sub email_sub
      then Py.bind (_merge_duplicate_subscriptions existing_sub email_sub)
                   (fun merged_sub => Py.ok (Some (merged_sub :: others)))
      else Py.bind (merge_into others email_sub)
                   (fun found => Py.ok (option_map (cons existing_sub) found))
  end.

(** One turn of the outer loop. *)
Definition add_email_sub (merged : list DetectedSubscription)
  (email_sub : DetectedSubscription) : Py.result (list DetectedSubscription) :=
  Py.bind (merge_into merged email_sub) (fun found =>
    match found with
    | Some merged' => Py.ok merged'
    | None => Py.ok (merged ++ [email_sub])%list
    end).

Fixpoint add_email_subs (merged : list DetectedSubscription)
  (email_subs : list DetectedSubscription)
  : Py.result (list DetectedSubscription) :=
  match email_subs with
  | [] => Py.ok merged
  | email_sub :: later =>
      Py.bind (add_email_sub merged email_sub)
              (fun merged' => add_email_subs merged' later)
  end.

(** The sort key [(x.confidence_score, float(x.amount))] and the strict order
    of Python tuples on it. *)
Definition sort_key (x : DetectedSubscription) : Q * Q :=
  (confidence_score x, amount x).

Definition key_lt (k1 k2 : Q * Q) : bool :=
  if Qeq_bool (fst k1) (fst k2) then Py.Qltb (snd k1) (snd k2)
  else Py.Qltb (fst k1) (fst k2).

(** [merged.sort(key=..., reverse=True)]: descending, and entries with equal
    keys keep their order. *)
Fixpoint insert_desc (x : DetectedSubscription)
  (l : list DetectedSubscription) : list DetectedSubscription :=
  match l with
  | [] => [x]
  | y :: l' =>
      if key_lt (sort_key x) (sort_key y) then y :: insert_desc x l'
      else x :: l
  end.

Definition sort_desc (l : list DetectedSubscription)
  : list DetectedSubscription :=
  fold_right insert_desc [] l.

(** A list in which no entry is followed by one of a larger key. *)
Fixpoint descending (l : list DetectedSubscription) : Prop :=
  match l with
  | x :: ((y :: _) as l') =>
      key_lt (sort_key x) (sort_key y) = false /\ descending l'
  | _ => True
  end.

(** [_merge_subscription_sources] *)
Definition _merge_subscription_sources
  (bank_subs email_subs : list DetectedSubscription)
  : Py.result (list DetectedSubscription) :=
  Py.bind (add_email_subs bank_subs email_subs)
          (fun merged => Py.ok (sort_desc merged)).

(** [_merge_subscription_data] *)
Definition _merge_subscription_data (bank_sub email_sub : DetectedSubscription)
  : DetectedSubscription :=
  {| merchant_name := merchant_name bank_sub;
     service_name := Py.or_str (service_name email_sub) (service_name bank_sub);
     amount := amount bank_sub;
     billing_cycle := billing_cycle bank_sub;
     category := category bank_sub;
     confidence_score := Py.min (confidence_score bank_sub + 0.1) 1.0;
     detection_source := "both";
     last_transaction_date := last_transaction_date bank_sub;
     next_billing_date := next_billing_date bank_sub;
     cancellation_info :=
       Py.or_obj (cancellation_info email_sub) (cancellation_info bank_sub);
     plaid_stream_id := None |}.

(** [merge_detected_subscriptions], the merge the discovery route calls. *)
Definition merge_detected_subscriptions
  (bank_subscriptions email_subscriptions : list DetectedSubscription)
  : list DetectedSubscription :=
  let merged_bank :=
    map (fun bank_sub =>
           let merchant_key := Py.lower (merchant_name bank_sub) in
           match find (fun email_sub =>
                         String.eqb (Py.lower (merchant_name email_sub))
                                    merchant_key)
                      email_subscriptions with
           | Some matching_email => _merge_subscription_data bank_sub matching_email
           | None => bank_sub
           end)
        bank_subscriptions in
  let processed_merchants :=
    map (fun bank_sub => Py.lower (merchant_name bank_sub)) bank_subscriptions in
  (merged_bank
   ++ filter (fun email_sub =>
                negb (existsb (String.eqb (Py.lower (merchant_name email_sub)))
                              processed_merchants))
             email_subscriptions)%list.


(* ================================================================== *)
(** ** Analytics *)
(* ================================================================== *)

(** The dictionary returned by [_analyze_subscription_patterns].  The value
    of ['highest_subscription'] is (name, amount, cycle); the key
    ['subscription_count'] is absent from the answer for the empty list. *)
Module Analysis.
Record t : Type := {
  total_monthly : Q;
  total_annual : Q;
  category_breakdown : list (string * (nat * Q));
  billing_cycle_breakdown : list (string * nat);
  average_subscription : Q;
  highest_subscription : option (string * Q * string);
  subscription_count : option nat;
  unused_trials : nat
}.
End Analysis.

(** One turn of the loop that accumulates [monthly_total] and
    [annual_total]. *)
Definition add_to_totals (totals : Q * Q) (sub : DetectedSubscription)
  : Q * Q :=
  let (monthly_total, annual_total) := totals in
  let amount := amount sub in
  if String.eqb (billing_cycle sub) "monthly"
  then (monthly_total + amount, annual_total + amount * 12)
  else if String.eqb (billing_cycle sub) "annual"
  then (monthly_total + amount / 12, annual_total + amount)
  else if String.eqb (billing_cycle sub) "weekly"
  then (monthly_total + amount * 4.33, annual_total + amount * 52)
  else if String.eqb (billing_cycle sub) "quarterly"
  then (monthly_total + amount / 3, annual_total + amount * 4)
  else totals.

Definition totals_of (subscriptions : list DetectedSubscription) : Q * Q :=
  fold_left add_to_totals subscriptions (0, 0).

(** [monthly_cost] of the category loop, which counts any other cycle as
    monthly. *)
Definition monthly_cost_of (sub : DetectedSubscription) : Q :=
  if String.eqb (billing_cycle sub) "monthly" then amount sub
  else if String.eqb (billing_cycle sub) "annual" then amount sub / 12
  else if String.eqb (billing_cycle sub) "weekly" then amount sub * 4.33
  else if String.eqb (billing_cycle sub) "quarterly" then amount sub / 3
  else amount sub.

Fixpoint bump_category (table : list (string * (nat * Q)))
  (category : string) (monthly_cost : Q) : list (string * (nat * Q)) :=
  match table with
  | [] => [(category, (1%nat, 0 + monthly_cost))]
  | (key, (count, cost)) :: others =>
      if String.eqb key category
      then (key, (S count, cost + monthly_cost)) :: others
      else (key, (count, cost)) :: bump_category others category monthly_cost
  end.

Fixpoint bump_cycle (table : list (string * nat)) (cycle : string)
  : list (string * nat) :=
  match table with
  | [] => [(cycle, 1%nat)]
  | (key, count) :: others =>
      if String.eqb key cycle then (key, S count) :: others
      else (key, count) :: bump_cycle others cycle
  end.

(** [max(subscriptions, key=lambda x: float(x.amount))]: the first entry of
    largest amount. *)
Definition highest_of (subscriptions : list DetectedSubscription)
  : option DetectedSubscription :=
  match subscriptions with
  | [] => None
  | first :: later =>
      Some (fold_left (fun best sub =>
                         if Py.Qltb (amount best) (amount sub) then sub
                         else best)
                      later first)
  end.

(** The test of the comprehension that collects [unused_trials]; [now] is
    what [datetime.now()] reads. *)
Definition is_unused_trial (now : Z) (sub : DetectedSubscription)
  : Py.result bool :=
  if Py.Qltb (confidence_score sub) 0.7 then
    match last_transaction_date sub with
    | Some last =>
        Py.bind (Py.dt_days_between (Py.naive now) last)
                (fun days => Py.ok (days <? 30)%Z)
    | None => Py.ok false
    end
  else Py.ok false.

Fixpoint count_unused_trials (now : Z)
  (subscriptions : list DetectedSubscription) : Py.result nat :=
  match subscriptions with
  | [] => Py.ok 0%nat
  | sub :: later =>
      Py.bind (is_unused_trial now sub) (fun hit =>
      Py.bind (count_unused_trials now later) (fun n =>
      Py.ok (if hit then S n else n)))
  end.

(** [_analyze_subscription_patterns] *)
Definition _analyze_subscription_patterns (now : Z)
  (subscriptions : list DetectedSubscription) : Py.result Analysis.t :=
  match subscriptions with
  | [] =>
      Py.ok {| Analysis.total_monthly := 0;
               Analysis.total_annual := 0;
               Analysis.category_breakdown := [];
               Analysis.billing_cycle_breakdown := [];
               Analysis.average_subscription := 0;
               Analysis.highest_subscription := None;
               Analysis.subscription_count := None;
               Analysis.unused_trials := 0 |}
  | _ :: _ =>
      let (monthly_total, annual_total) := totals_of subscriptions in
      let category_breakdown :=
        fold_left (fun table sub =>
                     bump_category table (category sub) (monthly_cost_of sub))
                  subscriptions [] in
      let billing_breakdown :=
        fold_left (fun table sub => bump_cycle table (billing_cycle sub))
                  subscriptions [] in
      let highest_sub := highest_of subscriptions in
      Py.bind (count_unused_trials now subscriptions) (fun unused_trials =>
      Py.ok {| Analysis.total_monthly := Py.round2 monthly_total;
               Analysis.total_annual := Py.round2 annual_total;
               Analysis.category_breakdown := category_breakdown;
               Analysis.billing_cycle_breakdown := billing_breakdown;
               Analysis.average_subscription :=
                 Py.round2 (monthly_total / count_of subscriptions);
               Analysis.highest_subscription :=
                 option_map (fun sub => (merchant_name sub, amount sub,
                                         billing_cycle sub))
                            highest_sub;
               Analysis.subscription_count :=
                 Some (List.length subscriptions);
               Analysis.unused_trials := unused_trials |})
  end.


(* ================================================================== *)
(** ** What the specification names, in its own words *)
(* ================================================================== *)

(** The monthly and annual equivalents of a subscription with the fixed
    multipliers of the specification; a cycle outside the four named ones
    adds nothing to the totals. *)
Definition monthly_equivalent (sub : DetectedSubscription) : Q :=
  if String.eqb (billing_cycle sub) "monthly" then amount sub * 1
  else if String.eqb (billing_cycle sub) "annual" then amount sub / 12
  else if String.eqb (billing_cycle sub) "weekly" then amount sub * 4.33
  else if String.eqb (billing_cycle sub) "quarterly" then amount sub / 3
  else 0.

Definition annual_equivalent (sub : DetectedSubscription) : Q :=
  if String.eqb (billing_cycle sub) "monthly" then amount sub * 12
  else if String.eqb (billing_cycle sub) "annual" then amount sub * 1
  else if String.eqb (billing_cycle sub) "weekly" then amount sub * 52
  else if String.eqb (billing_cycle sub) "quarterly" then amount sub * 4
  else 0.

Definition sum_over (f : DetectedSubscription -> Q)
  (subscriptions : list DetectedSubscription) : Q :=
  fold_right (fun sub acc => f sub + acc) 0 subscriptions.

(** The value a record carries where it has no date: the oldest naive one. *)
Definition date_or_min (d : option Py.datetime) : Py.datetime :=
  match d with Some x => x | None => Py.datetime_min end.


(** A candidate, and a list of candidates, whose date carries no time
    zone. *)
Definition naive_date (sub : DetectedSubscription) : Prop :=
  Py.aware (date_or_min (last_transaction_date sub)) = false.

Definition naive_dates (subscriptions : list DetectedSubscription) : Prop :=
  Forall naive_date subscriptions.



(* ================================================================== *)
(** ** Sample data *)
(* ================================================================== *)

Definition candidate (name : string) (price : Q) (cycle : string)
  (confidence : Q) (source : string) : DetectedSubscription :=
  {| merchant_name := name;
     service_name := None;
     amount := price;
     billing_cycle := cycle;
     category := "streaming";
     confidence_score := confidence;
     detection_source := source;
     last_transaction_date := None;
     next_billing_date := None;
     cancellation_info := None;
     plaid_stream_id := None |}.

Definition bank_netflix : DetectedSubscription :=
  candidate "Netflix" 15.49 "monthly" 0.9 "bank".

Definition email_netflix_com : DetectedSubscription :=
  candidate "Netflix.com" 15.49 "monthly" 0.8 "email".

(** A day of the calendar as a naive instant. *)
Definition day (n : Z) : Z := (n * Py.us_per_day)%Z.

Definition netflix_charge (d : Z) : RawTransaction :=
  {| raw_merchant_name := Py.Value "Netflix";
     raw_amount := Py.Value (-15.49);
     raw_date := Py.Parses (day d);
     raw_transaction_id := "tx";
     raw_account_id := "acct" |}.

Definition four_monthly : list DetectedSubscription :=
  [ candidate "Spotify" 9.99 "monthly" 1 "bank";
    candidate "Hulu" 12.99 "monthly" 1 "bank";
    candidate "Adobe" 52.99 "monthly" 1 "bank";
    candidate "Netflix" 14.99 "monthly" 1 "bank" ].

Definition charge (price : Q) (d : Z) : Transaction :=
  {| tx_amount := price;
     tx_date := day d;
     transaction_id := "tx";
     account_id := "acct" |}.

(* ================================================================== *)
(** ** Recommendations and the whole pipeline *)
(* ================================================================== *)

(** One entry of the list [_generate_recommendations] returns. *)
Module Recommendation.
Record t : Type := {
  type : string;
  title : string;
  description : string;
  priority : string;
  potential_savings : Q
}.
End Recommendation.

(** [str(n)] for a count. *)
Definition str_of_nat (n : nat) : string :=
  NilEmpty.string_of_uint (Nat.to_uint n).

(** [f"{x:.2f}"]: the nearest multiple of 1/100, ties to even, written with
    its sign, its integer digits and two decimals. *)
Definition format_2f (x : Q) : string :=
  let cents := Z.abs_nat (Py.round_half_even (x * 100)) in
  (if Py.Qltb x 0 then "-" else "")
  ++ str_of_nat (cents / 100) ++ "."
  ++ (if (cents mod 100 <? 10)%nat then "0" else "")
  ++ str_of_nat (cents mod 100).

(** [priority_order.get(x['priority'], 0)] *)
Definition priority_order (p : string) : Z :=
  if String.eqb p "high" then 3%Z
  else if String.eqb p "medium" then 2%Z
  else if String.eqb p "low" then 1%Z
  else 0%Z.

(** [recommendations.sort(key=..., reverse=True)]: by priority, highest
    first, entries of equal priority in their order. *)
Fixpoint insert_by_priority (x : Recommendation.t)
  (l : list Recommendation.t) : list Recommendation.t :=
  match l with
  | [] => [x]
  | y :: l' =>
      if (priority_order (Recommendation.priority x)
          <? priority_order (Recommendation.priority y))%Z
      then y :: insert_by_priority x l'
      else x :: l
  end.

Definition sort_by_priority (l : list Recommendation.t)
  : list Recommendation.t :=
  fold_right insert_by_priority [] l.

Definition high_spending (analysis : Analysis.t) : list Recommendation.t :=
  if Py.Qltb 100 (Analysis.total_monthly analysis) then
    [ {| Recommendation.type := "high_spending";
         Recommendation.title := "High Monthly Subscription Spending";
         Recommendation.description :=
           "You're spending $"
           ++ format_2f (Analysis.total_monthly analysis)
           ++ " monthly on subscriptions. Consider reviewing and canceling unused services.";
         Recommendation.priority := "high";
         Recommendation.potential_savings :=
           Analysis.total_monthly analysis * 0.2 |} ]
  else [].

Definition duplicate_services_of (entry : string * (nat * Q))
  : Recommendation.t :=
  let (category, data) := entry in
  let (count, monthly_cost) := data in
  {| Recommendation.type := "duplicate_services";
     Recommendation.title := "Multiple " ++ Py.title category ++ " Services";
     Recommendation.description :=
       "You have " ++ str_of_nat count ++ " " ++ category
       ++ " subscriptions costing $" ++ format_2f monthly_cost
       ++ "/month. Consider consolidating.";
     Recommendation.priority := "medium";
     Recommendation.potential_savings := monthly_cost * 0.5 |}.

Definition duplicate_services (analysis : Analysis.t)
  : list Recommendation.t :=
  let categories_with_multiple :=
    filter (fun entry => (1 <? fst (snd entry))%nat)
           (Analysis.category_breakdown analysis) in
  map duplicate_services_of
      (filter (fun entry => (2 <? fst (snd entry))%nat)
              categories_with_multiple).

Definition annual_billing (subscriptions : list DetectedSubscription)
  : list Recommendation.t :=
  let monthly_subs :=
    filter (fun sub => String.eqb (billing_cycle sub) "monthly"
                       && Py.Qltb 10 (amount sub))
           subscriptions in
  if (3 <=? List.length monthly_subs)%nat then
    [ {| Recommendation.type := "annual_billing";
         Recommendation.title := "Switch to Annual Billing";
         Recommendation.description :=
           "Consider switching " ++ str_of_nat (List.length monthly_subs)
           ++ " monthly subscriptions to annual billing for potential savings.";
         Recommendation.priority := "low";
         Recommendation.potential_savings :=
           Py.sumQ (map (fun sub => amount sub * 2) monthly_subs) |} ]
  else [].

(** [analysis['unused_trials'] > 0].  In the answer for the empty list of
    subscriptions, the one without 'subscription_count', 'unused_trials' is
    the empty list, and ordering a list against a number raises. *)
Definition has_unused_trials (analysis : Analysis.t) : Py.result bool :=
  match Analysis.subscription_count analysis with
  | None => Py.raise Py.TypeError
  | Some _ => Py.ok (0 <? Analysis.unused_trials analysis)%nat
  end.

Definition unused_trials_of (analysis : Analysis.t) : Recommendation.t :=
  {| Recommendation.type := "unused_trials";
     Recommendation.title := "Potential Unused Trials";
     Recommendation.description :=
       "You have " ++ str_of_nat (Analysis.unused_trials analysis)
       ++ " recent subscriptions that might be free trials. Review before they convert to paid.";
     Recommendation.priority := "high";
     Recommendation.potential_savings := 0 |}.

(** [_generate_recommendations] *)
Definition _generate_recommendations
  (subscriptions : list DetectedSubscription) (analysis : Analysis.t)
  : Py.result (list Recommendation.t) :=
  let recommendations :=
    (high_spending analysis ++ duplicate_services analysis
     ++ annual_billing subscriptions)%list in
  Py.bind (has_unused_trials analysis) (fun some_unused =>
    Py.ok (sort_by_priority
             (if some_unused
              then (recommendations ++ [unused_trials_of analysis])%list
              else recommendations))).

(** The dictionary [discover_all_subscriptions] returns; the subscriptions
    are carried as records rather than as the dictionaries of
    [_subscription_to_dict]. *)
Module Discovery.
Record t : Type := {
  subscriptions : list DetectedSubscription;
  analysis : Analysis.t;
  recommendations : list Recommendation.t;
  bank_count : nat;
  email_count : nat;
  total_unique : nat
}.
End Discovery.

(** [discover_all_subscriptions], from the lists the two discovery calls
    return on; a source without tokens or credentials contributes the empty
    list. *)
Definition discover_all_subscriptions (now : Z)
  (bank_subscriptions email_subscriptions : list DetectedSubscription)
  : Py.result Discovery.t :=
  Py.bind (_merge_subscription_sources bank_subscriptions email_subscriptions)
    (fun merged_subscriptions =>
  Py.bind (_analyze_subscription_patterns now merged_subscriptions)
    (fun analysis =>
  Py.bind (_generate_recommendations merged_subscriptions analysis)
    (fun recommendations =>
  Py.ok {| Discovery.subscriptions := merged_subscriptions;
           Discovery.analysis := analysis;
           Discovery.recommendations := recommendations;
           Discovery.bank_count := List.length bank_subscriptions;
           Discovery.email_count := List.length email_subscriptions;
           Discovery.total_unique := List.length merged_subscriptions |}))).

(** The ['summary'] of the route [discover_subscriptions] in
    [subscription_discovery.py], with the merged list it is computed from. *)
Module Summary.
Record t : Type := {
  total_found : nat;
  bank_sources : nat;
  email_sources : nat;
  high_confidence : nat;
  estimated_monthly_cost : Q
}.
End Summary.

Definition discover_subscriptions_summary
  (bank_subscriptions email_subscriptions : list DetectedSubscription)
  : list DetectedSubscription * Summary.t :=
  let merged_subscriptions :=
    merge_detected_subscriptions bank_subscriptions email_subscriptions in
  (merged_subscriptions,
   {| Summary.total_found := List.length merged_subscriptions;
      Summary.bank_sources := List.length bank_subscriptions;
      Summary.email_sources := List.length email_subscriptions;
      Summary.high_confidence :=
        List.length (filter (fun s => Py.Qltb 0.8 (confidence_score s))
                            merged_subscriptions);
      Summary.estimated_monthly_cost :=
        Py.sumQ (map amount
                     (filter (fun s => String.eqb (billing_cycle s) "monthly")
                             merged_subscriptions))
        + Py.sumQ (map (fun s => amount s / 12)
                       (filter (fun s => String.eqb (billing_cycle s) "annual")
                               merged_subscriptions)) |}).

(* ================================================================== *)
(** ** Notions used to state further properties *)
(* ================================================================== *)

(** [x] may stand before [y] in the merged list: a higher confidence, or the
    same confidence and no smaller amount. *)
Definition ranks_no_lower (x y : DetectedSubscription) : Prop :=
  confidence_score y < confidence_score x
  \/ (confidence_score x == confidence_score y /\ amount y <= amount x).

(** Email candidates none of which duplicates a record that is in the merged
    list when its turn comes. *)
Fixpoint fresh_emails (merged email_subs : list DetectedSubscription)
  : Prop :=
  match email_subs with
  | [] => True
  | email_sub :: later =>
      (forall existing, In existing merged ->
                        _are_subscriptions_duplicate existing email_sub = false)
      /\ fresh_emails (merged ++ [email_sub]) later
  end.

(** The four cycles the totals of the analytics know. *)
Definition counted_cycle (cycle : string) : bool :=
  String.eqb cycle "monthly" || String.eqb cycle "annual"
  || String.eqb cycle "weekly" || String.eqb cycle "quarterly".

(** Highest priority first. *)
Definition priority_no_lower (x y : Recommendation.t) : Prop :=
  (priority_order (Recommendation.priority y)
   <= priority_order (Recommendation.priority x))%Z.

(** The taxonomy read as plain keywords: for each key of the table the texts
    to look for as substrings of the lower-cased name. *)
Definition keyword_table : list (string * list string) :=
  [ ("streaming",
     ["netflix"; "spotify"; "apple music"; "amazon prime"; "hulu"; "disney";
      "hbo"; "paramount"; "peacock"]);
    ("productivity",
     ["microsoft 365"; "office 365"; "adobe"; "dropbox"; "google workspace";
      "slack"; "zoom"; "notion"]);
    ("cloud_storage",
     ["icloud"; "google drive"; "onedrive"; "dropbox"; "box.com"; "mega"]);
    ("fitness",
     ["peloton"; "fitbit"; "myfitnesspal"; "strava"; "nike training";
      "apple fitness"]);
    ("news",
     ["new york times"; "washington post"; "wall street journal";
      "the economist"; "medium"; "substack"]) ].

(** Classification by substring tests alone. *)
Definition classify_by_keywords (merchant_name : string) : string * Q :=
  let merchant_lower := Py.lower merchant_name in
  match find (fun entry => Py.any_in (snd entry) merchant_lower)
             keyword_table with
  | Some (key, _) => (key, 0.9)
  | None =>
      if Py.any_in subscription_indicators merchant_lower
      then ("unknown", 0.6)
      else ("unknown", 0.3)
  end.


(** What a subscription adds to its category's monthly cost without adding
    to the totals: its amount, when its cycle is none of the four. *)
Definition uncounted_amount (sub : DetectedSubscription) : Q :=
  if counted_cycle (billing_cycle sub) then 0 else amount sub.

(** The counts and the monthly costs of a category table, added up. *)
Definition total_count {A : Type} (table : list (string * (nat * A))) : nat :=
  list_sum (map (fun entry => fst (snd entry)) table).

Definition total_cost (table : list (string * (nat * Q))) : Q :=
  fold_right (fun entry acc => snd (snd entry) + acc) 0 table.

(** What a subscription adds to the route's estimated monthly cost. *)
Definition route_equivalent (sub : DetectedSubscription) : Q :=
  if String.eqb (billing_cycle sub) "monthly" then amount sub
  else if String.eqb (billing_cycle sub) "annual" then amount sub / 12
  else 0.

(** A raw transaction that names its merchant. *)
Definition names_merchant (transaction : RawTransaction) : bool :=
  match raw_merchant_name transaction with
  | Py.Value name => Py.truthy (Py.lower name)
  | _ => false
  end.

(** A raw transaction the grouping loop can read: its merchant name is not
    null and, when it names a merchant, its amount is not null and its date
    is a date. *)
Definition readable (transaction : RawTransaction) : bool :=
  match raw_merchant_name transaction with
  | Py.Null => false
  | _ =>
      negb (names_merchant transaction)
      || (match raw_amount transaction with Py.Null => false | _ => true end
          && match raw_date transaction with
             | Py.Parses _ => true
             | Py.Malformed => false
             end)
  end.

(** A stream with a last amount other than zero. *)
Definition has_amount (stream : PlaidStream) : bool :=
  match stream_last_amount stream with
  | Py.Value (Py.Value a) => negb (Qeq_bool a 0)
  | _ => false
  end.

(** A stream [_create_subscription_from_plaid_stream] makes a subscription
    of: it has an amount, its merchant name is not null and its last date,
    if it has one, is a date. *)
Definition usable_stream (stream : PlaidStream) : bool :=
  has_amount stream
  && match stream_merchant_name stream with Py.Null => false | _ => true end
  && match stream_last_date stream with
     | Some Py.Malformed => false
     | _ => true
     end.

(** [s.isascii()] *)
Definition isascii (s : string) : bool :=
  forallb (fun c => (Py.code c <? 128)%nat) (Py.chars s).

(** A confidence score within [0, 1]. *)
Definition in_unit_interval (sub : DetectedSubscription) : Prop :=
  0 <= confidence_score sub <= 1.

(** A record the bank discovery appends: the subscription made of one of
    the streams of the bank. *)
Definition from_bank_discovery (sub : DetectedSubscription) : Prop :=
  exists stream, _create_subscription_from_plaid_stream stream = Some sub.

(** A record the email discovery appends: the candidate made of one of the
    messages. *)
Definition from_email_discovery (sub : DetectedSubscription) : Prop :=
  exists subject sender body date,
    _analyze_email_for_subscription subject sender body date = Some sub.

(** A recommendation of the given type. *)
Definition is_type (name : string) (r : Recommendation.t) : bool :=
  String.eqb (Recommendation.type r) name.

(** How many recommendations of a type a list holds. *)
Definition count_type (name : string) (l : list Recommendation.t) : nat :=
  List.length (filter (is_type name) l).

(* ================================================================== *)
(** ** What a pattern consumes *)
(* ================================================================== *)

(** The texts a pattern can take from the head of its input, with the
    group before and after: [consumes icase r s g s1 g1] when [r] can read
    [s] down to [s1] and turn the group [g] into [g1]. *)
Inductive iter (R : list ascii -> option (list ascii)
                    -> list ascii -> option (list ascii) -> Prop)
  : list ascii -> option (list ascii)
    -> list ascii -> option (list ascii) -> Prop :=
| iter_stop s g : iter R s g s g
| iter_step s g s1 g1 s2 g2 :
    R s g s1 g1 -> iter R s1 g1 s2 g2 -> iter R s g s2 g2.

Fixpoint consumes (icase : bool) (r : Re.regex)
  (s : list ascii) (g : option (list ascii))
  (s1 : list ascii) (g1 : option (list ascii)) {struct r} : Prop :=
  match r with
  | Re.Eps => s1 = s /\ g1 = g
  | Re.Chr c => exists x, s = x :: s1 /\ Re.chr_eq icase c x = true /\ g1 = g
  | Re.Cls p => exists x, s = x :: s1 /\ p x = true /\ g1 = g
  | Re.Seq r1 r2 =>
      exists s' g', consumes icase r1 s g s' g' /\ consumes icase r2 s' g' s1 g1
  | Re.Alt r1 r2 => consumes icase r1 s g s1 g1 \/ consumes icase r2 s g s1 g1
  | Re.Star r1 => iter (consumes icase r1) s g s1 g1
  | Re.Grp r1 =>
      exists g', consumes icase r1 s g s1 g'
                 /\ g1 = Some (firstn (List.length s - List.length s1) s)
  end.

(** A pattern without capturing group. *)
Fixpoint group_free (r : Re.regex) : bool :=
  match r with
  | Re.Eps | Re.Chr _ | Re.Cls _ => true
  | Re.Seq r1 r2 | Re.Alt r1 r2 => group_free r1 && group_free r2
  | Re.Star r1 => group_free r1
  | Re.Grp _ => false
  end.

(** The pattern always leaves in the group a piece of its input that
    satisfies [P]. *)
Definition sets_group (icase : bool) (P : list ascii -> Prop)
  (r : Re.regex) : Prop :=
  forall s g s1 g1,
    consumes icase r s g s1 g1 ->
    exists t pre post, g1 = Some t /\ s = (pre ++ t ++ post)%list /\ P t.

(** Digits, then possibly a dot and more digits. *)
Definition number_text (t : list ascii) : Prop :=
  exists d1 d2,
    d1 <> [] /\ forallb Py.is_digit d1 = true
    /\ forallb Py.is_digit d2 = true
    /\ (t = (d1 ++ d2)%list \/ t = (d1 ++ "."%char :: d2)%list).

Definition word_text (t : list ascii) : Prop :=
  t <> [] /\ forallb Py.is_alpha t = true.

(** [_extract_billing_cycle_from_email] told by the shortest keyword of
    each family. *)
Definition cycle_by_stems (text : string) : option string :=
  if Py.contains "month" text || Py.contains "/mo" text then Some "monthly"
  else if Py.contains "annual" text || Py.contains "year" text
          || Py.contains "/yr" text then Some "annual"
  else if Py.contains "week" text then Some "weekly"
  else if Py.contains "quarter" text then Some "quarterly"
  else None.

(* ================================================================== *)
(** ** Basic facts about the primitives *)
(* ================================================================== *)

Lemma Qltb_true (x y : Q) : Py.Qltb x y = true <-> x < y.
Proof.
  unfold Py.Qltb. rewrite negb_true_iff.
  split; intro H.
  - apply Qnot_le_lt. intro Hle. apply Qle_bool_iff in Hle. congruence.
  - destruct (Qle_bool y x) eqn:E; [| reflexivity].
    apply Qle_bool_iff in E. exfalso. apply (Qlt_not_le _ _ H E).
Qed.

Lemma Qltb_false (x y : Q) : Py.Qltb x y = false <-> y <= x.
Proof.
  unfold Py.Qltb. rewrite negb_false_iff. apply Qle_bool_iff.
Qed.

Lemma py_min_Qmin (x y : Q) : Py.min x y == Qmin x y.
Proof.
  unfold Py.min. destruct (Py.Qltb y x) eqn:E.
  - apply Qltb_true in E. symmetry. apply Q.min_r. apply Qlt_le_weak, E.
  - apply Qltb_false in E. symmetry. apply Q.min_l. exact E.
Qed.


Lemma count_of_pos {A : Type} (l : list A) : l <> [] -> 0 < count_of l.
Proof.
  destruct l as [| a l]; [congruence |]. intros _.
  unfold count_of, Qlt. simpl. lia.
Qed.

Lemma count_of_le {A B : Type} (l : list A) (l' : list B) :
  (List.length l <= List.length l')%nat -> count_of l <= count_of l'.
Proof.
  intro H. unfold count_of. rewrite <- Zle_Qle. lia.
Qed.

(** [set_of] keeps one representative of every value and no two equal
    ones. *)
Lemma existsb_Qeq_InA (x : Q) (l : list Q) :
  existsb (Qeq_bool x) l = true <-> InA Qeq x l.
Proof.
  rewrite existsb_exists, InA_alt. split.
  - intros [y [Hin Heq]]. exists y. split; [now apply Qeq_bool_iff | exact Hin].
  - intros [y [Heq Hin]]. exists y. split; [exact Hin | now apply Qeq_bool_iff].
Qed.

Lemma set_of_InA (x : Q) (l : list Q) :
  InA Qeq x l -> InA Qeq x (Py.set_of l).
Proof.
  induction l as [| a l IH]; intro H; [inversion H |].
  simpl. destruct (existsb (Qeq_bool a) l) eqn:E.
  - apply IH. inversion H as [? ? Heq | ? ? Hin]; subst; [| exact Hin].
    apply existsb_Qeq_InA in E.
    eapply InA_eqA; [exact Q_Setoid | symmetry; exact Heq | exact E].
  - inversion H as [? ? Heq | ? ? Hin]; subst.
    + now constructor.
    + constructor 2. now apply IH.
Qed.

Lemma set_of_nonempty (l : list Q) : l <> [] -> Py.set_of l <> [].
Proof.
  destruct l as [| a l]; [congruence |]. intros _ Hnil.
  assert (H : InA Qeq a (Py.set_of (a :: l))).
  { apply set_of_InA. constructor. reflexivity. }
  rewrite Hnil in H. inversion H.
Qed.

(** A list without repetition whose values all occur in another list is no
    longer than it. *)
Lemma NoDupA_incl_length (l l' : list Q) :
  NoDupA Qeq l ->
  (forall x, InA Qeq x l -> InA Qeq x l') ->
  (List.length l <= List.length l')%nat.
Proof.
  revert l'. induction l as [| a l IH]; intros l' Hnd Hincl; simpl; [lia |].
  inversion Hnd as [| ? ? Hnotin Hnd']; subst.
  assert (Ha : InA Qeq a l') by (apply Hincl; constructor; reflexivity).
  apply InA_split in Ha. destruct Ha as [l1 [y [l2 [Hay Hl']]]]. subst l'.
  rewrite length_app. simpl.
  assert (Hlen : (List.length l <= List.length (l1 ++ l2))%nat).
  { apply IH; [exact Hnd' |].
    intros x Hx.
    assert (Hx' : InA Qeq x (l1 ++ y :: l2))
      by (apply Hincl; constructor 2; exact Hx).
    rewrite InA_app_iff in Hx'. rewrite InA_app_iff.
    destruct Hx' as [H1 | H2]; [now left |].
    inversion H2 as [? ? Hxy | ? ? Hin2]; subst; [| now right].
    exfalso. apply Hnotin.
    eapply InA_eqA; [exact Q_Setoid | | exact Hx].
    rewrite Hay. exact Hxy. }
  rewrite length_app in Hlen. lia.
Qed.


(* ================================================================== *)
(** ** The recurring pattern detector *)
(* ================================================================== *)

Lemma amount_consistency_lower_bound (transactions : list Transaction)
  (ds : list Q) :
  transactions <> [] ->
  NoDupA Qeq ds ->
  (forall x, InA Qeq x ds -> InA Qeq x (map tx_amount transactions)) ->
  count_of ds / count_of transactions <= amount_consistency_of transactions.
Proof.
  intros Hne Hnd Hincl. unfold amount_consistency_of.
  assert (Hpos : 0 < count_of transactions) by now apply count_of_pos.
  assert (Hlen : count_of (map tx_amount transactions) == count_of transactions).
  { unfold count_of. now rewrite length_map. }
  rewrite Hlen.
  unfold Qdiv. apply Qmult_le_compat_r.
  - apply count_of_le. apply NoDupA_incl_length; [exact Hnd |].
    intros x Hx. apply set_of_InA. now apply Hincl.
  - apply Qlt_le_weak. now apply Qinv_lt_0_compat.
Qed.

Lemma detect_rejects_on_variance (transactions : list Transaction) :
  0.3 < amount_consistency_of transactions ->
  _detect_recurring_pattern transactions = None.
Proof.
  intro H. unfold _detect_recurring_pattern.
  destruct (List.length transactions <? 2)%nat; [reflexivity |].
  apply Qltb_true in H. cbv zeta. now rewrite H.
Qed.

(** C4. A group of at least two transactions in which [ds] lists pairwise
    different amounts that all occur, with [len(ds) / len(group) > 0.3] (so
    that the ratio of distinct amounts to transactions exceeds 0.3), is
    rejected by the detector: no pattern is returned. *)
Theorem detect_rejects_varied_amounts
  (transactions : list Transaction) (ds : list Q) :
  (2 <= List.length transactions)%nat ->
  NoDupA Qeq ds ->
  (forall x, InA Qeq x ds -> InA Qeq x (map tx_amount transactions)) ->
  0.3 < count_of ds / count_of transactions ->
  _detect_recurring_pattern transactions = None.
Proof.
  intros Hlen Hnd Hincl Hratio.
  apply detect_rejects_on_variance.
  eapply Qlt_le_trans; [exact Hratio |].
  apply amount_consistency_lower_bound; auto.
  destruct transactions; simpl in Hlen; [lia | congruence].
Qed.

Lemma detect_rejects_varied_amounts_witness :
  _detect_recurring_pattern
    [charge 9.99 0; charge 10.99 30; charge 9.99 60; charge 9.99 90] = None.
Proof.
  apply (detect_rejects_varied_amounts _ [9.99; 10.99]).
  - simpl. lia.
  - repeat constructor; intro H; inversion H as [? ? E | ? ? E]; subst;
      try discriminate E; inversion E.
  - intros x Hx. simpl.
    inversion Hx as [? ? E | ? ? Hx']; subst; [now constructor |].
    inversion Hx' as [? ? E | ? ? Hx'']; subst;
      [constructor 2; now constructor | inversion Hx''].
  - reflexivity.
Defined.

(** C5. For a group that passes the amount-consistency check, when the
    average of the consecutive day intervals lies in none of the inclusive
    ranges 25-35, 85-95, 350-375 and 6-8, no billing cycle is assigned and
    the detector returns no pattern. *)
Theorem detect_rejects_unstable_cadence (transactions : list Transaction) :
  (2 <= List.length transactions)%nat ->
  ~ 0.3 < amount_consistency_of transactions ->
  ~ (25 <= avg_interval_of transactions <= 35) ->
  ~ (85 <= avg_interval_of transactions <= 95) ->
  ~ (350 <= avg_interval_of transactions <= 375) ->
  ~ (6 <= avg_interval_of transactions <= 8) ->
  cycle_of_interval (avg_interval_of transactions) = None
  /\ _detect_recurring_pattern transactions = None.
Proof.
  intros _ _ Hm Hq Ha Hw.
  assert (Hrange : forall lo hi : Q,
             ~ (lo <= avg_interval_of transactions <= hi) ->
             Qle_bool lo (avg_interval_of transactions)
             && Qle_bool (avg_interval_of transactions) hi = false).
  { intros lo hi Hn. apply not_true_is_false. intro Ht.
    apply andb_true_iff in Ht. destruct Ht as [H1 H2].
    apply Hn. split; now apply Qle_bool_iff. }
  assert (Hcycle : cycle_of_interval (avg_interval_of transactions) = None).
  { unfold cycle_of_interval.
    now rewrite (Hrange _ _ Hm), (Hrange _ _ Hq), (Hrange _ _ Ha),
      (Hrange _ _ Hw). }
  split; [exact Hcycle |].
  unfold _detect_recurring_pattern.
  destruct (List.length transactions <? 2)%nat; [reflexivity |].
  cbv zeta.
  destruct (Py.Qltb 0.3 (amount_consistency_of transactions));
    [reflexivity |].
  now rewrite Hcycle.
Qed.

Lemma detect_rejects_unstable_cadence_witness :
  let fortnightly :=
    [charge 9.99 0; charge 9.99 14; charge 9.99 28; charge 9.99 42] in
  avg_interval_of fortnightly == 14
  /\ cycle_of_interval (avg_interval_of fortnightly) = None
  /\ _detect_recurring_pattern fortnightly = None.
Proof.
  split; [reflexivity |].
  apply detect_rejects_unstable_cadence.
  - simpl. lia.
  - vm_compute. discriminate.
  - vm_compute. intros [H _]. now apply H.
  - vm_compute. intros [H _]. now apply H.
  - vm_compute. intros [H _]. now apply H.
  - vm_compute. intros [_ H]. now apply H.
Defined.

(** Every entry of the outcome of [_analyze_recurring_transactions] is the
    one the second loop makes of some group. *)
Lemma analyzed_entry_group (raw : list RawTransaction)
  (entries : list Recurring.t) (entry : Recurring.t) :
  _analyze_recurring_transactions raw = inl entries ->
  In entry entries ->
  exists group, analyze_group group = Some entry.
Proof.
  unfold _analyze_recurring_transactions, Py.bind, Py.ok.
  destruct (group_by_merchant raw) as [groups | e]; [| discriminate].
  intro H. injection H as <-. intro Hin.
  apply in_flat_map in Hin. destruct Hin as [group [_ Hin]].
  exists group.
  destruct (analyze_group group) as [entry' |]; [| destruct Hin].
  destruct Hin as [-> | []]. reflexivity.
Qed.

(** C10. A group of fewer than four transactions never yields a pattern:
    with two or three transactions the ratio of distinct amounts to
    transactions is at least 1/3, above the 0.3 threshold even when all
    amounts are equal; and every entry [_analyze_recurring_transactions]
    reports has at least four transactions. *)
Theorem detect_needs_four_transactions :
  (forall transactions : list Transaction,
     (List.length transactions < 4)%nat ->
     _detect_recurring_pattern transactions = None)
  /\ (forall transactions : list Transaction,
        (2 <= List.length transactions < 4)%nat ->
        (1 # 3) <= amount_consistency_of transactions
        /\ 0.3 < amount_consistency_of transactions)
  /\ (forall (raw : list RawTransaction) (entries : list Recurring.t)
             (entry : Recurring.t),
        _analyze_recurring_transactions raw = inl entries ->
        In entry entries ->
        (4 <= List.length (Recurring.transactions entry))%nat).
Proof.
  assert (Hratio : forall transactions : list Transaction,
             (2 <= List.length transactions < 4)%nat ->
             (1 # 3) <= amount_consistency_of transactions).
  { intros transactions Hlen.
    assert (Hne : transactions <> [])
      by (destruct transactions; simpl in Hlen; [lia | congruence]).
    assert (Hset : Py.set_of (map tx_amount transactions) <> []).
    { apply set_of_nonempty. destruct transactions; simpl; congruence. }
    unfold amount_consistency_of, count_of. rewrite length_map.
    apply Qle_shift_div_l.
    - unfold Qlt. simpl. lia.
    - destruct (Py.set_of (map tx_amount transactions)) as [| d ds];
        [congruence |].
      unfold Qle, Qmult. cbn [List.length Qnum Qden inject_Z]. lia. }
  assert (Hsmall : forall transactions : list Transaction,
             (List.length transactions < 4)%nat ->
             _detect_recurring_pattern transactions = None).
  { intros transactions Hlen.
    destruct (Nat.lt_ge_cases (List.length transactions) 2) as [Hlt | Hge].
    - unfold _detect_recurring_pattern.
      apply Nat.ltb_lt in Hlt. now rewrite Hlt.
    - apply detect_rejects_on_variance.
      eapply Qlt_le_trans; [| apply Hratio; lia]. reflexivity. }
  split; [exact Hsmall |]. split.
  - intros transactions Hlen. split; [now apply Hratio |].
    eapply Qlt_le_trans; [| apply Hratio; exact Hlen]. reflexivity.
  - intros raw entries entry Hraw Hin.
    destruct (analyzed_entry_group raw entries entry Hraw Hin)
      as [[merchant group] Hgroup].
    unfold analyze_group in Hgroup.
    destruct (List.length group <? 2)%nat; [discriminate |].
    destruct (_detect_recurring_pattern (sort_by_date group)) eqn:Hdet;
      [| discriminate].
    destruct (_classify_merchant merchant) as [category confidence].
    destruct (Py.Qltb 0.7 confidence); [| discriminate].
    injection Hgroup as <-. simpl.
    apply Nat.le_ngt. intro Hlt. apply Hsmall in Hlt. congruence.
Qed.

Lemma detect_needs_four_transactions_witness :
  _detect_recurring_pattern
    [charge 15.49 0; charge 15.49 30; charge 15.49 60] = None
  /\ (1 # 3) <= amount_consistency_of
                  [charge 15.49 0; charge 15.49 30; charge 15.49 60].
Proof.
  split.
  - apply (proj1 detect_needs_four_transactions). simpl. lia.
  - apply (proj1 (proj2 detect_needs_four_transactions)). simpl. lia.
Defined.

(* ================================================================== *)
(** ** The merchant classifier *)
(* ================================================================== *)

Lemma classify_confidence_cases (merchant : string) :
  snd (_classify_merchant merchant) = 0.9
  \/ snd (_classify_merchant merchant) = 0.6
  \/ snd (_classify_merchant merchant) = 0.3.
Proof.
  unfold _classify_merchant. cbv zeta.
  destruct (find _ _load_subscription_patterns) as [[key group] |].
  - now left.
  - destruct (Py.any_in subscription_indicators (Py.lower merchant));
      [right; left | right; right]; reflexivity.
Qed.

(** C3. On "Netflix Inc" and on "netflix.com" the classifier answers with
    confidence 0.9 and with the key of the matching table entry,
    'streaming'; the category that entry declares, 'entertainment', is not
    what is returned. *)
Theorem classify_netflix_answers_table_key :
  _classify_merchant "Netflix Inc" = ("streaming", 0.9)
  /\ _classify_merchant "netflix.com" = ("streaming", 0.9)
  /\ option_map (fun entry => declared_category (snd entry))
       (find (fun entry => String.eqb (fst entry) "streaming")
             _load_subscription_patterns)
     = Some "entertainment".
Proof.
  repeat split; vm_compute; reflexivity.
Qed.

(* ================================================================== *)
(** ** Confidence of the candidates, path by path *)
(* ================================================================== *)

(** The stream path and the email extractor keep the score within [0, 1]:
    they raise the classifier's 0.9, 0.6 or 0.3 by a constant and clamp it
    with [min(..., 1.0)]. *)
Lemma boosted_confidence_in_unit_interval (merchant : string) (boost : Q) :
  0 <= boost ->
  0 <= Py.min (snd (_classify_merchant merchant) + boost) 1.0 <= 1.
Proof.
  intro Hb. rewrite py_min_Qmin. split.
  - apply Q.min_glb; [| discriminate].
    destruct (classify_confidence_cases merchant) as [-> | [-> | ->]];
      (eapply Qle_trans; [| apply Qplus_le_r; exact Hb]); discriminate.
  - eapply Qle_trans; [apply Q.le_min_r | discriminate].
Qed.

Lemma Qabs_zero_iff (a : Q) : Qabs a == 0 <-> a == 0.
Proof.
  destruct a as [n d]. unfold Qabs, Qeq. simpl. lia.
Qed.


Lemma abs_zero_bool (a : Q) : Qeq_bool (Py.abs a) 0 = Qeq_bool a 0.
Proof.
  unfold Py.abs.
  destruct (Qeq_bool a 0) eqn:E.
  - apply Qeq_eq_bool. apply Qeq_bool_eq in E.
    now apply (proj2 (Qabs_zero_iff a)).
  - apply not_true_is_false. intro H. apply Qeq_bool_eq in H.
    apply (proj1 (Qabs_zero_iff a)) in H. apply Qeq_eq_bool in H.
    congruence.
Qed.

(** What [_create_subscription_from_plaid_stream] answers: nothing for a
    stream that is not usable, and for a usable one the record made of its
    amount, its name (or 'Unknown Merchant') and its date. *)
Lemma stream_outcome (stream : PlaidStream) :
  match _create_subscription_from_plaid_stream stream with
  | None => usable_stream stream = false
  | Some d =>
      usable_stream stream = true
      /\ exists a name last_date,
           stream_last_amount stream = Py.Value (Py.Value a)
           /\ ~ a == 0
           /\ name = match stream_merchant_name stream with
                     | Py.Value n => n
                     | _ => "Unknown Merchant"
                     end
           /\ last_date = match stream_last_date stream with
                          | Some (Py.Parses z) => Some (Py.naive z)
                          | _ => None
                          end
           /\ d = {| merchant_name := Py.title name;
                     service_name := _get_service_name name;
                     amount := Py.abs a;
                     billing_cycle :=
                       _map_plaid_frequency_to_billing_cycle
                         match stream_frequency stream with
                         | Some f => f
                         | None => "UNKNOWN"
                         end;
                     category := fst (_classify_merchant name);
                     confidence_score :=
                       Py.min (snd (_classify_merchant name) + 0.2) 1.0;
                     detection_source := "bank";
                     last_transaction_date := last_date;
                     next_billing_date :=
                       match last_date with
                       | Some d =>
                           _calculate_next_billing_date d
                             match stream_frequency stream with
                             | Some f => f
                             | None => "UNKNOWN"
                             end
                       | None => None
                       end;
                     cancellation_info := _get_cancellation_info name;
                     plaid_stream_id := stream_id stream |}
  end.
Proof.
  unfold _create_subscription_from_plaid_stream, stream_attempt,
    stream_amount, usable_stream, has_amount, Py.float_or_zero.
  cbv zeta.
  destruct (stream_last_amount stream) as [| | [| | a]];
    cbn [Py.bind Py.ok Py.raise andb]; try reflexivity.
  rewrite abs_zero_bool.
  destruct (Qeq_bool a 0) eqn:Ea; cbn [negb andb]; [reflexivity |].
  assert (Hne : ~ a == 0).
  { intro H. apply Qeq_bool_iff in H. congruence. }
  destruct (stream_last_date stream) as [[z |] |];
    cbn [Py.strptime Py.bind Py.ok Py.raise];
    [| now rewrite andb_false_r |];
    (destruct (stream_merchant_name stream) as [| | n];
     [| reflexivity |]);
    (match goal with
     | |- context [_classify_merchant ?name] =>
         destruct (_classify_merchant name) as [category confidence] eqn:Hc
     end);
    (split; [reflexivity |]);
    eexists; eexists; eexists;
    (split; [reflexivity |]); (split; [exact Hne |]);
    (split; [reflexivity |]); (split; [reflexivity |]);
    rewrite Hc; reflexivity.
Qed.

Lemma stream_confidence_in_unit_interval (stream : PlaidStream)
  (d : DetectedSubscription) :
  _create_subscription_from_plaid_stream stream = Some d ->
  0 <= confidence_score d <= 1.
Proof.
  intro H. pose proof (stream_outcome stream) as Ho. rewrite H in Ho.
  destruct Ho as [_ [a [name [last_date [_ [_ [_ [_ ->]]]]]]]].
  cbn [confidence_score].
  apply boosted_confidence_in_unit_interval. discriminate.
Qed.

Lemma email_confidence_in_unit_interval (subject sender body : string)
  (date : option Py.datetime) (d : DetectedSubscription) :
  _analyze_email_for_subscription subject sender body date = Some d ->
  0 <= confidence_score d <= 1.
Proof.
  unfold _analyze_email_for_subscription,
    _extract_subscription_info_from_email.
  cbv zeta.
  destruct (email_merchant subject sender) as [m |]; [| discriminate].
  destruct (negb (Py.truthy m)); [discriminate |].
  destruct (_extract_amount_from_text _) as [a |]; [| discriminate].
  destruct (Qeq_bool a 0); [discriminate |].
  destruct (_classify_merchant m) as [category confidence] eqn:Hc.
  intro H. injection H as <-. simpl.
  replace confidence with (snd (_classify_merchant m)) by now rewrite Hc.
  apply boosted_confidence_in_unit_interval. discriminate.
Qed.

(** The transaction path, which no discovery method calls, does not clamp:
    four equal Netflix charges on days 0, 1, 60 and 89 form a monthly
    pattern (average interval 89/3) whose interval consistency is
    1 - 58/(89/3) = -85/89, and the subscription made from it carries the
    confidence 0.9 * (-85/89), below zero. *)
Lemma transaction_path_confidence_below_zero :
  exists entry d,
    _analyze_recurring_transactions
      [netflix_charge 0; netflix_charge 1; netflix_charge 60;
       netflix_charge 89] = inl [entry]
    /\ Pattern.billing_cycle (Recurring.pattern entry) = "monthly"
    /\ Pattern.interval_consistency (Recurring.pattern entry) == - (85 # 89)
    /\ _create_subscription_from_transaction entry = Some d
    /\ detection_source d = "bank"
    /\ confidence_score d == - (153 # 178)
    /\ confidence_score d < 0.
Proof.
  eexists. eexists.
  split; [vm_compute; reflexivity |].
  split; [reflexivity |].
  split; [reflexivity |].
  split; [vm_compute; reflexivity |].
  repeat split; reflexivity.
Qed.

(* ================================================================== *)
(** ** Email extraction *)
(* ================================================================== *)

Lemma in_subscription_range_iff (a : Q) :
  in_subscription_range a = true <-> 0.99 <= a <= 999.99.
Proof.
  unfold in_subscription_range. rewrite andb_true_iff, !Qle_bool_iff.
  reflexivity.
Qed.

Lemma amount_from_patterns_sound (patterns : list Re.regex)
  (text : list ascii) (a : Q) :
  amount_from_patterns patterns text = Some a ->
  0.99 <= a <= 999.99
  /\ exists pattern m,
       In pattern patterns
       /\ In m (Re.findall true pattern text)
       /\ py_float m = Some a.
Proof.
  induction patterns as [| p ps IH]; simpl; [discriminate |].
  intro H.
  assert (Hlater : amount_from_patterns ps text = Some a ->
                   0.99 <= a <= 999.99
                   /\ exists pattern m,
                        (p = pattern \/ In pattern ps)
                        /\ In m (Re.findall true pattern text)
                        /\ py_float m = Some a).
  { intro H'. destruct (IH H') as [Hr [q [m [Hq Hm]]]].
    split; [exact Hr |]. exists q, m. tauto. }
  destruct (Re.findall true p text) as [| first others] eqn:Hall;
    [now apply Hlater |].
  destruct (py_float first) as [v |] eqn:Hv; [| now apply Hlater].
  destruct (in_subscription_range v) eqn:Hband; [| now apply Hlater].
  injection H as ->.
  split; [now apply in_subscription_range_iff |].
  exists p, first. rewrite Hall. simpl. tauto.
Qed.

Lemma amount_from_patterns_none (patterns : list Re.regex)
  (text : list ascii) :
  (forall pattern m v,
     In pattern patterns ->
     In m (Re.findall true pattern text) ->
     py_float m = Some v ->
     ~ (0.99 <= v <= 999.99)) ->
  amount_from_patterns patterns text = None.
Proof.
  intro Hout.
  destruct (amount_from_patterns patterns text) as [a |] eqn:H;
    [| reflexivity].
  apply amount_from_patterns_sound in H.
  destruct H as [Hr [p [m [Hp [Hm Hv]]]]].
  exfalso. exact (Hout p m a Hp Hm Hv Hr).
Qed.

Lemma amount_from_email_patterns_sound (patterns : list Re.regex)
  (body : list ascii) (a : Q) :
  amount_from_email_patterns patterns body = Some a ->
  exists pattern m,
    In pattern patterns
    /\ Re.search true pattern body = Some m
    /\ py_float (Re.group1 m) = Some a.
Proof.
  induction patterns as [| p ps IH]; simpl; [discriminate |].
  intro H.
  assert (Hlater : amount_from_email_patterns ps body = Some a ->
                   exists pattern m,
                     (p = pattern \/ In pattern ps)
                     /\ Re.search true pattern body = Some m
                     /\ py_float (Re.group1 m) = Some a).
  { intro H'. destruct (IH H') as [q [m Hq]]. exists q, m. tauto. }
  destruct (Re.search true p body) as [m |] eqn:Hs; [| now apply Hlater].
  destruct (py_float (Re.group1 m)) as [v |] eqn:Hv; [| now apply Hlater].
  injection H as ->. exists p, m. tauto.
Qed.

Lemma no_amount_no_candidate (subject sender body : string)
  (date : option Py.datetime) :
  _extract_amount_from_text (full_text_of subject sender body) = None ->
  _analyze_email_for_subscription subject sender body date = None.
Proof.
  intro H.
  unfold _analyze_email_for_subscription, _extract_subscription_info_from_email.
  cbv zeta. rewrite H.
  destruct (email_merchant subject sender) as [m |]; [| reflexivity].
  destruct (negb (Py.truthy m)); reflexivity.
Qed.

(** C6. The amount [_extract_amount_from_text] resolves, the extraction of
    the email discovery, is always a matched number within [0.99, 999.99];
    when every number its patterns match lies outside that band no amount is
    resolved and [_analyze_email_for_subscription] emits no candidate, as
    for a message that only mentions $1500.00. *)
Theorem email_amount_band :
  (forall (text : string) (a : Q),
     _extract_amount_from_text text = Some a ->
     0.99 <= a <= 999.99
     /\ exists pattern m,
          In pattern amount_patterns_of_text
          /\ In m (Re.findall true pattern (Py.chars text))
          /\ py_float m = Some a)
  /\ (forall (subject sender body : string) (date : option Py.datetime),
        (forall pattern m v,
           In pattern amount_patterns_of_text ->
           In m (Re.findall true pattern
                   (Py.chars (full_text_of subject sender body))) ->
           py_float m = Some v ->
           ~ (0.99 <= v <= 999.99)) ->
        _extract_amount_from_text (full_text_of subject sender body) = None
        /\ _analyze_email_for_subscription subject sender body date = None)
  /\ _analyze_email_for_subscription
       "Your receipt" "Netflix <info@netflix.com>"
       "You were charged $1500.00" None = None.
Proof.
  split; [| split].
  - intros text a. apply amount_from_patterns_sound.
  - intros subject sender body date Hout.
    assert (H : _extract_amount_from_text (full_text_of subject sender body)
                = None)
      by (apply amount_from_patterns_none; exact Hout).
    split; [exact H | now apply no_amount_no_candidate].
  - vm_compute. reflexivity.
Qed.

Lemma email_amount_band_witness :
  (0.99 <= 15.49 <= 999.99)
  /\ _analyze_email_for_subscription
       "Payment" "Hulu <billing@hulu.com>" "Total: 1500.00 USD" None = None.
Proof.
  split.
  - apply (proj1 email_amount_band "total: $15.49 for netflix").
    vm_compute. reflexivity.
  - apply (proj1 (proj2 email_amount_band)).
    intros pattern m v Hp Hm Hv.
    simpl in Hp.
    repeat (destruct Hp as [<- | Hp];
            [vm_compute in Hm;
             repeat (destruct Hm as [<- | Hm];
                     [vm_compute in Hv; injection Hv as <-;
                      intros [_ Hle]; vm_compute in Hle; now apply Hle |]);
             destruct Hm |]).
    destruct Hp.
Defined.

(** The earlier [_extract_amount_from_email], whose only caller is the
    first definition of [discover_subscriptions_from_email], replaced by the
    second, applies no band: it returns the number captured by the first of
    its patterns that is found, and [_extract_subscription_from_email]
    makes a candidate of a message whose only amount is $1500.00. *)
Lemma earlier_extractor_has_no_band :
  (forall (body : string) (a : Q),
     _extract_amount_from_email body = Some a ->
     exists pattern m,
       In pattern amount_patterns_of_email
       /\ Re.search true pattern (Py.chars body) = Some m
       /\ py_float (Re.group1 m) = Some a)
  /\ _extract_amount_from_email "You were charged $1500.00" = Some 1500.00
  /\ exists d,
       _extract_subscription_from_email
         "Your receipt" "Netflix <info@netflix.com>"
         "You were charged $1500.00"
       = Some d
       /\ amount d == 1500
       /\ ~ (0.99 <= amount d <= 999.99).
Proof.
  split; [| split].
  - intros body a. apply amount_from_email_patterns_sound.
  - vm_compute. reflexivity.
  - eexists. split; [vm_compute; reflexivity |].
    split; [reflexivity |].
    intros [_ H]. vm_compute in H. now apply H.
Qed.

(** C7. A candidate emitted by [_analyze_email_for_subscription], the
    analysis the email discovery runs on each message, carries the
    classifier's confidence for the extracted merchant name plus 0.1,
    clamped to 1.0. *)
Theorem email_confidence_by_extractor :
  forall (subject sender body : string) (date : option Py.datetime)
         (d : DetectedSubscription),
    _analyze_email_for_subscription subject sender body date = Some d ->
    exists merchant,
      email_merchant subject sender = Some merchant
      /\ confidence_score d
         == Qmin (snd (_classify_merchant merchant) + 0.1) 1.
Proof.
  intros subject sender body date d.
  unfold _analyze_email_for_subscription,
    _extract_subscription_info_from_email.
  cbv zeta.
  destruct (email_merchant subject sender) as [m |]; [| discriminate].
  destruct (negb (Py.truthy m)); [discriminate |].
  destruct (_extract_amount_from_text _) as [a |]; [| discriminate].
  destruct (Qeq_bool a 0); [discriminate |].
  destruct (_classify_merchant m) as [category confidence] eqn:Hc.
  intro H. injection H as <-. exists m. split; [reflexivity |].
  rewrite Hc. simpl. rewrite py_min_Qmin.
  apply Q.min_compat; reflexivity.
Qed.

Lemma email_confidence_by_extractor_witness :
  exists d merchant,
    _analyze_email_for_subscription
      "Your receipt" "Netflix <info@netflix.com>"
      "You were charged $15.49 for your monthly plan" None = Some d
    /\ email_merchant "Your receipt" "Netflix <info@netflix.com>"
       = Some merchant
    /\ confidence_score d == Qmin (snd (_classify_merchant merchant) + 0.1) 1.
Proof.
  eexists.
  destruct (email_confidence_by_extractor
              "Your receipt" "Netflix <info@netflix.com>"
              "You were charged $15.49 for your monthly plan" None _
              eq_refl) as [merchant [Hm Hc]].
  exists merchant. split; [reflexivity |]. split; [exact Hm | exact Hc].
Defined.

(** The earlier [_extract_subscription_from_email], not reached by the
    email discovery, scales instead: its candidate carries the classifier's
    confidence for its merchant name times 0.8, 0.72 for Netflix. *)
Lemma earlier_extractor_scales_confidence :
  (forall (subject sender body : string) (d : DetectedSubscription),
     _extract_subscription_from_email subject sender body = Some d ->
     exists merchant,
       _extract_merchant_from_email sender subject = Some merchant
       /\ confidence_score d == snd (_classify_merchant merchant) * 0.8)
  /\ exists d,
       _extract_subscription_from_email
         "Your receipt" "Netflix <info@netflix.com>" "You were charged $15.49"
       = Some d
       /\ confidence_score d == 0.72.
Proof.
  split.
  - intros subject sender body d.
    unfold _extract_subscription_from_email. cbv zeta.
    destruct (_extract_merchant_from_email sender subject) as [m |];
      [| discriminate].
    destruct (_extract_amount_from_email body) as [a |]; [| discriminate].
    destruct (Py.truthy m && negb (Qeq_bool a 0)); [| discriminate].
    destruct (_classify_merchant m) as [category confidence] eqn:Hc.
    intro H. injection H as <-. exists m. split; [reflexivity |].
    rewrite Hc. reflexivity.
  - eexists. split; [vm_compute; reflexivity |]. reflexivity.
Qed.

(* ================================================================== *)
(** ** The merge engines *)
(* ================================================================== *)






(** On dates without time zone the merge returns, and its records carry
    such dates again. *)
Lemma latest_naive (a b : option Py.datetime) :
  Py.aware (date_or_min a) = false ->
  Py.aware (date_or_min b) = false ->
  exists d, latest a b = inl d /\ Py.aware (date_or_min d) = false.
Proof.
  intros Ha Hb. unfold latest, Py.dt_lt.
  fold (date_or_min a). fold (date_or_min b).
  rewrite Ha, Hb. simpl.
  eexists. split; [reflexivity |].
  destruct (Py.instant (date_or_min a) <? Py.instant (date_or_min b))%Z;
    match goal with
    | |- context [Py.dt_eq ?x ?y] => destruct (Py.dt_eq x y)
    end; simpl; auto.
Qed.

Lemma merge_duplicate_naive (sub1 sub2 : DetectedSubscription) :
  naive_date sub1 -> naive_date sub2 ->
  exists m, _merge_duplicate_subscriptions sub1 sub2 = inl m /\ naive_date m.
Proof.
  unfold naive_date, _merge_duplicate_subscriptions. intros H1 H2.
  cbv zeta.
  destruct (String.eqb (detection_source sub1) "bank");
    destruct (String.eqb (detection_source sub2) "email");
    match goal with
    | |- context [latest ?a ?b] =>
        destruct (latest_naive a b) as [d [Hd Hn]]; auto; rewrite Hd
    end; simpl; eexists; (split; [reflexivity | exact Hn]).
Qed.

Lemma merge_into_naive (merged : list DetectedSubscription)
  (email_sub : DetectedSubscription) :
  naive_dates merged -> naive_date email_sub ->
  exists found,
    merge_into merged email_sub = inl found
    /\ match found with
       | Some merged' => naive_dates merged'
       | None => True
       end.
Proof.
  intros Hm He. induction Hm as [| x l Hx Hl IH]; simpl.
  - exists None. split; [reflexivity | exact I].
  - destruct (_are_subscriptions_duplicate x email_sub).
    + destruct (merge_duplicate_naive x email_sub Hx He) as [m [Hmerge Hn]].
      rewrite Hmerge. simpl. eexists. split; [reflexivity |].
      constructor; assumption.
    + destruct IH as [found [Hfound Hnaive]]. rewrite Hfound. simpl.
      eexists. split; [reflexivity |].
      destruct found as [merged' |]; simpl; [| exact I].
      constructor; assumption.
Qed.

Lemma add_email_subs_naive (email_subs merged : list DetectedSubscription) :
  naive_dates merged -> naive_dates email_subs ->
  exists merged', add_email_subs merged email_subs = inl merged'.
Proof.
  intros Hm He. revert merged Hm.
  induction He as [| e l He Hl IH]; intros merged Hm; simpl.
  - eexists. reflexivity.
  - unfold add_email_sub.
    destruct (merge_into_naive merged e Hm He) as [found [Hfound Hnaive]].
    rewrite Hfound. simpl.
    destruct found as [merged' |]; simpl.
    + now apply IH.
    + apply IH. unfold naive_dates. apply Forall_app. split; [exact Hm |].
      constructor; [exact He | constructor].
Qed.

Lemma merge_returns_on_naive_dates
  (bank_subs email_subs : list DetectedSubscription) :
  naive_dates bank_subs -> naive_dates email_subs ->
  exists merged, _merge_subscription_sources bank_subs email_subs = inl merged.
Proof.
  intros Hb He. unfold _merge_subscription_sources.
  destruct (add_email_subs_naive email_subs bank_subs Hb He) as [l Hl].
  rewrite Hl. simpl. eexists. reflexivity.
Qed.

Lemma insert_desc_perm (x : DetectedSubscription)
  (l : list DetectedSubscription) :
  Permutation (insert_desc x l) (x :: l).
Proof.
  induction l as [| y l IH]; simpl; [reflexivity |].
  destruct (key_lt (sort_key x) (sort_key y)); [| reflexivity].
  rewrite IH. apply perm_swap.
Qed.

Lemma sort_desc_perm (l : list DetectedSubscription) :
  Permutation (sort_desc l) l.
Proof.
  induction l as [| x l IH]; simpl; [reflexivity |].
  rewrite insert_desc_perm. now constructor.
Qed.

(** The order of the sort keys is asymmetric. *)
Lemma key_lt_asym (k1 k2 : Q * Q) :
  key_lt k1 k2 = true -> key_lt k2 k1 = false.
Proof.
  unfold key_lt. intro H.
  destruct (Qeq_bool (fst k1) (fst k2)) eqn:E.
  - apply Qeq_bool_iff in E.
    assert (E' : Qeq_bool (fst k2) (fst k1) = true)
      by (apply Qeq_bool_iff; symmetry; exact E).
    rewrite E'. apply Qltb_true in H. apply Qltb_false.
    now apply Qlt_le_weak.
  - assert (E' : Qeq_bool (fst k2) (fst k1) = false).
    { apply not_true_is_false. intro Ht. apply Qeq_bool_iff in Ht.
      symmetry in Ht. apply Qeq_bool_iff in Ht. congruence. }
    rewrite E'. apply Qltb_true in H. apply Qltb_false.
    now apply Qlt_le_weak.
Qed.

Lemma insert_desc_descending (x : DetectedSubscription)
  (l : list DetectedSubscription) :
  descending l -> descending (insert_desc x l).
Proof.
  induction l as [| y l IH]; intro H; simpl; [exact I |].
  destruct (key_lt (sort_key x) (sort_key y)) eqn:E.
  - destruct l as [| z l].
    + simpl. split; [now apply key_lt_asym | exact I].
    + destruct H as [Hyz Hd]. specialize (IH Hd). simpl in IH |- *.
      destruct (key_lt (sort_key x) (sort_key z)) eqn:E'.
      * split; [exact Hyz | exact IH].
      * split; [now apply key_lt_asym | exact IH].
  - split; [exact E | exact H].
Qed.

Lemma sort_desc_descending (l : list DetectedSubscription) :
  descending (sort_desc l).
Proof.
  induction l as [| x l IH]; simpl; [exact I |].
  now apply insert_desc_descending.
Qed.

Lemma sort_desc_fixes_descending (l : list DetectedSubscription) :
  descending l -> sort_desc l = l.
Proof.
  induction l as [| x l IH]; intro H; simpl; [reflexivity |].
  destruct l as [| y l]; [reflexivity |].
  destruct H as [Hxy Hd]. rewrite (IH Hd). simpl. now rewrite Hxy.
Qed.

Lemma merge_with_no_email (merged : list DetectedSubscription) :
  _merge_subscription_sources merged [] = inl (sort_desc merged).
Proof. reflexivity. Qed.

Lemma merge_output_descending
  (bank_subs email_subs merged : list DetectedSubscription) :
  _merge_subscription_sources bank_subs email_subs = inl merged ->
  descending merged.
Proof.
  unfold _merge_subscription_sources, Py.bind, Py.ok.
  destruct (add_email_subs bank_subs email_subs) as [l | e];
    [| discriminate].
  intro H. injection H as <-. apply sort_desc_descending.
Qed.

Lemma route_merge_with_no_email (merged : list DetectedSubscription) :
  merge_detected_subscriptions merged [] = merged.
Proof.
  unfold merge_detected_subscriptions. simpl. rewrite app_nil_r.
  induction merged as [| x l IH]; simpl; [reflexivity | now rewrite IH].
Qed.






(** C8. Merging the outcome of a merge with the empty list gives the same
    records: [_merge_subscription_sources] returns a permutation of it
    (indeed the same list, already sorted), and
    [merge_detected_subscriptions] returns it unchanged.  The first merge
    has an outcome whenever no date carries a time zone. *)
Theorem merge_idempotent :
  (forall bank_subs email_subs merged : list DetectedSubscription,
     _merge_subscription_sources bank_subs email_subs = inl merged ->
     exists again,
       _merge_subscription_sources merged [] = inl again
       /\ Permutation again merged
       /\ again = merged)
  /\ (forall bank_subs email_subs : list DetectedSubscription,
        naive_dates bank_subs -> naive_dates email_subs ->
        exists merged,
          _merge_subscription_sources bank_subs email_subs = inl merged)
  /\ (forall bank_subs email_subs : list DetectedSubscription,
        merge_detected_subscriptions
          (merge_detected_subscriptions bank_subs email_subs) []
        = merge_detected_subscriptions bank_subs email_subs).
Proof.
  split; [| split].
  - intros bank_subs email_subs merged H.
    exists (sort_desc merged).
    split; [apply merge_with_no_email |].
    split; [apply sort_desc_perm |].
    apply sort_desc_fixes_descending.
    eapply merge_output_descending; exact H.
  - apply merge_returns_on_naive_dates.
  - intros. apply route_merge_with_no_email.
Qed.

Lemma merge_idempotent_witness :
  exists merged again,
    _merge_subscription_sources
      [bank_netflix; candidate "Gym" 39.99 "monthly" 0.5 "bank"]
      [email_netflix_com; candidate "Hulu" 7.99 "monthly" 0.7 "email"]
    = inl merged
    /\ List.length merged = 3%nat
    /\ _merge_subscription_sources merged [] = inl again
    /\ Permutation again merged.
Proof.
  eexists.
  destruct (proj1 merge_idempotent
              [bank_netflix; candidate "Gym" 39.99 "monthly" 0.5 "bank"]
              [email_netflix_com; candidate "Hulu" 7.99 "monthly" 0.7 "email"]
              _ eq_refl) as [again [Hagain [Hperm _]]].
  exists again.
  split; [reflexivity |]. split; [reflexivity |].
  split; [exact Hagain | exact Hperm].
Defined.

(* ================================================================== *)
(** ** Analytics *)
(* ================================================================== *)

Lemma add_to_totals_spec (m a : Q) (sub : DetectedSubscription) :
  fst (add_to_totals (m, a) sub) == m + monthly_equivalent sub
  /\ snd (add_to_totals (m, a) sub) == a + annual_equivalent sub.
Proof.
  unfold add_to_totals, monthly_equivalent, annual_equivalent.
  destruct (String.eqb (billing_cycle sub) "monthly");
    [simpl; split; ring |].
  destruct (String.eqb (billing_cycle sub) "annual");
    [simpl; split; ring |].
  destruct (String.eqb (billing_cycle sub) "weekly");
    [simpl; split; ring |].
  destruct (String.eqb (billing_cycle sub) "quarterly");
    simpl; split; ring.
Qed.

Lemma fold_totals_compat (subscriptions : list DetectedSubscription) :
  forall t t' : Q * Q,
    fst t == fst t' -> snd t == snd t' ->
    fst (fold_left add_to_totals subscriptions t)
    == fst (fold_left add_to_totals subscriptions t')
    /\ snd (fold_left add_to_totals subscriptions t)
       == snd (fold_left add_to_totals subscriptions t').
Proof.
  induction subscriptions as [| sub l IH]; intros [m a] [m' a'] Hm Ha;
    simpl in Hm, Ha; [simpl; now split |].
  cbn [fold_left]. apply IH.
  - rewrite (proj1 (add_to_totals_spec m a sub)),
      (proj1 (add_to_totals_spec m' a' sub)). now rewrite Hm.
  - rewrite (proj2 (add_to_totals_spec m a sub)),
      (proj2 (add_to_totals_spec m' a' sub)). now rewrite Ha.
Qed.

(** The loop of the totals adds each subscription's monthly and annual
    equivalent. *)
Lemma fold_totals_sum (subscriptions : list DetectedSubscription) :
  forall m a : Q,
    fst (fold_left add_to_totals subscriptions (m, a))
    == m + sum_over monthly_equivalent subscriptions
    /\ snd (fold_left add_to_totals subscriptions (m, a))
       == a + sum_over annual_equivalent subscriptions.
Proof.
  induction subscriptions as [| sub l IH]; intros m a.
  - simpl. split; ring.
  - cbn [fold_left sum_over fold_right].
    destruct (add_to_totals_spec m a sub) as [H1 H2].
    destruct (fold_totals_compat l (add_to_totals (m, a) sub)
                (m + monthly_equivalent sub, a + annual_equivalent sub)
                H1 H2) as [C1 C2].
    destruct (IH (m + monthly_equivalent sub) (a + annual_equivalent sub))
      as [I1 I2].
    fold (sum_over monthly_equivalent l). fold (sum_over annual_equivalent l).
    split.
    + rewrite C1, I1. ring.
    + rewrite C2, I2. ring.
Qed.

Lemma round_half_even_compat (x y : Q) :
  x == y -> Py.round_half_even x = Py.round_half_even y.
Proof.
  intro H. unfold Py.round_half_even.
  assert (Hf : Qfloor x = Qfloor y) by now apply Qfloor_comp.
  rewrite Hf.
  assert (Hc : Qcompare (x - inject_Z (Qfloor y)) (1 # 2)
               = Qcompare (y - inject_Z (Qfloor y)) (1 # 2)).
  { apply Qcompare_comp; [now rewrite H | reflexivity]. }
  now rewrite Hc.
Qed.

Lemma round2_compat (x y : Q) : x == y -> Py.round2 x == Py.round2 y.
Proof.
  intro H. unfold Py.round2.
  assert (Hr : Py.round_half_even (x * 100) = Py.round_half_even (y * 100)).
  { apply round_half_even_compat. now rewrite H. }
  now rewrite Hr.
Qed.

Lemma count_unused_trials_returns (now : Z)
  (subscriptions : list DetectedSubscription) :
  naive_dates subscriptions ->
  exists n, count_unused_trials now subscriptions = inl n.
Proof.
  induction 1 as [| sub l Hsub _ IH]; simpl; [now exists 0%nat |].
  destruct IH as [n Hn]. rewrite Hn.
  unfold naive_date in Hsub. unfold is_unused_trial.
  destruct (Py.Qltb (confidence_score sub) 0.7);
    [| simpl; eexists; reflexivity].
  destruct (last_transaction_date sub) as [last |];
    [| simpl; eexists; reflexivity].
  simpl in Hsub. unfold Py.dt_days_between. simpl. rewrite Hsub. simpl.
  eexists. reflexivity.
Qed.

Lemma round_half_even_close (y : Q) :
  Qabs (inject_Z (Py.round_half_even y) - y) <= 1 # 2.
Proof.
  unfold Py.round_half_even. cbv zeta.
  pose proof (Qfloor_le y) as Hlo.
  pose proof (Qlt_floor y) as Hhi.
  rewrite inject_Z_plus in Hhi.
  change (inject_Z 1) with 1 in Hhi.
  set (f := inject_Z (Qfloor y)) in *.
  apply Qabs_Qle_condition.
  destruct (Qcompare (y - f) (1 # 2)) eqn:E.
  - apply Qeq_alt in E.
    destruct (Z.even (Qfloor y)).
    + fold f. split; lra.
    + rewrite inject_Z_plus. change (inject_Z 1) with 1. fold f.
      split; lra.
  - apply Qlt_alt in E. fold f. split; lra.
  - apply Qgt_alt in E. rewrite inject_Z_plus.
    change (inject_Z 1) with 1. fold f. split; lra.
Qed.

Lemma round2_close (x : Q) : Qabs (Py.round2 x - x) <= 1 # 200.
Proof.
  pose proof (round_half_even_close (x * 100)) as H.
  apply Qabs_Qle_condition in H. apply Qabs_Qle_condition.
  unfold Py.round2.
  set (r := Py.round_half_even (x * 100)) in *.
  assert (Heq : r # 100 == inject_Z r * (1 # 100)).
  { unfold Qeq, Qmult. simpl. lia. }
  rewrite Heq.
  set (q := inject_Z r) in *.
  destruct H as [H1 H2]. split; lra.
Qed.

(** C9 (as amended). Whenever the analysis returns, and it does for every
    list whose dates carry no time zone, total_monthly is the sum of the
    monthly equivalents (amount x 1 monthly, / 12 annual, x 4.33 weekly,
    / 3 quarterly, nothing for any other cycle) rounded to the cent: a whole
    number of cents that differs from the sum by at most half a cent; so is
    total_annual for the sum of the annual equivalents (x 12, x 1, x 52,
    x 4); for four monthly subscriptions of 9.99, 12.99, 52.99 and 14.99 it
    reports 90.96 and 1091.52. *)
Theorem analytics_totals :
  (forall (now : Z) (subscriptions : list DetectedSubscription)
          (a : Analysis.t),
     _analyze_subscription_patterns now subscriptions = inl a ->
     ((exists cents : Z, Analysis.total_monthly a == cents # 100)
      /\ Qabs (Analysis.total_monthly a
               - sum_over monthly_equivalent subscriptions) <= 0.005)
     /\ ((exists cents : Z, Analysis.total_annual a == cents # 100)
         /\ Qabs (Analysis.total_annual a
                  - sum_over annual_equivalent subscriptions) <= 0.005))
  /\ (forall (now : Z) (subscriptions : list DetectedSubscription),
        naive_dates subscriptions ->
        exists a, _analyze_subscription_patterns now subscriptions = inl a)
  /\ (forall now : Z,
        exists a,
          _analyze_subscription_patterns now four_monthly = inl a
          /\ Analysis.total_monthly a == 90.96
          /\ Analysis.total_annual a == 1091.52).
Proof.
  split; [| split].
  - intros now subscriptions a.
    unfold _analyze_subscription_patterns.
    destruct subscriptions as [| sub l].
    + intro H. injection H as <-.
      cbn [Analysis.total_monthly Analysis.total_annual sum_over fold_right].
      split; (split; [exists 0%Z; reflexivity | discriminate]).
    + remember (sub :: l) as subs eqn:Esubs.
      destruct (fold_totals_sum subs 0 0) as [Hm Ha].
      unfold totals_of.
      destruct (fold_left add_to_totals subs (0, 0))
        as [monthly_total annual_total].
      cbn [fst snd] in Hm, Ha.
      rewrite Qplus_0_l in Hm, Ha.
      destruct (count_unused_trials now subs) as [n | e];
        cbn [Py.bind Py.ok]; [| discriminate].
      intro H. injection H as <-.
      cbn [Analysis.total_monthly Analysis.total_annual].
      split; (split; [eexists; unfold Py.round2; reflexivity |]).
      * rewrite <- Hm.
        eapply Qle_trans; [apply round2_close | discriminate].
      * rewrite <- Ha.
        eapply Qle_trans; [apply round2_close | discriminate].
  - intros now subscriptions Hnaive.
    unfold _analyze_subscription_patterns.
    destruct subscriptions as [| sub l]; [eexists; reflexivity |].
    destruct (count_unused_trials_returns now _ Hnaive) as [n Hn].
    destruct (totals_of (sub :: l)) as [monthly_total annual_total].
    rewrite Hn. eexists. reflexivity.
  - intro now. eexists.
    split; [vm_compute; reflexivity |].
    split; reflexivity.
Qed.

Lemma analytics_totals_witness :
  let subscriptions :=
    [ candidate "Adobe" 599.88 "annual" 1 "bank";
      candidate "Paper" 2.00 "weekly" 1 "email";
      candidate "Box" 31 "quarterly" 1 "bank";
      candidate "Gym" 20 "biweekly" 1 "bank" ] in
  exists a,
    _analyze_subscription_patterns 0 subscriptions = inl a
    /\ sum_over monthly_equivalent subscriptions == 49.99 + 8.66 + (31 # 3)
    /\ Qabs (Analysis.total_monthly a
             - sum_over monthly_equivalent subscriptions) <= 0.005
    /\ Qabs (Analysis.total_annual a
             - sum_over annual_equivalent subscriptions) <= 0.005.
Proof.
  intro subscriptions.
  destruct (proj1 (proj2 analytics_totals) 0%Z subscriptions) as [a Ha].
  - repeat constructor.
  - exists a.
    destruct (proj1 analytics_totals 0%Z subscriptions a Ha)
      as [[_ Hm] [_ Hy]].
    split; [exact Ha |]. split; [reflexivity |].
    split; [exact Hm | exact Hy].
Defined.

(** C9, as stated, fails where the sum has more than two decimals: for one
    annual subscription of 10.00 the monthly sum is 10/12 and the reported
    total_monthly is 0.83. *)
Lemma analytics_totals_counterexample :
  let subscriptions := [candidate "Domain" 10 "annual" 0.9 "bank"] in
  exists a,
    _analyze_subscription_patterns 0 subscriptions = inl a
    /\ sum_over monthly_equivalent subscriptions == 10 # 12
    /\ Analysis.total_monthly a == 0.83
    /\ ~ Analysis.total_monthly a == sum_over monthly_equivalent subscriptions.
Proof.
  eexists. split; [vm_compute; reflexivity |].
  split; [reflexivity |]. split; [reflexivity |].
  vm_compute. discriminate.
Qed.

(* ================================================================== *)
(** ** Further properties: duplicate test and merge *)
(* ================================================================== *)

Lemma existsb_pointwise {A : Type} (f g : A -> bool) (l : list A) :
  (forall x, f x = g x) -> existsb f l = existsb g l.
Proof.
  intro H. induction l as [| x l IH]; simpl; [reflexivity |].
  now rewrite H, IH.
Qed.

Lemma Qle_bool_abs_sym (x y b : Q) :
  Qle_bool (Py.abs (x - y)) b = Qle_bool (Py.abs (y - x)) b.
Proof.
  unfold Py.abs.
  destruct (Qle_bool (Qabs (y - x)) b) eqn:E.
  - apply Qle_bool_iff. apply Qle_bool_iff in E.
    now rewrite Qabs_Qminus.
  - apply not_true_is_false. intro H. apply Qle_bool_iff in H.
    rewrite Qabs_Qminus in H. apply Qle_bool_iff in H. congruence.
Qed.

(** X1. [_are_subscriptions_duplicate] does not depend on the order of its
    arguments, and every candidate duplicates itself. *)
Theorem are_duplicate_symmetric :
  (forall sub1 sub2 : DetectedSubscription,
     _are_subscriptions_duplicate sub1 sub2
     = _are_subscriptions_duplicate sub2 sub1)
  /\ (forall sub : DetectedSubscription,
        _are_subscriptions_duplicate sub sub = true).
Proof.
  split.
  - intros sub1 sub2. unfold _are_subscriptions_duplicate. cbv zeta.
    rewrite (String.eqb_sym (strip (Py.lower (merchant_name sub2)))).
    rewrite (orb_comm (Py.contains (strip (Py.lower (merchant_name sub2))) _)).
    rewrite (existsb_pointwise
               (fun entry =>
                  names_variation (strip (Py.lower (merchant_name sub2))) entry
                  && names_variation (strip (Py.lower (merchant_name sub1)))
                       entry)
               (fun entry =>
                  names_variation (strip (Py.lower (merchant_name sub1))) entry
                  && names_variation (strip (Py.lower (merchant_name sub2)))
                       entry))
      by (intro; apply andb_comm).
    rewrite (Qle_bool_abs_sym (amount sub2) (amount sub1)).
    rewrite (String.eqb_sym (billing_cycle sub2)).
    rewrite (String.eqb_sym (category sub2)).
    reflexivity.
  - intro sub. unfold _are_subscriptions_duplicate. cbv zeta.
    now rewrite String.eqb_refl.
Qed.

Lemma or_str_same (a : option string) : Py.or_str a a = a.
Proof. unfold Py.or_str. now destruct (Py.truthy_opt a). Qed.

Lemma or_obj_same {A : Type} (a : option A) : Py.or_obj a a = a.
Proof. now destruct a. Qed.

Lemma py_max_same (x : Q) : Py.max x x = x.
Proof. unfold Py.max. now destruct (Py.Qltb x x). Qed.

(** X2. When the first record is not bank-origin and the second is
    email-origin, [_merge_duplicate_subscriptions] takes both of its sides
    from the second record: the outcome is the second record with
    detection_source 'both' and its own confidence plus 0.1 (clamped); name,
    amount, cycle, category and confidence of the first record are not
    used, and the call never raises. *)
Theorem merge_of_two_email_records :
  forall sub1 sub2 : DetectedSubscription,
    detection_source sub1 <> "bank" ->
    detection_source sub2 = "email" ->
    exists m,
      _merge_duplicate_subscriptions sub1 sub2 = inl m
      /\ detection_source m = "both"
      /\ merchant_name m = merchant_name sub2
      /\ service_name m = service_name sub2
      /\ amount m = amount sub2
      /\ billing_cycle m = billing_cycle sub2
      /\ category m = category sub2
      /\ confidence_score m == Qmin (confidence_score sub2 + 0.1) 1
      /\ next_billing_date m = next_billing_date sub2
      /\ cancellation_info m = cancellation_info sub2
      /\ plaid_stream_id m = None.
Proof.
  intros sub1 sub2 H1 H2.
  apply String.eqb_neq in H1.
  unfold _merge_duplicate_subscriptions. rewrite H1, H2. simpl.
  unfold latest, Py.dt_lt. rewrite Bool.eqb_reflx. simpl.
  eexists. split; [reflexivity |]. simpl.
  rewrite or_str_same, !or_obj_same, py_max_same.
  repeat split; try reflexivity.
  - unfold longer. now rewrite Nat.ltb_irrefl.
  - rewrite py_min_Qmin. apply Q.min_compat; reflexivity.
Qed.

Lemma merge_of_two_email_records_witness :
  exists m,
    _merge_subscription_sources
      []
      [candidate "Hulu" 7.99 "monthly" 0.4 "email";
       candidate "hulu tv" 17.99 "annual" 0.7 "email"] = inl [m]
    /\ detection_source m = "both"
    /\ merchant_name m = "hulu tv"
    /\ amount m = 17.99
    /\ confidence_score m == 0.8.
Proof.
  destruct (merge_of_two_email_records
              (candidate "Hulu" 7.99 "monthly" 0.4 "email")
              (candidate "hulu tv" 17.99 "annual" 0.7 "email"))
    as [m [Hm [Hs [Hn [_ [Ha [_ [_ [Hc _]]]]]]]]].
  - discriminate.
  - reflexivity.
  - exists m. split.
    + unfold _merge_subscription_sources. simpl. unfold add_email_sub.
      simpl. vm_compute in Hm. injection Hm as <-. vm_compute. reflexivity.
    + repeat split; [exact Hs | exact Hn | exact Ha |].
      rewrite Hc. reflexivity.
Defined.

Lemma key_lt_false_ranks (x y : DetectedSubscription) :
  key_lt (sort_key x) (sort_key y) = false -> ranks_no_lower x y.
Proof.
  unfold key_lt, sort_key, ranks_no_lower. simpl.
  destruct (Qeq_bool (confidence_score x) (confidence_score y)) eqn:E;
    intro H; apply Qltb_false in H.
  - right. split; [now apply Qeq_bool_iff | exact H].
  - left. apply Qle_lt_or_eq in H. destruct H as [H | H]; [exact H |].
    symmetry in H. apply Qeq_bool_iff in H. congruence.
Qed.

Lemma ranks_no_lower_trans (x y z : DetectedSubscription) :
  ranks_no_lower x y -> ranks_no_lower y z -> ranks_no_lower x z.
Proof.
  unfold ranks_no_lower.
  intros [H1 | [E1 A1]] [H2 | [E2 A2]].
  - left. now apply Qlt_trans with (confidence_score y).
  - left. now rewrite <- E2.
  - left. now rewrite E1.
  - right. split.
    + now rewrite E1.
    + now apply Qle_trans with (amount y).
Qed.

Lemma descending_sorted (l : list DetectedSubscription) :
  descending l -> Sorted ranks_no_lower l.
Proof.
  induction l as [| x l IH]; intro H; [constructor |].
  destruct l as [| y l].
  - repeat constructor.
  - destruct H as [Hxy Hd]. constructor; [now apply IH |].
    constructor. now apply key_lt_false_ranks.
Qed.

(** X3. The list [_merge_subscription_sources] returns is ordered by
    confidence, then by amount, both descending: every record stands before
    all records of lower confidence and before those of equal confidence and
    smaller amount. *)
Theorem merge_output_ranked :
  forall bank_subs email_subs merged : list DetectedSubscription,
    _merge_subscription_sources bank_subs email_subs = inl merged ->
    StronglySorted ranks_no_lower merged.
Proof.
  intros bank_subs email_subs merged H.
  apply Sorted_StronglySorted.
  - intros x y z. apply ranks_no_lower_trans.
  - apply descending_sorted. eapply merge_output_descending; exact H.
Qed.

Lemma merge_output_ranked_witness :
  exists merged,
    _merge_subscription_sources
      [candidate "Gym" 39.99 "monthly" 0.5 "bank"; bank_netflix]
      [candidate "Hulu" 7.99 "monthly" 0.7 "email"] = inl merged
    /\ map merchant_name merged = ["Netflix"; "Hulu"; "Gym"]
    /\ StronglySorted ranks_no_lower merged.
Proof.
  eexists. split; [vm_compute; reflexivity |].
  split; [reflexivity |].
  apply (merge_output_ranked
           [candidate "Gym" 39.99 "monthly" 0.5 "bank"; bank_netflix]
           [candidate "Hulu" 7.99 "monthly" 0.7 "email"]).
  vm_compute. reflexivity.
Defined.

(** What one turn of the merge loop does to the list. *)
Lemma merge_into_shape (merged : list DetectedSubscription)
  (email_sub : DetectedSubscription)
  (found : option (list DetectedSubscription)) :
  merge_into merged email_sub = inl found ->
  match found with
  | Some merged' =>
      List.length merged' = List.length merged
      /\ forall m, In m merged' -> In m merged \/ detection_source m = "both"
  | None =>
      forall existing, In existing merged ->
                       _are_subscriptions_duplicate existing email_sub = false
  end.
Proof.
  revert found. induction merged as [| x l IH]; intros found; simpl.
  - intro H. injection H as <-. intros existing [].
  - destruct (_are_subscriptions_duplicate x email_sub) eqn:Hdup.
    + unfold _merge_duplicate_subscriptions.
      destruct (latest _ _) as [d | e]; simpl; [| discriminate].
      intro H. injection H as <-. split; [reflexivity |].
      intros m [<- | Hin]; [now right | left; now right].
    + destruct (merge_into l email_sub) as [inner | e]; simpl;
        [| discriminate].
      specialize (IH inner eq_refl).
      intro H. injection H as <-.
      destruct inner as [l' |]; simpl.
      * destruct IH as [Hlen Hin]. split; [now rewrite Hlen |].
        intros m [<- | Hm]; [left; now left |].
        destruct (Hin m Hm) as [H1 | H2]; [left; now right | now right].
      * intros existing [<- | Hin]; [exact Hdup | now apply IH].
Qed.

Lemma add_email_subs_shape (email_subs merged merged'
  : list DetectedSubscription) :
  add_email_subs merged email_subs = inl merged' ->
  (List.length merged <= List.length merged'
   <= List.length merged + List.length email_subs)%nat
  /\ forall m, In m merged' ->
               In m merged \/ In m email_subs \/ detection_source m = "both".
Proof.
  revert merged merged'.
  induction email_subs as [| e l IH]; intros merged merged'; simpl.
  - intro H. injection H as <-. split; [lia | intros m Hm; now left].
  - unfold add_email_sub.
    destruct (merge_into merged e) as [found | err] eqn:Hfound; simpl;
      [| discriminate].
    pose proof (merge_into_shape merged e found Hfound) as Hshape.
    destruct found as [step |]; simpl; intro H;
      destruct (IH _ _ H) as [Hlen Hin].
    + destruct Hshape as [Hl Hi]. split; [lia |].
      intros m Hm. destruct (Hin m Hm) as [H1 | [H2 | H3]].
      * destruct (Hi m H1) as [H4 | H5]; [now left | right; now right].
      * right. left. now right.
      * right. now right.
    + rewrite length_app in Hlen. simpl in Hlen. split; [lia |].
      intros m Hm. destruct (Hin m Hm) as [H1 | [H2 | H3]].
      * apply in_app_or in H1. destruct H1 as [H1 | [<- | []]];
          [now left | right; left; now left].
      * right. left. now right.
      * right. now right.
Qed.

(** X4. The list [_merge_subscription_sources] returns has at least as many
    records as the bank list and at most as many as both lists together,
    and each of its records is a bank record, an email record or a record
    with detection_source 'both'. *)
Theorem merge_output_size_and_origin :
  forall bank_subs email_subs merged : list DetectedSubscription,
    _merge_subscription_sources bank_subs email_subs = inl merged ->
    (List.length bank_subs <= List.length merged
     <= List.length bank_subs + List.length email_subs)%nat
    /\ forall m, In m merged ->
                 In m bank_subs \/ In m email_subs
                 \/ detection_source m = "both".
Proof.
  intros bank_subs email_subs merged.
  unfold _merge_subscription_sources.
  destruct (add_email_subs bank_subs email_subs) as [l | e] eqn:Hl; simpl;
    [| discriminate].
  intro H. injection H as <-.
  destruct (add_email_subs_shape _ _ _ Hl) as [Hlen Hin].
  rewrite (Permutation_length (sort_desc_perm l)). split; [exact Hlen |].
  intros m Hm. apply Hin.
  eapply Permutation_in; [apply sort_desc_perm | exact Hm].
Qed.

Lemma merge_output_size_and_origin_witness :
  exists merged,
    _merge_subscription_sources
      [bank_netflix; candidate "Gym" 39.99 "monthly" 0.5 "bank"]
      [email_netflix_com; candidate "Hulu" 7.99 "monthly" 0.7 "email"]
    = inl merged
    /\ (2 <= List.length merged <= 2 + 2)%nat.
Proof.
  eexists. split; [vm_compute; reflexivity |].
  refine (proj1 (merge_output_size_and_origin
                   [bank_netflix; candidate "Gym" 39.99 "monthly" 0.5 "bank"]
                   [email_netflix_com;
                    candidate "Hulu" 7.99 "monthly" 0.7 "email"] _ _)).
  vm_compute. reflexivity.
Defined.

Lemma merge_into_fresh (merged : list DetectedSubscription)
  (email_sub : DetectedSubscription) :
  (forall existing, In existing merged ->
                    _are_subscriptions_duplicate existing email_sub = false) ->
  merge_into merged email_sub = inl None.
Proof.
  induction merged as [| x l IH]; intro H; simpl; [reflexivity |].
  rewrite (H x (or_introl eq_refl)).
  rewrite IH; [reflexivity |]. intros existing Hin. apply H. now right.
Qed.

Lemma add_email_subs_fresh (email_subs merged : list DetectedSubscription) :
  fresh_emails merged email_subs ->
  add_email_subs merged email_subs = inl (merged ++ email_subs)%list.
Proof.
  revert merged. induction email_subs as [| e l IH]; intros merged H; simpl.
  - now rewrite app_nil_r.
  - destruct H as [Hfresh Hlater]. unfold add_email_sub.
    rewrite (merge_into_fresh _ _ Hfresh). simpl.
    rewrite (IH _ Hlater). now rewrite <- app_assoc.
Qed.

(** X5. Records that duplicate nothing pass through: when no email
    candidate duplicates a bank record or an earlier email candidate,
    [_merge_subscription_sources] returns the bank records followed by the
    email candidates, sorted; every record of both lists is in the outcome
    unchanged. *)
Theorem merge_passes_non_duplicates :
  forall bank_subs email_subs : list DetectedSubscription,
    fresh_emails bank_subs email_subs ->
    _merge_subscription_sources bank_subs email_subs
    = inl (sort_desc (bank_subs ++ email_subs))
    /\ Permutation (sort_desc (bank_subs ++ email_subs))
                   (bank_subs ++ email_subs).
Proof.
  intros bank_subs email_subs H. split; [| apply sort_desc_perm].
  unfold _merge_subscription_sources.
  now rewrite (add_email_subs_fresh _ _ H).
Qed.

Lemma merge_passes_non_duplicates_witness :
  let bank := [candidate "Gym" 39.99 "monthly" 0.5 "bank"] in
  let email := [candidate "Hulu" 7.99 "monthly" 0.7 "email";
                candidate "Adobe" 52.99 "annual" 0.4 "email"] in
  _merge_subscription_sources bank email
  = inl (sort_desc (bank ++ email)).
Proof.
  intros bank email.
  apply merge_passes_non_duplicates.
  simpl. split.
  - intros existing [<- | []]. vm_compute. reflexivity.
  - split; [| exact I].
    intros existing [<- | [<- | []]]; vm_compute; reflexivity.
Defined.

(** X6. [merge_detected_subscriptions] answers with one record per bank
    record, in the bank order and with the bank record's name, amount and
    cycle, followed by email candidates only; an email candidate is either
    in the outcome unchanged or shares its lower-cased name with a bank
    record, and never both. *)
Theorem route_merge_keeps_bank_records :
  forall bank_subs email_subs : list DetectedSubscription,
    let merged := merge_detected_subscriptions bank_subs email_subs in
    let head := firstn (List.length bank_subs) merged in
    let tail := skipn (List.length bank_subs) merged in
    map merchant_name head = map merchant_name bank_subs
    /\ map amount head = map amount bank_subs
    /\ map billing_cycle head = map billing_cycle bank_subs
    /\ (List.length bank_subs <= List.length merged
        <= List.length bank_subs + List.length email_subs)%nat
    /\ (forall e, In e email_subs ->
                  In e tail
                  \/ exists b, In b bank_subs
                               /\ Py.lower (merchant_name e)
                                  = Py.lower (merchant_name b))
    /\ (forall e, In e tail ->
                  In e email_subs
                  /\ forall b, In b bank_subs ->
                               Py.lower (merchant_name e)
                               <> Py.lower (merchant_name b)).
Proof.
  intros bank_subs email_subs merged head tail.
  unfold merge_detected_subscriptions in merged.
  set (pick := fun bank_sub : DetectedSubscription =>
         match find (fun email_sub =>
                       String.eqb (Py.lower (merchant_name email_sub))
                                  (Py.lower (merchant_name bank_sub)))
                    email_subs with
         | Some matching_email => _merge_subscription_data bank_sub matching_email
         | None => bank_sub
         end) in *.
  set (only := filter _ email_subs) in *.
  assert (Hlen : List.length (map pick bank_subs) = List.length bank_subs)
    by apply length_map.
  assert (Hhead : head = map pick bank_subs).
  { unfold head, merged. rewrite <- Hlen at 1.
    rewrite firstn_app, Nat.sub_diag, firstn_all. simpl.
    now rewrite app_nil_r. }
  assert (Htail : tail = only).
  { unfold tail, merged. rewrite <- Hlen at 1.
    rewrite skipn_app, Nat.sub_diag, skipn_all. reflexivity. }
  assert (Hfield : forall (A : Type) (f : DetectedSubscription -> A),
             (forall b e, f (_merge_subscription_data b e) = f b) ->
             map f (map pick bank_subs) = map f bank_subs).
  { intros A f Hf. rewrite map_map. apply map_ext. intro b. unfold pick.
    destruct (find _ email_subs); [apply Hf | reflexivity]. }
  rewrite Hhead, Htail.
  split; [apply Hfield; reflexivity |].
  split; [apply Hfield; reflexivity |].
  split; [apply Hfield; reflexivity |].
  split.
  { unfold merged. rewrite length_app, Hlen.
    pose proof (filter_length_le
                  (fun email_sub =>
                     negb (existsb
                             (String.eqb (Py.lower (merchant_name email_sub)))
                             (map (fun bank_sub =>
                                     Py.lower (merchant_name bank_sub))
                                  bank_subs)))
                  email_subs) as Hle.
    fold only in Hle. lia. }
  split.
  - intros e He. unfold only.
    destruct (existsb (String.eqb (Py.lower (merchant_name e)))
                (map (fun bank_sub => Py.lower (merchant_name bank_sub))
                     bank_subs)) eqn:E.
    + right. apply existsb_exists in E. destruct E as [key [Hkey Heq]].
      apply in_map_iff in Hkey. destruct Hkey as [b [<- Hb]].
      exists b. split; [exact Hb |]. now apply String.eqb_eq.
    + left. apply filter_In. split; [exact He |]. now rewrite E.
  - intros e He. unfold only in He. apply filter_In in He.
    destruct He as [He Hnot]. split; [exact He |].
    intros b Hb Heq. apply negb_true_iff in Hnot.
    assert (Ht : existsb (String.eqb (Py.lower (merchant_name e)))
                   (map (fun bank_sub => Py.lower (merchant_name bank_sub))
                        bank_subs) = true).
    { apply existsb_exists. exists (Py.lower (merchant_name b)).
      split; [apply in_map_iff; now exists b | now apply String.eqb_eq]. }
    congruence.
Qed.

Lemma route_merge_keeps_bank_records_witness :
  In email_netflix_com
     (skipn 1 (merge_detected_subscriptions [bank_netflix]
                                            [email_netflix_com]))
  \/ exists b, In b [bank_netflix]
               /\ Py.lower (merchant_name email_netflix_com)
                  = Py.lower (merchant_name b).
Proof.
  destruct (route_merge_keeps_bank_records [bank_netflix] [email_netflix_com])
    as [_ [_ [_ [_ [H _]]]]].
  apply (H email_netflix_com). left. reflexivity.
Defined.

(* ================================================================== *)
(** ** Further properties: detector and transaction path *)
(* ================================================================== *)

Lemma fold_max_ge (l : list Z) (x : Z) : (x <= fold_left Z.max l x)%Z.
Proof.
  revert x. induction l as [| y l IH]; intro x; simpl; [lia |].
  specialize (IH (Z.max x y)). lia.
Qed.

Lemma fold_min_le (l : list Z) (x : Z) : (fold_left Z.min l x <= x)%Z.
Proof.
  revert x. induction l as [| y l IH]; intro x; simpl; [lia |].
  specialize (IH (Z.min x y)). lia.
Qed.

Lemma minZ_le_maxZ (l : list Z) : (Py.minZ l <= Py.maxZ l)%Z.
Proof.
  destruct l as [| x l]; simpl; [lia |].
  pose proof (fold_max_ge l x). pose proof (fold_min_le l x). lia.
Qed.

Lemma cycle_of_interval_some (avg : Q) (cycle : string) :
  cycle_of_interval avg = Some cycle ->
  (cycle = "monthly" /\ 25 <= avg <= 35)
  \/ (cycle = "quarterly" /\ 85 <= avg <= 95)
  \/ (cycle = "annual" /\ 350 <= avg <= 375)
  \/ (cycle = "weekly" /\ 6 <= avg <= 8).
Proof.
  unfold cycle_of_interval.
  repeat match goal with
         | |- context [Qle_bool ?lo avg && Qle_bool avg ?hi] =>
             let E := fresh "E" in
             destruct (Qle_bool lo avg && Qle_bool avg hi) eqn:E;
             [ apply andb_true_iff in E; destruct E as [Lo Hi];
               apply Qle_bool_iff in Lo; apply Qle_bool_iff in Hi;
               intro H; injection H as <-; intuition reflexivity | ]
         end.
  discriminate.
Qed.

Lemma small_group_rejected (transactions : list Transaction) :
  (List.length transactions < 4)%nat ->
  _detect_recurring_pattern transactions = None.
Proof.
  intro Hlen.
  destruct (Nat.lt_ge_cases (List.length transactions) 2) as [Hlt | Hge].
  - unfold _detect_recurring_pattern.
    apply Nat.ltb_lt in Hlt. now rewrite Hlt.
  - apply detect_rejects_on_variance.
    assert (Hset : Py.set_of (map tx_amount transactions) <> []).
    { apply set_of_nonempty.
      destruct transactions; simpl in *; [lia | congruence]. }
    unfold amount_consistency_of, count_of. rewrite length_map.
    apply Qlt_shift_div_l.
    + unfold Qlt. simpl. lia.
    + destruct (Py.set_of (map tx_amount transactions)) as [| d ds];
        [congruence |].
      unfold Qlt, Qmult. cbn [List.length Qnum Qden inject_Z]. lia.
Qed.

Lemma detected_pattern_facts :
  forall (transactions : list Transaction) (p : Pattern.t),
    _detect_recurring_pattern transactions = Some p ->
    In (Pattern.billing_cycle p) ["monthly"; "quarterly"; "annual"; "weekly"]
    /\ cycle_of_interval (avg_interval_of transactions)
       = Some (Pattern.billing_cycle p)
    /\ 6 <= avg_interval_of transactions <= 375
    /\ amount_consistency_of transactions <= 0.3
    /\ Pattern.transaction_count p = List.length transactions
    /\ (4 <= List.length transactions)%nat
    /\ Pattern.interval_consistency p <= 1.
Proof.
  intros transactions p H.
  assert (Hfour : (4 <= List.length transactions)%nat).
  { apply Nat.le_ngt. intro Hlt.
    rewrite (small_group_rejected _ Hlt) in H. discriminate. }
  unfold _detect_recurring_pattern in H.
  destruct (List.length transactions <? 2)%nat; [discriminate |].
  cbv zeta in H.
  destruct (Py.Qltb 0.3 (amount_consistency_of transactions)) eqn:Hvar;
    [discriminate |].
  apply Qltb_false in Hvar.
  destruct (cycle_of_interval (avg_interval_of transactions))
    as [cycle |] eqn:Hcycle; [| discriminate].
  injection H as <-. simpl.
  pose proof (cycle_of_interval_some _ _ Hcycle) as Hcase.
  assert (Havg : 6 <= avg_interval_of transactions <= 375).
  { destruct Hcase as [[_ [L U]] | [[_ [L U]] | [[_ [L U]] | [_ [L U]]]]];
      split;
      solve [ eapply Qle_trans; [| exact L]; discriminate
            | eapply Qle_trans; [exact U |]; discriminate
            | assumption ]. }
  split.
  { simpl. destruct Hcase as [[-> _] | [[-> _] | [[-> _] | [-> _]]]]; tauto. }
  split; [reflexivity |].
  split; [exact Havg |].
  split; [exact Hvar |].
  split; [reflexivity |].
  split; [exact Hfour |].
  assert (Hpos : 0 < avg_interval_of transactions).
  { eapply Qlt_le_trans; [| exact (proj1 Havg)]. reflexivity. }
  assert (Hspread :
            0 <= inject_Z
                   (Py.maxZ (intervals_of (map tx_date transactions))
                    - Py.minZ (intervals_of (map tx_date transactions)))
                 / avg_interval_of transactions).
  { apply Qle_shift_div_l; [exact Hpos |].
    rewrite Qmult_0_l.
    pose proof (minZ_le_maxZ (intervals_of (map tx_date transactions))).
    unfold Qle. simpl. lia. }
  apply (Qplus_le_r _ _ (- 1)). ring_simplify.
  apply (Qplus_le_r _ _
           (inject_Z
              (Py.maxZ (intervals_of (map tx_date transactions))
               - Py.minZ (intervals_of (map tx_date transactions)))
            / avg_interval_of transactions)).
  ring_simplify. exact Hspread.
Qed.

(** X7. A pattern the detector returns names one of the four cycles
    monthly, quarterly, annual and weekly (never biweekly), the one whose
    day range holds the average interval; it stands for at least four
    transactions of which at most 30% differ in amount, counts them all,
    and its interval consistency is at most 1. *)
Theorem detected_pattern_shape :
  forall (transactions : list Transaction) (p : Pattern.t),
    _detect_recurring_pattern transactions = Some p ->
    In (Pattern.billing_cycle p) ["monthly"; "quarterly"; "annual"; "weekly"]
    /\ cycle_of_interval (avg_interval_of transactions)
       = Some (Pattern.billing_cycle p)
    /\ 6 <= avg_interval_of transactions <= 375
    /\ amount_consistency_of transactions <= 0.3
    /\ Pattern.transaction_count p = List.length transactions
    /\ (4 <= List.length transactions)%nat
    /\ Pattern.interval_consistency p <= 1.
Proof. exact detected_pattern_facts. Qed.

Lemma detected_pattern_shape_witness :
  exists p,
    _detect_recurring_pattern
      [charge 9.99 0; charge 9.99 30; charge 9.99 61; charge 9.99 91;
       charge 9.99 122] = Some p
    /\ Pattern.billing_cycle p = "monthly"
    /\ Pattern.interval_consistency p <= 1.
Proof.
  eexists. split; [vm_compute; reflexivity |].
  split; [reflexivity |].
  apply (detected_pattern_shape
           [charge 9.99 0; charge 9.99 30; charge 9.99 61; charge 9.99 91;
            charge 9.99 122]).
  vm_compute. reflexivity.
Defined.






(* ================================================================== *)
(** ** Further properties: the classifier *)
(* ================================================================== *)

Lemma chars_str (l : list ascii) : Py.chars (Py.str l) = l.
Proof. apply list_ascii_of_string_of_list_ascii. Qed.

Lemma to_lower_idem (c : ascii) : Py.to_lower (Py.to_lower c) = Py.to_lower c.
Proof. destruct c as [[] [] [] [] [] [] [] []]; reflexivity. Qed.

Lemma to_lower_upper (c : ascii) : Py.to_lower (Py.to_upper c) = Py.to_lower c.
Proof. destruct c as [[] [] [] [] [] [] [] []]; reflexivity. Qed.

Lemma lower_lower (s : string) : Py.lower (Py.lower s) = Py.lower s.
Proof.
  unfold Py.lower. rewrite chars_str, map_map. f_equal.
  apply map_ext. intro c. apply to_lower_idem.
Qed.

Lemma lower_title (s : string) : Py.lower (Py.title s) = Py.lower s.
Proof.
  unfold Py.lower, Py.title. rewrite chars_str. f_equal.
  generalize false. induction (Py.chars s) as [| c l IH]; intro b; simpl;
    [reflexivity |].
  rewrite IH. f_equal.
  destruct b; [apply to_lower_idem | apply to_lower_upper].
Qed.

(** X9. For a merchant name of ASCII characters, the category, the
    confidence, the service name and the cancellation information found for
    it do not change when the name is lower-cased or title-cased, the casing
    the records are stored with.  (Outside ASCII [title] can turn a
    character into one that [lower] maps elsewhere, and the statement fails
    of Python's strings.) *)
Theorem lookups_ignore_case :
  forall name : string,
    isascii name = true ->
    _classify_merchant (Py.title name) = _classify_merchant name
    /\ _classify_merchant (Py.lower name) = _classify_merchant name
    /\ _get_service_name (Py.title name) = _get_service_name name
    /\ _get_service_name (Py.lower name) = _get_service_name name
    /\ _get_cancellation_info (Py.title name) = _get_cancellation_info name
    /\ _get_cancellation_info (Py.lower name) = _get_cancellation_info name.
Proof.
  intros name _.
  unfold _classify_merchant, _get_service_name, _get_cancellation_info,
    lookup_by_substring.
  cbv zeta. rewrite lower_title, lower_lower. repeat split; reflexivity.
Qed.

Lemma lookups_ignore_case_witness :
  _classify_merchant (Py.title "NETFLIX inc") = _classify_merchant "NETFLIX inc"
  /\ _get_cancellation_info (Py.lower "NETFLIX inc")
     = _get_cancellation_info "NETFLIX inc".
Proof.
  pose proof (lookups_ignore_case "NETFLIX inc" eq_refl) as H.
  exact (conj (proj1 H) (proj2 (proj2 (proj2 (proj2 (proj2 H)))))).
Defined.

(** A run of literal characters is found exactly where the text has it as a
    substring. *)
Lemma match_literal {A : Type} (w : string) :
  forall (s : string) (g : option (list ascii))
         (k : list ascii -> option (list ascii) -> option A),
    (forall s' g', k s' g' <> None) ->
    (Re.rmatch false (Re.Lit w) (Py.chars s) g k <> None
     <-> String.prefix w s = true).
Proof.
  induction w as [| c w IH]; intros s g k Hk; simpl.
  - split; [intros _; now destruct s | intros _; apply Hk].
  - destruct s as [| x s]; simpl.
    + split; [intro H; now elim H | discriminate].
    + unfold Re.chr_eq.
      destruct (Ascii.ascii_dec c x) as [-> | Hne].
      * rewrite Ascii.eqb_refl. now apply IH.
      * apply Ascii.eqb_neq in Hne. rewrite Hne.
        split; [intro H; now elim H | discriminate].
Qed.

Lemma search_found_iff (r : Re.regex) (w : string)
  (Hr : forall s : string,
      Re.match_at false r (Py.chars s) <> None <-> String.prefix w s = true) :
  forall text : string, re_search_in false r text = Py.contains w text.
Proof.
  unfold re_search_in, Py.chars in *.
  induction text as [| c text IH];
    cbn [list_ascii_of_string Re.search Py.contains].
  - specialize (Hr ""). cbn [list_ascii_of_string] in Hr.
    destruct (Re.match_at false r []) as [f |];
      destruct (String.prefix w "") eqn:E; try reflexivity; exfalso.
    + assert (H : false = true) by (apply Hr; discriminate). discriminate.
    + now apply (proj2 Hr).
  - specialize (Hr (String c text)). cbn [list_ascii_of_string] in Hr.
    destruct (Re.match_at false r (c :: list_ascii_of_string text)) as [f |];
      destruct (String.prefix w (String c text)) eqn:E;
      try reflexivity; try exact IH; exfalso.
    + assert (H : false = true) by (apply Hr; discriminate). discriminate.
    + now apply (proj2 Hr).
Qed.

Lemma search_literal (w text : string) :
  re_search_in false (Re.Lit w) text = Py.contains w text.
Proof.
  apply search_found_iff. intro s. unfold Re.match_at.
  apply match_literal. intros s' g'. discriminate.
Qed.

Lemma search_literal_optional (w text : string) (c : ascii) :
  re_search_in false (Re.Seq (Re.Lit w) (Re.Opt (Re.Chr c))) text
  = Py.contains w text.
Proof.
  apply search_found_iff. intro s. unfold Re.match_at. simpl.
  apply match_literal. intros s' g'.
  destruct s' as [| x s']; simpl; [discriminate |].
  match goal with
  | |- context [if ?b then _ else _] => destruct b
  end; discriminate.
Qed.

(** X10. The regular expressions of the taxonomy act as plain
    case-insensitive substring tests: [_classify_merchant] agrees on every
    name with the classification that looks the keywords of the table up
    as substrings of the lower-cased name (the optional + after disney adds
    nothing); so any name containing netflix is 'streaming' with 0.9. *)
Theorem classify_is_keyword_lookup :
  (forall name : string,
     _classify_merchant name = classify_by_keywords name)
  /\ (forall name : string,
        Py.contains "netflix" (Py.lower name) = true ->
        _classify_merchant name = ("streaming", 0.9)).
Proof.
  assert (Hall : forall name : string,
             _classify_merchant name = classify_by_keywords name).
  { intro name.
    unfold _classify_merchant, classify_by_keywords,
      _load_subscription_patterns, keyword_table, Py.any_in.
    cbv zeta.
    cbn [find existsb patterns snd fst].
    rewrite search_literal_optional, !search_literal.
    repeat match goal with
           | |- context [if ?b then _ else _] => destruct b
           end; reflexivity. }
  split; [exact Hall |].
  intros name H. rewrite Hall.
  unfold classify_by_keywords, keyword_table, Py.any_in. cbv zeta.
  cbn [find existsb snd fst]. now rewrite H.
Qed.

Lemma classify_is_keyword_lookup_witness :
  _classify_merchant "PAYPAL *NETFLIX.COM 866" = ("streaming", 0.9).
Proof.
  apply (proj2 classify_is_keyword_lookup). vm_compute. reflexivity.
Defined.

(* ================================================================== *)
(** ** Further properties: candidates of the stream and email paths *)
(* ================================================================== *)





Lemma text_cycle_known (text : string) :
  In (_extract_billing_cycle_from_text text)
     ["monthly"; "annual"; "weekly"; "quarterly"].
Proof.
  unfold _extract_billing_cycle_from_text.
  repeat match goal with
         | |- context [if ?b then _ else _] => destruct b
         end; simpl; tauto.
Qed.

(** X12. A candidate [_analyze_email_for_subscription] emits is
    email-origin, carries the title-cased extracted merchant name, an amount
    within [0.99, 999.99], one of the cycles monthly, annual, weekly and
    quarterly, a confidence between 0.4 and 1.0 and the date of the message
    as its last transaction date; its next billing date is set exactly when
    the message has a date. *)
Theorem email_candidate_shape :
  forall (subject sender body : string) (date : option Py.datetime)
         (d : DetectedSubscription),
    _analyze_email_for_subscription subject sender body date = Some d ->
    detection_source d = "email"
    /\ (exists merchant, email_merchant subject sender = Some merchant
                         /\ merchant_name d = Py.title merchant)
    /\ 0.99 <= amount d <= 999.99
    /\ In (billing_cycle d) ["monthly"; "annual"; "weekly"; "quarterly"]
    /\ 0.4 <= confidence_score d <= 1
    /\ last_transaction_date d = date
    /\ (next_billing_date d = None <-> date = None)
    /\ plaid_stream_id d = None.
Proof.
  intros subject sender body date d.
  unfold _analyze_email_for_subscription,
    _extract_subscription_info_from_email.
  cbv zeta.
  destruct (email_merchant subject sender) as [m |]; [| discriminate].
  destruct (negb (Py.truthy m)); [discriminate |].
  destruct (_extract_amount_from_text (full_text_of subject sender body))
    as [a |] eqn:Ha; [| discriminate].
  destruct (Qeq_bool a 0); [discriminate |].
  assert (Hconf : 0.4 <= Py.min (snd (_classify_merchant m) + 0.1) 1.0 <= 1).
  { destruct (classify_confidence_cases m) as [-> | [-> | ->]];
      vm_compute; split; discriminate. }
  destruct (_classify_merchant m) as [category confidence].
  simpl in Hconf.
  pose proof (text_cycle_known (full_text_of subject sender body)) as Hcycle.
  intro H. injection H as <-. simpl.
  split; [reflexivity |].
  split; [exists m; split; reflexivity |].
  split; [exact (proj1 (amount_from_patterns_sound _ _ _ Ha)) |].
  split; [exact Hcycle |].
  split; [exact Hconf |].
  split; [reflexivity |].
  split; [| reflexivity].
  destruct date as [when |]; [| split; reflexivity].
  assert (Htruthy : Py.truthy
                      (_extract_billing_cycle_from_text
                         (full_text_of subject sender body)) = true).
  { simpl in Hcycle.
    destruct Hcycle as [<- | [<- | [<- | [<- | []]]]]; reflexivity. }
  rewrite Htruthy. split; discriminate.
Qed.

Lemma email_candidate_shape_witness :
  exists d,
    _analyze_email_for_subscription
      "Your Spotify Premium receipt" "Spotify <no-reply@spotify.com>"
      "Total: 9.99 USD, billed yearly" (Some (Py.naive (day 40))) = Some d
    /\ detection_source d = "email"
    /\ billing_cycle d = "annual"
    /\ 0.99 <= amount d <= 999.99.
Proof.
  eexists. split; [vm_compute; reflexivity |].
  split; [reflexivity |]. split; [reflexivity |].
  refine (proj1 (proj2 (proj2 (email_candidate_shape
            "Your Spotify Premium receipt" "Spotify <no-reply@spotify.com>"
            "Total: 9.99 USD, billed yearly" (Some (Py.naive (day 40)))
            _ _)))).
  vm_compute. reflexivity.
Defined.

(* ================================================================== *)
(** ** Further properties: analytics *)
(* ================================================================== *)

Lemma bump_category_keys (table : list (string * (nat * Q)))
  (category : string) (cost : Q) (key : string) :
  In key (map fst (bump_category table category cost))
  <-> key = category \/ In key (map fst table).
Proof.
  induction table as [| [k [n c]] table IH]; simpl.
  - intuition.
  - destruct (String.eqb k category) eqn:E; simpl.
    + apply String.eqb_eq in E. subst. intuition.
    + rewrite IH. intuition.
Qed.

Lemma bump_category_nodup (table : list (string * (nat * Q)))
  (category : string) (cost : Q) :
  NoDup (map fst table) ->
  NoDup (map fst (bump_category table category cost)).
Proof.
  induction table as [| [k [n c]] table IH]; simpl; intro H.
  - repeat constructor. intros [].
  - inversion H as [| ? ? Hnot Hnd]; subst.
    destruct (String.eqb k category) eqn:E; simpl.
    + constructor; assumption.
    + constructor; [| now apply IH].
      rewrite bump_category_keys. intros [-> | Hin]; [| contradiction].
      rewrite String.eqb_refl in E. discriminate.
Qed.

Lemma bump_category_count (table : list (string * (nat * Q)))
  (category : string) (cost : Q) :
  total_count (bump_category table category cost) = S (total_count table).
Proof.
  unfold total_count.
  induction table as [| [k [n c]] table IH]; simpl; [reflexivity |].
  destruct (String.eqb k category); simpl; [reflexivity |].
  rewrite IH. lia.
Qed.

Lemma bump_category_cost (table : list (string * (nat * Q)))
  (category : string) (cost : Q) :
  total_cost (bump_category table category cost) == total_cost table + cost.
Proof.
  induction table as [| [k [n c]] table IH]; simpl; [ring |].
  destruct (String.eqb k category); simpl; [ring |].
  rewrite IH. ring.
Qed.

Lemma category_fold (subscriptions : list DetectedSubscription) :
  forall table : list (string * (nat * Q)),
    NoDup (map fst table) ->
    let result :=
      fold_left (fun table sub =>
                   bump_category table (category sub) (monthly_cost_of sub))
                subscriptions table in
    NoDup (map fst result)
    /\ total_count result
       = (total_count table + List.length subscriptions)%nat
    /\ total_cost result
       == total_cost table + sum_over monthly_cost_of subscriptions
    /\ forall key, In key (map fst result)
                   <-> In key (map fst table)
                       \/ In key (map category subscriptions).
Proof.
  induction subscriptions as [| sub l IH]; intros table Hnd.
  - simpl. split; [exact Hnd |]. split; [lia |]. split; [ring | intuition].
  - cbn [fold_left].
    destruct (IH (bump_category table (category sub) (monthly_cost_of sub))
                (bump_category_nodup _ _ _ Hnd)) as [H1 [H2 [H3 H4]]].
    split; [exact H1 |]. split; [| split].
    + rewrite H2, bump_category_count. simpl. lia.
    + rewrite H3, bump_category_cost. simpl. ring.
    + intro key. rewrite H4, bump_category_keys. simpl. intuition.
Qed.

Lemma bump_cycle_keys (table : list (string * nat)) (cycle key : string) :
  In key (map fst (bump_cycle table cycle))
  <-> key = cycle \/ In key (map fst table).
Proof.
  induction table as [| [k n] table IH]; simpl.
  - intuition.
  - destruct (String.eqb k cycle) eqn:E; simpl.
    + apply String.eqb_eq in E. subst. intuition.
    + rewrite IH. intuition.
Qed.

Lemma cycle_fold (subscriptions : list DetectedSubscription) :
  forall table : list (string * nat),
    NoDup (map fst table) ->
    let result :=
      fold_left (fun table sub => bump_cycle table (billing_cycle sub))
                subscriptions table in
    NoDup (map fst result)
    /\ list_sum (map snd result)
       = (list_sum (map snd table) + List.length subscriptions)%nat.
Proof.
  induction subscriptions as [| sub l IH]; intros table Hnd.
  - simpl. split; [exact Hnd | lia].
  - cbn [fold_left].
    assert (Hstep : NoDup (map fst (bump_cycle table (billing_cycle sub)))
                    /\ list_sum (map snd (bump_cycle table (billing_cycle sub)))
                       = S (list_sum (map snd table))).
    { clear IH. induction table as [| [k n] table IHt]; simpl.
      - split; [repeat constructor; intros [] | reflexivity].
      - inversion Hnd as [| ? ? Hnot Hnd']; subst.
        destruct (String.eqb k (billing_cycle sub)) eqn:E; simpl.
        + split; [constructor; assumption | reflexivity].
        + destruct (IHt Hnd') as [I1 I2]. split.
          * constructor; [| exact I1].
            rewrite bump_cycle_keys. intros [-> | Hin]; [| contradiction].
            rewrite String.eqb_refl in E. discriminate.
          * rewrite I2. lia. }
    destruct Hstep as [S1 S2].
    destruct (IH _ S1) as [H1 H2].
    split; [exact H1 |]. rewrite H2, S2. simpl. lia.
Qed.

Lemma monthly_cost_split (sub : DetectedSubscription) :
  monthly_cost_of sub == monthly_equivalent sub + uncounted_amount sub.
Proof.
  unfold monthly_cost_of, monthly_equivalent, uncounted_amount,
    counted_cycle.
  destruct (String.eqb (billing_cycle sub) "monthly"); simpl; [ring |].
  destruct (String.eqb (billing_cycle sub) "annual"); simpl; [ring |].
  destruct (String.eqb (billing_cycle sub) "weekly"); simpl; [ring |].
  destruct (String.eqb (billing_cycle sub) "quarterly"); simpl; ring.
Qed.

Lemma sum_over_plus (f g : DetectedSubscription -> Q)
  (l : list DetectedSubscription) :
  (forall s, f s == g s) -> sum_over f l == sum_over g l.
Proof.
  intro H. induction l as [| s l IH]; simpl; [reflexivity |].
  now rewrite H, IH.
Qed.

Lemma sum_over_add (f g : DetectedSubscription -> Q)
  (l : list DetectedSubscription) :
  sum_over (fun s => f s + g s) l == sum_over f l + sum_over g l.
Proof.
  induction l as [| s l IH]; simpl; [ring |]. rewrite IH. ring.
Qed.

Lemma analysis_fields (now : Z) (subscriptions : list DetectedSubscription)
  (a : Analysis.t) :
  _analyze_subscription_patterns now subscriptions = inl a ->
  Analysis.category_breakdown a
  = fold_left (fun table sub =>
                 bump_category table (category sub) (monthly_cost_of sub))
              subscriptions []
  /\ Analysis.billing_cycle_breakdown a
     = fold_left (fun table sub => bump_cycle table (billing_cycle sub))
                 subscriptions []
  /\ Analysis.highest_subscription a
     = option_map (fun sub => (merchant_name sub, amount sub,
                               billing_cycle sub))
                  (highest_of subscriptions)
  /\ (subscriptions <> [] ->
      Analysis.subscription_count a = Some (List.length subscriptions))
  /\ (subscriptions = [] -> Analysis.subscription_count a = None).
Proof.
  unfold _analyze_subscription_patterns.
  destruct subscriptions as [| sub l].
  - intro H. injection H as <-. simpl. repeat split; congruence.
  - destruct (totals_of (sub :: l)) as [m y].
    destruct (count_unused_trials now (sub :: l)) as [n | e];
      [| discriminate].
    intro H. injection H as <-. simpl. repeat split; congruence.
Qed.

(** X13. In every answer of the analytics each category and each billing
    cycle of the list has exactly one entry, and the counts of the category
    breakdown, like those of the billing-cycle breakdown, add up to the
    number of subscriptions. *)
Theorem breakdown_counts :
  forall (now : Z) (subscriptions : list DetectedSubscription)
         (a : Analysis.t),
    _analyze_subscription_patterns now subscriptions = inl a ->
    NoDup (map fst (Analysis.category_breakdown a))
    /\ NoDup (map fst (Analysis.billing_cycle_breakdown a))
    /\ (forall key, In key (map fst (Analysis.category_breakdown a))
                    <-> In key (map category subscriptions))
    /\ total_count (Analysis.category_breakdown a)
       = List.length subscriptions
    /\ list_sum (map snd (Analysis.billing_cycle_breakdown a))
       = List.length subscriptions.
Proof.
  intros now subscriptions a H.
  destruct (analysis_fields _ _ _ H) as [Hc [Hb _]].
  rewrite Hc, Hb.
  destruct (category_fold subscriptions [] (NoDup_nil _))
    as [C1 [C2 [_ C4]]].
  destruct (cycle_fold subscriptions [] (NoDup_nil _)) as [B1 B2].
  split; [exact C1 |]. split; [exact B1 |]. split; [| split].
  - intro key. rewrite C4. simpl. intuition.
  - exact C2.
  - exact B2.
Qed.

Lemma breakdown_counts_witness :
  exists a,
    _analyze_subscription_patterns 0 four_monthly = inl a
    /\ total_count (Analysis.category_breakdown a) = 4%nat.
Proof.
  eexists. split; [vm_compute; reflexivity |].
  refine (proj1 (proj2 (proj2 (proj2 (breakdown_counts 0 four_monthly _ _))))).
  vm_compute. reflexivity.
Defined.

(** X14. The monthly costs of the category breakdown add up to the sum of
    the monthly equivalents, the sum total_monthly rounds, plus the amounts
    of the subscriptions whose cycle is none of monthly, annual, weekly and
    quarterly: such a subscription (a biweekly one) counts with its full
    amount in its category and with nothing in the totals. *)
Theorem category_costs_and_totals :
  forall (now : Z) (subscriptions : list DetectedSubscription)
         (a : Analysis.t),
    _analyze_subscription_patterns now subscriptions = inl a ->
    total_cost (Analysis.category_breakdown a)
    == sum_over monthly_equivalent subscriptions
       + sum_over uncounted_amount subscriptions.
Proof.
  intros now subscriptions a H.
  destruct (analysis_fields _ _ _ H) as [Hc _]. rewrite Hc.
  destruct (category_fold subscriptions [] (NoDup_nil _))
    as [_ [_ [C3 _]]].
  rewrite C3. simpl. rewrite Qplus_0_l.
  rewrite <- sum_over_add. apply sum_over_plus. apply monthly_cost_split.
Qed.

Lemma category_costs_and_totals_witness :
  let subscriptions :=
    [ candidate "Hulu" 7.99 "monthly" 1 "bank";
      candidate "Gym" 20 "biweekly" 1 "bank" ] in
  exists a,
    _analyze_subscription_patterns 0 subscriptions = inl a
    /\ Analysis.total_monthly a == 7.99
    /\ total_cost (Analysis.category_breakdown a) == 27.99.
Proof.
  intro subscriptions. eexists. split; [vm_compute; reflexivity |].
  split; [reflexivity |].
  eapply Qeq_trans;
    [apply (category_costs_and_totals 0 subscriptions);
     vm_compute; reflexivity | reflexivity].
Defined.

Lemma highest_fold (l : list DetectedSubscription) :
  forall first : DetectedSubscription,
    let best := fold_left (fun best sub =>
                             if Py.Qltb (amount best) (amount sub) then sub
                             else best) l first in
    In best (first :: l)
    /\ forall s, In s (first :: l) -> amount s <= amount best.
Proof.
  induction l as [| x l IH]; intro first.
  - simpl. split; [now left |]. intros s [<- | []]. apply Qle_refl.
  - cbn [fold_left].
    destruct (Py.Qltb (amount first) (amount x)) eqn:E.
    + apply Qltb_true in E. destruct (IH x) as [Hin Hmax].
      split; [right; exact Hin |].
      intros s [<- | Hs]; [| now apply Hmax].
      apply Qle_trans with (amount x);
        [now apply Qlt_le_weak | apply Hmax; now left].
    + apply Qltb_false in E. destruct (IH first) as [Hin Hmax].
      split.
      * destruct Hin as [<- | Hin]; [now left | right; now right].
      * intros s [<- | [<- | Hs]].
        -- apply Hmax. now left.
        -- apply Qle_trans with (amount first); [exact E |].
           apply Hmax. now left.
        -- apply Hmax. now right.
Qed.

(** X15. The 'highest_subscription' of the analytics is taken from the
    list and no subscription of the list has a larger amount; it is absent
    only for the empty list. *)
Theorem highest_subscription_is_maximal :
  forall (now : Z) (subscriptions : list DetectedSubscription)
         (a : Analysis.t),
    _analyze_subscription_patterns now subscriptions = inl a ->
    (Analysis.highest_subscription a = None <-> subscriptions = [])
    /\ forall (name : string) (price : Q) (cycle : string),
         Analysis.highest_subscription a = Some (name, price, cycle) ->
         (exists s, In s subscriptions
                    /\ merchant_name s = name /\ amount s = price
                    /\ billing_cycle s = cycle)
         /\ forall s, In s subscriptions -> amount s <= price.
Proof.
  intros now subscriptions a H.
  destruct (analysis_fields _ _ _ H) as [_ [_ [Hh _]]]. rewrite Hh.
  destruct subscriptions as [| first l]; simpl.
  - split; [split; reflexivity | discriminate].
  - split; [split; discriminate |].
    intros name price cycle Heq. injection Heq as <- <- <-.
    destruct (highest_fold l first) as [Hin Hmax].
    split; [| exact Hmax].
    eexists. split; [exact Hin |]. repeat split.
Qed.

Lemma highest_subscription_is_maximal_witness :
  exists a,
    _analyze_subscription_patterns 0 four_monthly = inl a
    /\ Analysis.highest_subscription a = Some ("Adobe", 52.99, "monthly")
    /\ forall s, In s four_monthly -> amount s <= 52.99.
Proof.
  eexists. split; [vm_compute; reflexivity |].
  split; [reflexivity |].
  refine (proj2 (proj2 (highest_subscription_is_maximal 0 four_monthly _ _)
                   "Adobe" 52.99 "monthly" _)).
  - vm_compute. reflexivity.
  - reflexivity.
Defined.

(* ================================================================== *)
(** ** Further properties: recommendations and the pipeline *)
(* ================================================================== *)

Lemma insert_by_priority_perm (x : Recommendation.t)
  (l : list Recommendation.t) :
  Permutation (insert_by_priority x l) (x :: l).
Proof.
  induction l as [| y l IH]; simpl; [reflexivity |].
  destruct (_ <? _)%Z; [| reflexivity].
  rewrite IH. apply perm_swap.
Qed.

Lemma sort_by_priority_perm (l : list Recommendation.t) :
  Permutation (sort_by_priority l) l.
Proof.
  induction l as [| x l IH]; simpl; [reflexivity |].
  rewrite insert_by_priority_perm. now constructor.
Qed.

Lemma insert_by_priority_sorted (x : Recommendation.t)
  (l : list Recommendation.t) :
  Sorted priority_no_lower l -> Sorted priority_no_lower (insert_by_priority x l).
Proof.
  induction l as [| y l IH]; intro H; simpl.
  - repeat constructor.
  - destruct (priority_order (Recommendation.priority x)
              <? priority_order (Recommendation.priority y))%Z eqn:E.
    + apply Z.ltb_lt in E. inversion H as [| ? ? Hs Hh]; subst.
      constructor; [now apply IH |].
      destruct l as [| z l]; simpl.
      * constructor. unfold priority_no_lower. lia.
      * destruct (_ <? _)%Z.
        -- constructor. now inversion Hh.
        -- constructor. unfold priority_no_lower. lia.
    + apply Z.ltb_ge in E. constructor; [exact H |].
      constructor. exact E.
Qed.

Lemma sort_by_priority_sorted (l : list Recommendation.t) :
  StronglySorted priority_no_lower (sort_by_priority l).
Proof.
  apply Sorted_StronglySorted.
  - intros x y z. unfold priority_no_lower. lia.
  - induction l as [| x l IH]; simpl; [constructor |].
    now apply insert_by_priority_sorted.
Qed.

Lemma filter_length_perm {A : Type} (f : A -> bool) (l l' : list A) :
  Permutation l l' ->
  List.length (filter f l) = List.length (filter f l').
Proof.
  induction 1 as [| x l l' _ IH | x y l | l l' l'' _ IH1 _ IH2]; simpl.
  - reflexivity.
  - destruct (f x); simpl; now rewrite IH.
  - destruct (f x), (f y); reflexivity.
  - now rewrite IH1.
Qed.

Lemma filter_all {A : Type} (f : A -> bool) (l : list A) :
  (forall x, In x l -> f x = true) -> filter f l = l.
Proof.
  induction l as [| x l IH]; intro H; simpl; [reflexivity |].
  rewrite (H x (or_introl eq_refl)). f_equal. apply IH.
  intros y Hy. apply H. now right.
Qed.

Lemma filter_none {A : Type} (f : A -> bool) (l : list A) :
  (forall x, In x l -> f x = false) -> filter f l = [].
Proof.
  induction l as [| x l IH]; intro H; simpl; [reflexivity |].
  rewrite (H x (or_introl eq_refl)). apply IH.
  intros y Hy. apply H. now right.
Qed.

Lemma count_type_app (name : string) (l l' : list Recommendation.t) :
  count_type name (l ++ l') = (count_type name l + count_type name l')%nat.
Proof. unfold count_type. now rewrite filter_app, length_app. Qed.

Lemma duplicate_services_count (analysis : Analysis.t) :
  count_type "duplicate_services" (duplicate_services analysis)
  = List.length (filter (fun entry => (2 <? fst (snd entry))%nat)
                        (Analysis.category_breakdown analysis)).
Proof.
  unfold count_type, duplicate_services. cbv zeta.
  rewrite filter_all.
  - rewrite length_map. f_equal.
    induction (Analysis.category_breakdown analysis) as [| [k [n c]] t IH];
      simpl; [reflexivity |].
    destruct (2 <? n)%nat eqn:E2.
    + assert (E1 : (1 <? n)%nat = true).
      { apply Nat.ltb_lt. apply Nat.ltb_lt in E2. lia. }
      rewrite E1. simpl. rewrite E2. now rewrite IH.
    + destruct (1 <? n)%nat; simpl; [rewrite E2 |]; exact IH.
  - intros r Hr. apply in_map_iff in Hr.
    destruct Hr as [[k [n c]] [<- _]]. reflexivity.
Qed.

Lemma duplicate_services_count_all (name : string) (analysis : Analysis.t) :
  count_type name (duplicate_services analysis)
  = (if String.eqb "duplicate_services" name
     then List.length (filter (fun entry => (2 <? fst (snd entry))%nat)
                              (Analysis.category_breakdown analysis))
     else 0)%nat.
Proof.
  destruct (String.eqb "duplicate_services" name) eqn:E.
  - apply String.eqb_eq in E. subst. apply duplicate_services_count.
  - apply String.eqb_neq in E.
    unfold count_type. rewrite filter_none; [reflexivity |].
    intros r Hr. unfold duplicate_services in Hr. apply in_map_iff in Hr.
    destruct Hr as [[k [n c]] [<- _]]. unfold is_type.
    cbn [duplicate_services_of Recommendation.type].
    now apply String.eqb_neq.
Qed.

Lemma recommendation_parts (subscriptions : list DetectedSubscription)
  (analysis : Analysis.t) (r : Recommendation.t) :
  In r (high_spending analysis ++ duplicate_services analysis
        ++ annual_billing subscriptions ++ [unused_trials_of analysis]) ->
  In (Recommendation.type r, Recommendation.priority r)
     [ ("high_spending", "high"); ("duplicate_services", "medium");
       ("annual_billing", "low"); ("unused_trials", "high") ].
Proof.
  intro H.
  repeat (apply in_app_or in H; destruct H as [H | H]).
  - unfold high_spending in H.
    destruct (Py.Qltb 100 _); [destruct H as [<- | []] | destruct H].
    simpl. tauto.
  - unfold duplicate_services in H. apply in_map_iff in H.
    destruct H as [[k [n c]] [<- _]]. simpl. tauto.
  - unfold annual_billing in H. cbv zeta in H.
    destruct (3 <=? _)%nat; [destruct H as [<- | []] | destruct H].
    simpl. tauto.
  - destruct H as [<- | []]. simpl. tauto.
Qed.

Lemma recommendations_facts (subscriptions : list DetectedSubscription)
  (analysis : Analysis.t) (n : nat) :
  Analysis.subscription_count analysis = Some n ->
  exists recs,
    _generate_recommendations subscriptions analysis = inl recs
    /\ StronglySorted priority_no_lower recs
    /\ (forall r, In r recs ->
                  In (Recommendation.type r, Recommendation.priority r)
                     [ ("high_spending", "high");
                       ("duplicate_services", "medium");
                       ("annual_billing", "low");
                       ("unused_trials", "high") ])
    /\ count_type "duplicate_services" recs
       = List.length (filter (fun entry => (2 <? fst (snd entry))%nat)
                             (Analysis.category_breakdown analysis))
    /\ count_type "high_spending" recs
       = (if Py.Qltb 100 (Analysis.total_monthly analysis) then 1 else 0)%nat
    /\ count_type "unused_trials" recs
       = (if (0 <? Analysis.unused_trials analysis)%nat then 1 else 0)%nat.
Proof.
  intro Hcount. unfold _generate_recommendations, has_unused_trials.
  rewrite Hcount. simpl.
  set (parts := if (0 <? Analysis.unused_trials analysis)%nat
                then ((high_spending analysis ++ duplicate_services analysis
                       ++ annual_billing subscriptions)
                      ++ [unused_trials_of analysis])%list
                else (high_spending analysis ++ duplicate_services analysis
                      ++ annual_billing subscriptions)%list).
  exists (sort_by_priority parts).
  split; [reflexivity |].
  split; [apply sort_by_priority_sorted |].
  assert (Hcnt : forall name,
             count_type name (sort_by_priority parts) = count_type name parts).
  { intro name. unfold count_type. apply filter_length_perm.
    apply sort_by_priority_perm. }
  split.
  { intros r Hr.
    apply (Permutation_in _ (sort_by_priority_perm parts)) in Hr.
    apply (recommendation_parts subscriptions analysis r).
    unfold parts in Hr.
    destruct (0 <? Analysis.unused_trials analysis)%nat.
    - rewrite <- !app_assoc in Hr. exact Hr.
    - rewrite !app_assoc. apply in_or_app. left.
      rewrite <- !app_assoc. exact Hr. }
  rewrite !Hcnt. unfold parts. clear Hcnt parts.
  assert (Hone : forall name r,
             count_type name [r]
             = (if String.eqb (Recommendation.type r) name then 1 else 0)%nat).
  { intros name r. unfold count_type, is_type. cbn [filter].
    destruct (String.eqb (Recommendation.type r) name); reflexivity. }
  assert (Hhigh : forall name,
             count_type name (high_spending analysis)
             = (if Py.Qltb 100 (Analysis.total_monthly analysis)
                then if String.eqb "high_spending" name then 1 else 0
                else 0)%nat).
  { intro name. unfold high_spending.
    destruct (Py.Qltb 100 _); [apply Hone | reflexivity]. }
  assert (Hannual : forall name,
             count_type name (annual_billing subscriptions)
             = (if (3 <=? List.length
                            (filter (fun sub =>
                                       String.eqb (billing_cycle sub) "monthly"
                                       && Py.Qltb 10 (amount sub))
                                    subscriptions))%nat
                then if String.eqb "annual_billing" name then 1 else 0
                else 0)%nat).
  { intro name. unfold annual_billing. cbv zeta.
    destruct (3 <=? _)%nat; [apply Hone | reflexivity]. }
  assert (Hunused : forall name,
             count_type name [unused_trials_of analysis]
             = (if String.eqb "unused_trials" name then 1 else 0)%nat).
  { intro name. apply Hone. }
  destruct (0 <? Analysis.unused_trials analysis)%nat;
    rewrite ?count_type_app, ?Hunused, !Hhigh, !Hannual,
      !duplicate_services_count_all;
    repeat match goal with
           | |- context [String.eqb ?a ?b] =>
               let v := eval vm_compute in (String.eqb a b) in
               change (String.eqb a b) with v
           end;
    cbv iota;
    destruct (Py.Qltb 100 (Analysis.total_monthly analysis));
    destruct (3 <=? _)%nat;
    repeat split; lia.
Qed.

(** X16. For the analysis of a non-empty list [_generate_recommendations]
    returns its recommendations with the highest priority first; each is
    one of high_spending (high), duplicate_services (medium),
    annual_billing (low) and unused_trials (high); there is one
    duplicate_services entry for each category with more than two
    subscriptions, one high_spending entry exactly when total_monthly
    exceeds 100 and one unused_trials entry exactly when the count of
    unused trials is positive. *)
Theorem recommendations_shape :
  forall (subscriptions : list DetectedSubscription)
         (analysis : Analysis.t) (n : nat),
    Analysis.subscription_count analysis = Some n ->
    exists recs,
      _generate_recommendations subscriptions analysis = inl recs
      /\ StronglySorted priority_no_lower recs
      /\ (forall r, In r recs ->
                    In (Recommendation.type r, Recommendation.priority r)
                       [ ("high_spending", "high");
                         ("duplicate_services", "medium");
                         ("annual_billing", "low");
                         ("unused_trials", "high") ])
      /\ count_type "duplicate_services" recs
         = List.length (filter (fun entry => (2 <? fst (snd entry))%nat)
                               (Analysis.category_breakdown analysis))
      /\ count_type "high_spending" recs
         = (if Py.Qltb 100 (Analysis.total_monthly analysis)
            then 1 else 0)%nat
      /\ count_type "unused_trials" recs
         = (if (0 <? Analysis.unused_trials analysis)%nat then 1 else 0)%nat.
Proof. exact recommendations_facts. Qed.

Lemma recommendations_shape_witness :
  exists a recs,
    _analyze_subscription_patterns 0 four_monthly = inl a
    /\ _generate_recommendations four_monthly a = inl recs
    /\ map Recommendation.type recs = ["duplicate_services"; "annual_billing"]
    /\ count_type "duplicate_services" recs = 1%nat
    /\ StronglySorted priority_no_lower recs.
Proof.
  eexists.
  destruct (recommendations_shape four_monthly
              {| Analysis.total_monthly := 90.96;
                 Analysis.total_annual := 1091.52;
                 Analysis.category_breakdown :=
                   [("streaming", (4%nat, 90.96000000))];
                 Analysis.billing_cycle_breakdown := [("monthly", 4%nat)];
                 Analysis.average_subscription := 22.74;
                 Analysis.highest_subscription :=
                   Some ("Adobe", 52.99, "monthly");
                 Analysis.subscription_count := Some 4%nat;
                 Analysis.unused_trials := 0 |} 4 eq_refl)
    as [recs [Hrecs [Hsorted [_ [Hdup _]]]]].
  exists recs.
  split; [vm_compute; reflexivity |].
  split; [exact Hrecs |].
  split; [| split; [exact Hdup | exact Hsorted]].
  vm_compute in Hrecs. injection Hrecs as <-. reflexivity.
Defined.

Lemma merge_size (bank_subs email_subs merged : list DetectedSubscription) :
  _merge_subscription_sources bank_subs email_subs = inl merged ->
  (List.length bank_subs <= List.length merged
   <= List.length bank_subs + List.length email_subs)%nat.
Proof.
  unfold _merge_subscription_sources.
  destruct (add_email_subs bank_subs email_subs) as [l | e] eqn:Hl; simpl;
    [| discriminate].
  intro H. injection H as <-.
  rewrite (Permutation_length (sort_desc_perm l)).
  apply (add_email_subs_shape _ _ _ Hl).
Qed.

Lemma recommendations_raise_on_empty_analysis (now : Z)
  (subscriptions : list DetectedSubscription) (a : Analysis.t) :
  _analyze_subscription_patterns now [] = inl a ->
  _generate_recommendations subscriptions a = inr Py.TypeError.
Proof.
  intro H. simpl in H. injection H as <-. reflexivity.
Qed.

(** X17. [discover_all_subscriptions] has no outcome for an empty merged
    list: when both sources are empty it raises TypeError, because the
    analysis of the empty list holds a list under 'unused_trials' and
    [_generate_recommendations] orders it against 0.  When it returns, the
    merged list is not empty and is ranked, 'total_unique' is its length and
    lies between 'bank_count' and 'bank_count' + 'email_count', the analysis
    counts as many subscriptions, and the recommendations come highest
    priority first. *)
Theorem pipeline_outcome :
  (forall now : Z, discover_all_subscriptions now [] [] = inr Py.TypeError)
  /\ forall (now : Z) (bank email : list DetectedSubscription)
            (r : Discovery.t),
       discover_all_subscriptions now bank email = inl r ->
       Discovery.subscriptions r <> []
       /\ Discovery.total_unique r = List.length (Discovery.subscriptions r)
       /\ (Discovery.bank_count r <= Discovery.total_unique r
           <= Discovery.bank_count r + Discovery.email_count r)%nat
       /\ Analysis.subscription_count (Discovery.analysis r)
          = Some (Discovery.total_unique r)
       /\ StronglySorted ranks_no_lower (Discovery.subscriptions r)
       /\ StronglySorted priority_no_lower (Discovery.recommendations r).
Proof.
  split; [intro now; reflexivity |].
  intros now bank email r. unfold discover_all_subscriptions.
  destruct (_merge_subscription_sources bank email) as [merged | e] eqn:Hm;
    simpl; [| discriminate].
  destruct (_analyze_subscription_patterns now merged) as [a | e] eqn:Ha;
    simpl; [| discriminate].
  destruct (_generate_recommendations merged a) as [recs | e] eqn:Hr;
    simpl; [| discriminate].
  intro H. injection H as <-. simpl.
  assert (Hne : merged <> []).
  { intro Hnil. subst merged.
    rewrite (recommendations_raise_on_empty_analysis now [] a Ha) in Hr.
    discriminate. }
  destruct (analysis_fields _ _ _ Ha) as [_ [_ [_ [Hcount _]]]].
  specialize (Hcount Hne).
  destruct (recommendations_facts merged a _ Hcount)
    as [recs' [Hrecs' [Hsorted _]]].
  rewrite Hr in Hrecs'. injection Hrecs' as <-.
  split; [exact Hne |]. split; [reflexivity |].
  split; [exact (merge_size _ _ _ Hm) |].
  split; [exact Hcount |].
  split; [| exact Hsorted].
  apply Sorted_StronglySorted.
  - intros x y z. apply ranks_no_lower_trans.
  - apply descending_sorted. eapply merge_output_descending; exact Hm.
Qed.

Lemma pipeline_outcome_witness :
  exists r,
    discover_all_subscriptions 0 four_monthly [email_netflix_com] = inl r
    /\ Discovery.total_unique r = 4%nat
    /\ Discovery.subscriptions r <> [].
Proof.
  eexists. split; [vm_compute; reflexivity |].
  split; [reflexivity |].
  refine (proj1 (proj2 pipeline_outcome 0%Z four_monthly [email_netflix_com]
                   _ _)).
  vm_compute. reflexivity.
Defined.

Lemma sumQ_fold_right (l : list Q) :
  forall acc : Q, fold_left Qplus l acc == acc + fold_right Qplus 0 l.
Proof.
  induction l as [| x l IH]; intro acc; simpl; [ring |].
  rewrite IH. ring.
Qed.

Lemma sum_of_filtered (p : DetectedSubscription -> bool)
  (f : DetectedSubscription -> Q) (l : list DetectedSubscription) :
  Py.sumQ (map f (filter p l))
  == sum_over (fun s => if p s then f s else 0) l.
Proof.
  unfold Py.sumQ. rewrite sumQ_fold_right, Qplus_0_l.
  induction l as [| s l IH]; simpl; [reflexivity |].
  destruct (p s); simpl; rewrite IH; ring.
Qed.

Lemma route_equivalent_monthly (sub : DetectedSubscription) :
  String.eqb (billing_cycle sub) "monthly"
  || String.eqb (billing_cycle sub) "annual" = true ->
  route_equivalent sub == monthly_equivalent sub.
Proof.
  unfold route_equivalent, monthly_equivalent.
  destruct (String.eqb (billing_cycle sub) "monthly"); simpl; [intros; ring |].
  destruct (String.eqb (billing_cycle sub) "annual"); simpl;
    [intros; ring | discriminate].
Qed.

(** X18. The summary of the discovery route counts the merged list, of
    which at most 'total_found' are of high confidence, and its
    'estimated_monthly_cost' adds the amount of each monthly subscription
    and a twelfth of each annual one: a weekly or quarterly subscription
    adds nothing to it, and on a list of monthly and annual subscriptions
    only it is the sum of the monthly equivalents of the analytics. *)
Theorem route_summary_shape :
  forall bank_subs email_subs : list DetectedSubscription,
    let merged := fst (discover_subscriptions_summary bank_subs email_subs) in
    let summary := snd (discover_subscriptions_summary bank_subs email_subs) in
    merged = merge_detected_subscriptions bank_subs email_subs
    /\ Summary.total_found summary = List.length merged
    /\ (Summary.high_confidence summary <= Summary.total_found summary)%nat
    /\ Summary.estimated_monthly_cost summary
       == sum_over route_equivalent merged
    /\ ((forall sub, In sub merged ->
                     billing_cycle sub = "monthly"
                     \/ billing_cycle sub = "annual") ->
        Summary.estimated_monthly_cost summary
        == sum_over monthly_equivalent merged).
Proof.
  intros bank_subs email_subs merged summary.
  unfold merged, summary, discover_subscriptions_summary. simpl.
  set (l := merge_detected_subscriptions bank_subs email_subs).
  assert (Hest :
            Py.sumQ (map amount
                         (filter (fun s => String.eqb (billing_cycle s)
                                                      "monthly") l))
            + Py.sumQ (map (fun s => amount s / 12)
                           (filter (fun s => String.eqb (billing_cycle s)
                                                        "annual") l))
            == sum_over route_equivalent l).
  { rewrite !sum_of_filtered, <- sum_over_add. apply sum_over_plus.
    intro s. unfold route_equivalent.
    destruct (String.eqb (billing_cycle s) "monthly") eqn:Em.
    - apply String.eqb_eq in Em. rewrite Em. simpl. ring.
    - destruct (String.eqb (billing_cycle s) "annual"); ring. }
  split; [reflexivity |]. split; [reflexivity |].
  split; [apply filter_length_le |].
  split; [exact Hest |].
  intro Hall. rewrite Hest. clear Hest.
  induction l as [| s l IH]; simpl; [reflexivity |].
  rewrite IH by (intros sub Hs; apply Hall; now right).
  rewrite route_equivalent_monthly; [reflexivity |].
  destruct (Hall s (or_introl eq_refl)) as [-> | ->]; reflexivity.
Qed.

Lemma route_summary_shape_witness :
  let summary :=
    snd (discover_subscriptions_summary
           [candidate "Hulu" 7.99 "monthly" 1 "bank"]
           [candidate "Adobe" 599.88 "annual" 0.7 "email"]) in
  Summary.estimated_monthly_cost summary == 57.98.
Proof.
  intro summary. unfold summary.
  eapply Qeq_trans.
  - apply (proj2 (proj2 (proj2 (proj2
             (route_summary_shape
                [candidate "Hulu" 7.99 "monthly" 1 "bank"]
                [candidate "Adobe" 599.88 "annual" 0.7 "email"]))))).
    intros sub [<- | [<- | []]]; [now left | now right].
  - reflexivity.
Defined.

(* ================================================================== *)
(** ** Further properties: tables, grouping, dates and rounding *)
(* ================================================================== *)

(** X19. Whenever [_get_cancellation_info] finds an entry for a merchant
    name, [_get_service_name] finds the service name filed under the same
    key: a record with cancellation information always has a service
    name. *)
Theorem cancellation_info_has_service_name :
  forall (name : string) (info : CancellationInfo),
    _get_cancellation_info name = Some info ->
    exists key service,
      In (key, info) cancellation_table
      /\ In (key, service) service_names
      /\ _get_service_name name = Some service.
Proof.
  intros name info.
  unfold _get_cancellation_info, _get_service_name, lookup_by_substring,
    cancellation_table, service_names.
  cbv zeta. cbn [find fst snd option_map].
  destruct (Py.contains "netflix" (Py.lower name)).
  - intro H. injection H as <-. exists "netflix", "Netflix". simpl. tauto.
  - destruct (Py.contains "spotify" (Py.lower name)).
    + intro H. injection H as <-. exists "spotify", "Spotify". simpl. tauto.
    + destruct (Py.contains "adobe" (Py.lower name)).
      * intro H. injection H as <-.
        exists "adobe", "Adobe Creative Cloud". simpl. tauto.
      * discriminate.
Qed.

Lemma cancellation_info_has_service_name_witness :
  exists info service,
    _get_cancellation_info "SPOTIFY USA" = Some info
    /\ _get_service_name "SPOTIFY USA" = Some service.
Proof.
  eexists.
  destruct (cancellation_info_has_service_name "SPOTIFY USA" _ eq_refl)
    as [key [service [_ [_ H]]]].
  exists service. split; [reflexivity | exact H].
Defined.

Lemma group_add_keys (groups : list (string * list Transaction))
  (merchant : string) (t : Transaction) (key : string) :
  In key (map fst (group_add groups merchant t))
  <-> key = merchant \/ In key (map fst groups).
Proof.
  induction groups as [| [k ts] groups IH]; simpl.
  - intuition.
  - destruct (String.eqb k merchant) eqn:E; simpl.
    + apply String.eqb_eq in E. subst. intuition.
    + rewrite IH. intuition.
Qed.

Lemma group_add_nodup (groups : list (string * list Transaction))
  (merchant : string) (t : Transaction) :
  NoDup (map fst groups) -> NoDup (map fst (group_add groups merchant t)).
Proof.
  induction groups as [| [k ts] groups IH]; simpl; intro H.
  - repeat constructor. intros [].
  - inversion H as [| ? ? Hnot Hnd]; subst.
    destruct (String.eqb k merchant) eqn:E; simpl.
    + constructor; assumption.
    + constructor; [| now apply IH].
      rewrite group_add_keys. intros [-> | Hin]; [| contradiction].
      rewrite String.eqb_refl in E. discriminate.
Qed.

Lemma group_add_size (groups : list (string * list Transaction))
  (merchant : string) (t : Transaction) :
  list_sum (map (fun g => List.length (snd g)) (group_add groups merchant t))
  = S (list_sum (map (fun g => List.length (snd g)) groups)).
Proof.
  induction groups as [| [k ts] groups IH]; simpl; [reflexivity |].
  destruct (String.eqb k merchant); simpl.
  - rewrite length_app. simpl. lia.
  - rewrite IH. lia.
Qed.

Lemma group_add_members (P : Transaction -> Prop)
  (groups : list (string * list Transaction))
  (merchant : string) (t : Transaction) :
  P t ->
  (forall key ts, In (key, ts) groups ->
                  ts <> [] /\ forall x, In x ts -> P x) ->
  forall key ts, In (key, ts) (group_add groups merchant t) ->
                 ts <> [] /\ forall x, In x ts -> P x.
Proof.
  intros Ht. induction groups as [| [k l] groups IH]; simpl; intros Hg key ts.
  - intros [H | []]. injection H as <- <-.
    split; [discriminate | intros x [<- | []]; exact Ht].
  - destruct (String.eqb k merchant); simpl.
    + intros [H | H].
      * injection H as <- <-.
        destruct (Hg k l (or_introl eq_refl)) as [_ Hl].
        split; [now destruct l |].
        intros x Hx. apply in_app_or in Hx.
        destruct Hx as [Hx | [<- | []]]; [now apply Hl | exact Ht].
      * apply (Hg key ts). now right.
    + intros [H | H].
      * injection H as <- <-. apply (Hg k l). now left.
      * exact (IH (fun key' ts' H' => Hg key' ts' (or_intror H')) key ts H).
Qed.

(** One turn of the grouping loop: a transaction that cannot be read
    raises, one that names no merchant is passed over, any other is added to
    the group of its lower-cased name with a non-negative amount. *)
Lemma add_transaction_cases (groups : list (string * list Transaction))
  (t : RawTransaction) :
  (readable t = true /\ names_merchant t = false
   /\ add_transaction groups t = inl groups)
  \/ (readable t = true /\ names_merchant t = true
      /\ exists name tx,
           Py.truthy (Py.lower name) = true
           /\ 0 <= tx_amount tx
           /\ add_transaction groups t
              = inl (group_add groups (Py.lower name) tx))
  \/ (readable t = false
      /\ exists e, add_transaction groups t = inr e
                   /\ (raw_merchant_name t = Py.Null
                       -> e = Py.AttributeError)).
Proof.
  unfold add_transaction, lowered_merchant_name, readable, names_merchant.
  destruct (raw_merchant_name t) as [| | name]; cbn [Py.bind Py.ok Py.raise].
  - left. repeat split; reflexivity.
  - right. right. split; [reflexivity |]. eexists. split; reflexivity.
  - destruct (Py.truthy (Py.lower name)) eqn:Etruthy; cbn [negb orb].
    + destruct (raw_amount t) as [| | a];
        cbn [Py.float_or_zero Py.bind Py.ok Py.raise andb].
      * destruct (raw_date t) as [z |];
          cbn [Py.strptime Py.bind Py.ok Py.raise].
        -- right. left. split; [reflexivity |]. split; [reflexivity |].
           eexists. eexists. split; [exact Etruthy |].
           split; [| reflexivity]. apply Qabs_nonneg.
        -- right. right. split; [reflexivity |]. eexists.
           split; [reflexivity | discriminate].
      * right. right. split; [reflexivity |]. eexists.
        split; [reflexivity | discriminate].
      * destruct (raw_date t) as [z |];
          cbn [Py.strptime Py.bind Py.ok Py.raise].
        -- right. left. split; [reflexivity |]. split; [reflexivity |].
           eexists. eexists. split; [exact Etruthy |].
           split; [| reflexivity]. apply Qabs_nonneg.
        -- right. right. split; [reflexivity |]. eexists.
           split; [reflexivity | discriminate].
    + left. repeat split; reflexivity.
Qed.

Lemma group_from_returns (raw : list RawTransaction) :
  forall groups,
    (exists groups', group_from groups raw = inl groups')
    <-> forallb readable raw = true.
Proof.
  induction raw as [| t raw IH]; intro groups; cbn [group_from forallb].
  - split; [reflexivity | intros _; eexists; reflexivity].
  - destruct (add_transaction_cases groups t)
      as [[Hr [_ ->]] | [[Hr [_ [name [tx [_ [_ ->]]]]]] | [Hr [e [-> _]]]]];
      rewrite Hr; cbn [Py.bind andb].
    + apply IH.
    + apply IH.
    + split; [intros [groups' H]; discriminate | discriminate].
Qed.

Lemma group_from_null (earlier later : list RawTransaction)
  (t : RawTransaction) :
  forallb readable earlier = true ->
  raw_merchant_name t = Py.Null ->
  forall groups,
    group_from groups (earlier ++ t :: later) = inr Py.AttributeError.
Proof.
  intros Hearlier Hnull.
  induction earlier as [| x earlier IH]; intro groups;
    cbn [app group_from].
  - unfold add_transaction, lowered_merchant_name. now rewrite Hnull.
  - cbn [forallb] in Hearlier. apply andb_prop in Hearlier.
    destruct Hearlier as [Hx Hearlier].
    destruct (add_transaction_cases groups x)
      as [[_ [_ ->]] | [[_ [_ [name [tx [_ [_ ->]]]]]] | [Hr _]]];
      cbn [Py.bind]; [now apply IH | now apply IH | congruence].
Qed.

Lemma group_from_shape (raw : list RawTransaction) :
  forall groups groups',
    group_from groups raw = inl groups' ->
    NoDup (map fst groups) ->
    (forall key, In key (map fst groups) ->
                 key <> "" /\ Py.lower key = key) ->
    (forall key ts, In (key, ts) groups ->
                    ts <> [] /\ forall t, In t ts -> 0 <= tx_amount t) ->
    NoDup (map fst groups')
    /\ list_sum (map (fun g => List.length (snd g)) groups')
       = (list_sum (map (fun g => List.length (snd g)) groups)
          + List.length (filter names_merchant raw))%nat
    /\ (forall key, In key (map fst groups') ->
                    key <> "" /\ Py.lower key = key)
    /\ (forall key ts, In (key, ts) groups' ->
                       ts <> [] /\ forall t, In t ts -> 0 <= tx_amount t).
Proof.
  induction raw as [| t raw IH]; intros groups groups' H Hnd Hkeys Hmem;
    cbn [group_from filter] in *.
  - injection H as <-. split; [exact Hnd |]. split; [simpl; lia |].
    split; assumption.
  - destruct (add_transaction_cases groups t)
      as [[_ [Hno Hadd]] | [[_ [Hyes [name [tx [Etruthy [Hpos Hadd]]]]]]
                           | [_ [e [Hadd _]]]]];
      rewrite Hadd in H; cbn [Py.bind] in H; [| | discriminate].
    + rewrite Hno. now apply IH.
    + rewrite Hyes.
      destruct (IH (group_add groups (Py.lower name) tx) groups' H)
        as [R1 [R2 [R3 R4]]].
      * now apply group_add_nodup.
      * intros key Hkey. apply group_add_keys in Hkey.
        destruct Hkey as [-> | Hkey]; [| now apply Hkeys].
        split; [| apply lower_lower].
        intro Hempty. rewrite Hempty in Etruthy. discriminate.
      * apply group_add_members; assumption.
      * split; [exact R1 |]. split; [| split; assumption].
        rewrite R2, group_add_size. simpl. lia.
Qed.

(** X20. The grouping loop of [_analyze_recurring_transactions] returns
    exactly when it can read every transaction; a null merchant name, the
    first thing it cannot read, makes the whole function raise
    AttributeError.  When the loop returns, it has passed over the
    transactions that name no merchant and grouped the others: the groups
    have pairwise different keys, each key is a non-empty lower-case name,
    no group is empty, every grouped amount is non-negative, and the groups
    together hold as many transactions as name a merchant. *)
Theorem grouping_shape :
  (forall raw : list RawTransaction,
     (exists groups, group_by_merchant raw = inl groups)
     <-> forallb readable raw = true)
  /\ (forall (earlier later : list RawTransaction) (t : RawTransaction),
        forallb readable earlier = true ->
        raw_merchant_name t = Py.Null ->
        _analyze_recurring_transactions (earlier ++ t :: later)
        = inr Py.AttributeError)
  /\ (forall (raw : list RawTransaction)
             (groups : list (string * list Transaction)),
        group_by_merchant raw = inl groups ->
        NoDup (map fst groups)
        /\ list_sum (map (fun g => List.length (snd g)) groups)
           = List.length (filter names_merchant raw)
        /\ (forall key, In key (map fst groups) ->
                        key <> "" /\ Py.lower key = key)
        /\ (forall key ts, In (key, ts) groups ->
                           ts <> []
                           /\ forall t, In t ts -> 0 <= tx_amount t)).
Proof.
  split; [| split].
  - intro raw. apply group_from_returns.
  - intros earlier later t Hearlier Hnull.
    unfold _analyze_recurring_transactions, group_by_merchant.
    now rewrite (group_from_null earlier later t Hearlier Hnull).
  - intros raw groups H.
    destruct (group_from_shape raw [] groups H (NoDup_nil _))
      as [H1 [H2 [H3 H4]]].
    + intros key [].
    + intros key ts [].
    + split; [exact H1 |]. split; [exact H2 |]. split; assumption.
Qed.

Lemma grouping_shape_witness :
  _analyze_recurring_transactions
    [netflix_charge 0;
     {| raw_merchant_name := Py.Null;
        raw_amount := Py.Value 4.50;
        raw_date := Py.Parses (day 1);
        raw_transaction_id := "tx";
        raw_account_id := "acct" |};
     netflix_charge 30]
  = inr Py.AttributeError
  /\ exists groups,
       group_by_merchant [netflix_charge 0; netflix_charge 30] = inl groups
       /\ NoDup (map fst groups).
Proof.
  split.
  - apply (proj1 (proj2 grouping_shape) [netflix_charge 0]
             [netflix_charge 30]); reflexivity.
  - eexists. split; [vm_compute; reflexivity |].
    apply (proj2 (proj2 grouping_shape) [netflix_charge 0; netflix_charge 30]).
    vm_compute. reflexivity.
Defined.

(** X21. The two next-billing-date calculators agree: for every frequency
    of the stream path other than BIWEEKLY, the date
    [_calculate_next_billing_date] gives is the date
    [_calculate_next_billing_date_from_cycle] gives for the mapped cycle;
    for BIWEEKLY the first adds 14 days while the second, which has no
    entry for 'biweekly', adds 30. *)
Theorem next_billing_dates_agree :
  forall (last_date : Py.datetime) (frequency : string),
    (frequency <> "BIWEEKLY" ->
     _calculate_next_billing_date last_date frequency
     = _calculate_next_billing_date_from_cycle last_date
         (_map_plaid_frequency_to_billing_cycle frequency))
    /\ _calculate_next_billing_date last_date "BIWEEKLY"
       = Some (Py.add_days last_date 14)
    /\ _calculate_next_billing_date_from_cycle last_date "biweekly"
       = Some (Py.add_days last_date 30).
Proof.
  intros last_date frequency. split; [| split; reflexivity].
  intro Hne. apply String.eqb_neq in Hne.
  unfold _calculate_next_billing_date, _map_plaid_frequency_to_billing_cycle.
  rewrite Hne.
  destruct (String.eqb frequency "WEEKLY"); [reflexivity |].
  destruct (String.eqb frequency "MONTHLY"); [reflexivity |].
  destruct (String.eqb frequency "QUARTERLY"); [reflexivity |].
  destruct (String.eqb frequency "ANNUALLY"); reflexivity.
Qed.

Lemma next_billing_dates_agree_witness :
  _calculate_next_billing_date (Py.naive (day 3)) "QUARTERLY"
  = _calculate_next_billing_date_from_cycle (Py.naive (day 3)) "quarterly".
Proof.
  apply (proj1 (next_billing_dates_agree (Py.naive (day 3)) "QUARTERLY")).
  discriminate.
Defined.

(** X22. The totals the analytics reports lie within half a cent of the
    exact sums of the monthly and annual equivalents. *)
Theorem totals_within_half_a_cent :
  forall (now : Z) (subscriptions : list DetectedSubscription)
         (a : Analysis.t),
    _analyze_subscription_patterns now subscriptions = inl a ->
    Qabs (Analysis.total_monthly a
          - sum_over monthly_equivalent subscriptions) <= 0.005
    /\ Qabs (Analysis.total_annual a
             - sum_over annual_equivalent subscriptions) <= 0.005.
Proof.
  intros now subscriptions a.
  unfold _analyze_subscription_patterns.
  destruct subscriptions as [| sub l].
  - intro H. injection H as <-.
    cbn [Analysis.total_monthly Analysis.total_annual sum_over fold_right].
    split; discriminate.
  - remember (sub :: l) as subs eqn:Esubs.
    destruct (fold_totals_sum subs 0 0) as [Hm Ha].
    unfold totals_of.
    destruct (fold_left add_to_totals subs (0, 0))
      as [monthly_total annual_total].
    cbn [fst snd] in Hm, Ha.
    rewrite Qplus_0_l in Hm, Ha.
    destruct (count_unused_trials now subs) as [n | e];
      cbn [Py.bind Py.ok]; [| discriminate].
    intro H. injection H as <-.
    cbn [Analysis.total_monthly Analysis.total_annual].
    split.
    + rewrite <- Hm.
      eapply Qle_trans; [apply round2_close | discriminate].
    + rewrite <- Ha.
      eapply Qle_trans; [apply round2_close | discriminate].
Qed.

Lemma totals_within_half_a_cent_witness :
  exists a,
    _analyze_subscription_patterns 0 [candidate "Domain" 10 "annual" 1 "bank"]
    = inl a
    /\ Qabs (Analysis.total_monthly a - (10 # 12)) <= 0.005.
Proof.
  eexists. split; [vm_compute; reflexivity |].
  apply (proj1 (totals_within_half_a_cent
                  0 [candidate "Domain" 10 "annual" 1 "bank"] _ eq_refl)).
Defined.

(* ================================================================== *)
(** ** Further properties: what the patterns capture *)
(* ================================================================== *)

Lemma rmatch_sound (icase : bool) (A : Type) (r : Re.regex) :
  forall (s : list ascii) (g : option (list ascii))
         (k : list ascii -> option (list ascii) -> option A) (a : A),
    Re.rmatch icase r s g k = Some a ->
    exists s1 g1, consumes icase r s g s1 g1 /\ k s1 g1 = Some a.
Proof.
  induction r as [| c | p | r1 IH1 r2 IH2 | r1 IH1 r2 IH2 | r1 IH1 | r1 IH1];
    intros s g k a H; cbn [Re.rmatch consumes] in *.
  - exists s, g. auto.
  - destruct s as [| x s']; [discriminate |].
    destruct (Re.chr_eq icase c x) eqn:E; [| discriminate].
    exists s', g. split; [exists x; auto | exact H].
  - destruct s as [| x s']; [discriminate |].
    destruct (p x) eqn:E; [| discriminate].
    exists s', g. split; [exists x; auto | exact H].
  - apply IH1 in H. destruct H as [s' [g' [H1 H]]].
    apply IH2 in H. destruct H as [s1 [g1 [H2 H]]].
    exists s1, g1. split; [exists s', g'; auto | exact H].
  - destruct (Re.rmatch icase r1 s g k) eqn:E.
    + injection H as ->. apply IH1 in E. destruct E as [s1 [g1 [H1 H]]].
      exists s1, g1. auto.
    + apply IH2 in H. destruct H as [s1 [g1 [H1 H]]].
      exists s1, g1. auto.
  - revert H. generalize (List.length s) at 1. intro n. revert s g.
    induction n as [| n IHn]; intros s g H.
    + exists s, g. split; [constructor | exact H].
    + match type of H with
      | match ?m with _ => _ end = _ => destruct m eqn:E
      end.
      * injection H as ->. apply IH1 in E.
        destruct E as [s' [g' [H1 H]]].
        destruct (List.length s' <? List.length s)%nat; [| discriminate].
        apply IHn in H. destruct H as [s1 [g1 [H2 H]]].
        exists s1, g1. split; [econstructor; eassumption | exact H].
      * exists s, g. split; [constructor | exact H].
  - apply IH1 in H. destruct H as [s1 [g' [H1 H]]].
    eexists. eexists. split; [exists g'; split; [exact H1 | reflexivity] |].
    exact H.
Qed.

Lemma consumes_suffix (icase : bool) (r : Re.regex) :
  forall s g s1 g1,
    consumes icase r s g s1 g1 -> exists t, s = (t ++ s1)%list.
Proof.
  induction r as [| c | p | r1 IH1 r2 IH2 | r1 IH1 r2 IH2 | r1 IH1 | r1 IH1];
    intros s g s1 g1 H; cbn [consumes] in H.
  - destruct H as [-> _]. now exists [].
  - destruct H as [x [-> _]]. now exists [x].
  - destruct H as [x [-> _]]. now exists [x].
  - destruct H as [s' [g' [H1 H2]]].
    apply IH1 in H1. apply IH2 in H2.
    destruct H1 as [t1 ->], H2 as [t2 ->].
    exists (t1 ++ t2)%list. now rewrite app_assoc.
  - destruct H as [H | H]; eauto.
  - induction H as [s g | s g s' g' s2 g2 H1 _ IH].
    + now exists [].
    + apply IH1 in H1. destruct H1 as [t1 ->], IH as [t2 ->].
      exists (t1 ++ t2)%list. now rewrite app_assoc.
  - destruct H as [g' [H _]]. eauto.
Qed.

Lemma consumes_group_free (icase : bool) (r : Re.regex) :
  group_free r = true ->
  forall s g s1 g1, consumes icase r s g s1 g1 -> g1 = g.
Proof.
  induction r as [| c | p | r1 IH1 r2 IH2 | r1 IH1 r2 IH2 | r1 IH1 | r1 IH1];
    cbn [group_free]; intros Hfree s g s1 g1 H; cbn [consumes] in H.
  - now destruct H.
  - now destruct H as [x [_ [_ ->]]].
  - now destruct H as [x [_ [_ ->]]].
  - apply andb_prop in Hfree. destruct Hfree as [F1 F2].
    destruct H as [s' [g' [H1 H2]]].
    apply (IH1 F1) in H1. apply (IH2 F2) in H2. congruence.
  - apply andb_prop in Hfree. destruct Hfree as [F1 F2].
    destruct H as [H | H]; eauto.
  - induction H as [s g | s g s' g' s2 g2 H1 _ IH]; [reflexivity |].
    apply (IH1 Hfree) in H1. congruence.
  - discriminate.
Qed.

Lemma firstn_consumed (t s1 : list ascii) :
  firstn (List.length (t ++ s1) - List.length s1) (t ++ s1)%list = t.
Proof.
  rewrite length_app.
  replace (List.length t + List.length s1 - List.length s1)%nat
    with (List.length t + 0)%nat by lia.
  rewrite firstn_app_2. simpl. apply app_nil_r.
Qed.

Lemma iter_cls (icase : bool) (p : ascii -> bool) :
  forall s g s1 g1,
    iter (consumes icase (Re.Cls p)) s g s1 g1 ->
    g1 = g /\ exists t, s = (t ++ s1)%list /\ forallb p t = true.
Proof.
  intros s g s1 g1 H.
  induction H as [s g | s g s' g' s2 g2 H1 _ IH].
  - split; [reflexivity |]. now exists [].
  - cbn [consumes] in H1. destruct H1 as [x [-> [Hx ->]]].
    destruct IH as [-> [t [-> Ht]]].
    split; [reflexivity |]. exists (x :: t). simpl. now rewrite Hx, Ht.
Qed.

Lemma plus_cls (icase : bool) (p : ascii -> bool) :
  forall s g s1 g1,
    consumes icase (Re.Plus (Re.Cls p)) s g s1 g1 ->
    g1 = g /\ exists t, s = (t ++ s1)%list /\ t <> [] /\ forallb p t = true.
Proof.
  intros s g s1 g1 H. unfold Re.Plus in H. cbn [consumes] in H.
  destruct H as [s' [g' [[x [-> [Hx ->]]] H]]].
  apply (iter_cls icase) in H. destruct H as [-> [t [-> Ht]]].
  split; [reflexivity |]. exists (x :: t).
  split; [reflexivity |]. split; [discriminate |].
  simpl. now rewrite Hx, Ht.
Qed.

Lemma group_of_plus_cls (icase : bool) (p : ascii -> bool) :
  sets_group icase (fun t => t <> [] /\ forallb p t = true)
             (Re.Grp (Re.Plus (Re.Cls p))).
Proof.
  intros s g s1 g1 H. cbn [consumes] in H.
  destruct H as [g' [H ->]].
  apply (plus_cls icase) in H. destruct H as [_ [t [-> [Hne Ht]]]].
  exists t, [], s1. rewrite firstn_consumed. auto.
Qed.

Lemma dot_is_dot (icase : bool) (x : ascii) :
  Re.chr_eq icase "." x = true -> x = "."%char.
Proof.
  unfold Re.chr_eq.
  destruct icase; destruct x as [[] [] [] [] [] [] [] []];
    vm_compute; congruence.
Qed.

Lemma group_of_number (icase : bool) :
  sets_group icase number_text Re.number_group.
Proof.
  intros s g s1 g1 H. unfold Re.number_group in H.
  cbn [consumes] in H. destruct H as [g' [H ->]].
  change (exists s' g'0,
             consumes icase (Re.Plus Re.digit) s g s' g'0
             /\ exists s'' g'',
                 consumes icase (Re.Opt (Re.Chr ".")) s' g'0 s'' g''
                 /\ iter (consumes icase Re.digit) s'' g'' s1 g') in H.
  destruct H as [sa [ga [Ha [sb [gb [Hb Hc]]]]]].
  apply (plus_cls icase) in Ha. destruct Ha as [_ [d1 [-> [Hne Hd1]]]].
  apply (iter_cls icase) in Hc. destruct Hc as [_ [d2 [-> Hd2]]].
  unfold Re.Opt in Hb. cbn [consumes] in Hb.
  destruct Hb as [[x [-> [Hx _]]] | [Hb _]].
  - apply dot_is_dot in Hx. subst x.
    exists (d1 ++ "."%char :: d2)%list, [], s1.
    split; [| split].
    + f_equal.
      replace (d1 ++ "."%char :: d2 ++ s1)%list
        with ((d1 ++ "."%char :: d2) ++ s1)%list
        by (rewrite <- app_assoc; reflexivity).
      apply firstn_consumed.
    + simpl. rewrite <- app_assoc. reflexivity.
    + exists d1, d2. auto.
  - subst sa. exists (d1 ++ d2)%list, [], s1.
    split; [| split].
    + f_equal. rewrite app_assoc. apply firstn_consumed.
    + simpl. rewrite <- app_assoc. reflexivity.
    + exists d1, d2. auto.
Qed.

Lemma sets_group_after (icase : bool) (P : list ascii -> Prop)
  (r1 r2 : Re.regex) :
  sets_group icase P r2 -> sets_group icase P (Re.Seq r1 r2).
Proof.
  intros H2 s g s1 g1 H. cbn [consumes] in H.
  destruct H as [s' [g' [Ha Hb]]].
  apply consumes_suffix in Ha. destruct Ha as [t0 ->].
  apply H2 in Hb. destruct Hb as [t [pre [post [-> [-> Ht]]]]].
  exists t, (t0 ++ pre)%list, post. rewrite <- app_assoc. auto.
Qed.

Lemma sets_group_before (icase : bool) (P : list ascii -> Prop)
  (r1 r2 : Re.regex) :
  sets_group icase P r1 -> group_free r2 = true ->
  sets_group icase P (Re.Seq r1 r2).
Proof.
  intros H1 Hfree s g s1 g1 H. cbn [consumes] in H.
  destruct H as [s' [g' [Ha Hb]]].
  apply (consumes_group_free icase r2 Hfree) in Hb. subst g1.
  apply H1 in Ha. exact Ha.
Qed.

Lemma match_at_sets_group (icase : bool) (P : list ascii -> Prop)
  (r : Re.regex) (s : list ascii) (f : Re.found) :
  sets_group icase P r ->
  Re.match_at icase r s = Some f ->
  P (Re.group1 f)
  /\ exists pre post, s = (pre ++ Re.group1 f ++ post)%list.
Proof.
  intros Hr H. unfold Re.match_at in H.
  apply rmatch_sound in H. destruct H as [s1 [g1 [Hc H]]].
  injection H as <-. cbn [Re.group1].
  apply Hr in Hc. destruct Hc as [t [pre [post [-> [-> Ht]]]]].
  split; [exact Ht |]. now exists pre, post.
Qed.

Lemma search_sets_group (icase : bool) (P : list ascii -> Prop)
  (r : Re.regex) (s : list ascii) (f : Re.found) :
  sets_group icase P r ->
  Re.search icase r s = Some f ->
  P (Re.group1 f)
  /\ exists pre post, s = (pre ++ Re.group1 f ++ post)%list.
Proof.
  intros Hr. induction s as [| x s IH]; cbn [Re.search].
  - destruct (Re.match_at icase r []) eqn:E; [| discriminate].
    intro H. injection H as ->.
      exact (match_at_sets_group icase P r _ _ Hr E).
  - destruct (Re.match_at icase r (x :: s)) eqn:E.
    + intro H. injection H as ->.
      exact (match_at_sets_group icase P r _ _ Hr E).
    + intro H. apply IH in H. destruct H as [Hp [pre [post ->]]].
      split; [exact Hp |]. now exists (x :: pre), post.
Qed.

Lemma search_rest_suffix (icase : bool) (r : Re.regex) (s : list ascii)
  (f : Re.found) :
  Re.search icase r s = Some f -> exists pre, s = (pre ++ Re.rest f)%list.
Proof.
  induction s as [| x s IH]; cbn [Re.search].
  - destruct (Re.match_at icase r []) eqn:E; [| discriminate].
    intro H. injection H as ->. unfold Re.match_at in E.
    apply rmatch_sound in E. destruct E as [s1 [g1 [Hc E]]].
    injection E as <-. cbn [Re.rest].
    now apply consumes_suffix in Hc.
  - destruct (Re.match_at icase r (x :: s)) eqn:E.
    + intro H. injection H as ->. unfold Re.match_at in E.
      apply rmatch_sound in E. destruct E as [s1 [g1 [Hc E]]].
      injection E as <-. cbn [Re.rest].
      now apply consumes_suffix in Hc.
    + intro H. apply IH in H. destruct H as [pre ->].
      now exists (x :: pre).
Qed.

Lemma findall_sets_group (icase : bool) (P : list ascii -> Prop)
  (r : Re.regex) (s : list ascii) (c : list ascii) :
  sets_group icase P r ->
  In c (Re.findall icase r s) ->
  P c /\ exists pre post, s = (pre ++ c ++ post)%list.
Proof.
  intro Hr. unfold Re.findall. generalize (S (List.length s)). intro fuel.
  revert s. induction fuel as [| fuel IH]; intros s; cbn [Re.findall_from].
  - intros [].
  - destruct (Re.search icase r s) as [f |] eqn:E; [| intros []].
    intros [<- | Hin].
    + exact (search_sets_group icase P r _ _ Hr E).
    + apply search_rest_suffix in E as Hrest. destruct Hrest as [pre0 Hs].
      assert (Hlater : exists s', In c (Re.findall_from icase fuel r s')
                                  /\ exists pre1, s = (pre1 ++ s')%list).
      { destruct (Re.whole f), (Re.rest f) as [| y s'] eqn:Er;
          try destruct Hin.
        - exists s'. split; [assumption |].
          exists (pre0 ++ [y])%list. rewrite <- app_assoc. exact Hs.
        - exists []. split; [assumption |]. exists pre0. exact Hs.
        - exists (y :: s'). split; [assumption |]. exists pre0. exact Hs. }
      destruct Hlater as [s' [Hin' [pre1 ->]]].
      apply IH in Hin'. destruct Hin' as [Hp [pre [post ->]]].
      split; [exact Hp |]. exists (pre1 ++ pre)%list, post.
      now rewrite <- app_assoc.
Qed.

Lemma digit_not_dot (c : ascii) :
  Py.is_digit c = true -> Ascii.eqb c "." = false.
Proof.
  destruct c as [[] [] [] [] [] [] [] []]; vm_compute; congruence.
Qed.

Lemma split_on_digits (d : list ascii) :
  forallb Py.is_digit d = true ->
  forall cur l,
    Py.split_on "." cur (d ++ l) = Py.split_on "." (rev d ++ cur) l.
Proof.
  induction d as [| c d IH]; intros Hd cur l; [reflexivity |].
  simpl in Hd. apply andb_prop in Hd. destruct Hd as [Hc Hd].
  cbn [app Py.split_on]. rewrite (digit_not_dot c Hc).
  rewrite (IH Hd). cbn [rev]. now rewrite <- app_assoc.
Qed.

Lemma digit_code (c : ascii) :
  Py.is_digit c = true -> (0 <= Z.of_nat (Py.code c) - 48)%Z.
Proof.
  unfold Py.is_digit, Py.between. intro H.
  apply andb_prop in H. destruct H as [H _].
  apply Nat.leb_le in H. lia.
Qed.

Lemma digits_value_nonneg (d : list ascii) :
  forallb Py.is_digit d = true -> (0 <= digits_value d)%Z.
Proof.
  unfold digits_value.
  assert (H : forall acc, (0 <= acc)%Z -> forallb Py.is_digit d = true ->
                          (0 <= fold_left
                                  (fun acc c =>
                                     acc * 10 + (Z.of_nat (Py.code c) - 48))
                                  d acc)%Z).
  { induction d as [| c d IH]; intros acc Hacc Hd; [exact Hacc |].
    simpl in Hd. apply andb_prop in Hd. destruct Hd as [Hc Hd].
    cbn [fold_left]. apply IH; [| exact Hd].
    pose proof (digit_code c Hc). lia. }
  apply H. lia.
Qed.

Lemma split_on_whole (d : list ascii) :
  forallb Py.is_digit d = true -> Py.split_on "." [] d = [d].
Proof.
  intro Hd. replace d with (d ++ [])%list at 1 by apply app_nil_r.
  rewrite (split_on_digits d Hd). cbn [Py.split_on].
  now rewrite app_nil_r, rev_involutive.
Qed.

Lemma split_on_dotted (d1 d2 : list ascii) :
  forallb Py.is_digit d1 = true -> forallb Py.is_digit d2 = true ->
  Py.split_on "." [] (d1 ++ "."%char :: d2) = [d1; d2].
Proof.
  intros Hd1 Hd2. rewrite (split_on_digits d1 Hd1).
  cbn [Py.split_on]. rewrite Ascii.eqb_refl.
  now rewrite app_nil_r, rev_involutive, (split_on_whole d2 Hd2).
Qed.

Lemma py_float_number (t : list ascii) :
  number_text t ->
  exists amount, py_float t = Some amount /\ 0 <= amount.
Proof.
  intros [d1 [d2 [Hne [Hd1 [Hd2 Ht]]]]].
  assert (Hlen : forall n, (List.length d1 + n =? 0)%nat = false).
  { destruct d1; [contradiction | reflexivity]. }
  unfold py_float. destruct Ht as [-> | ->].
  - assert (Hd : forallb Py.is_digit (d1 ++ d2) = true)
      by (rewrite forallb_app, Hd1, Hd2; reflexivity).
    rewrite (split_on_whole _ Hd), Hd, length_app, Hlen.
    eexists. split; [reflexivity |].
    change 0 with (inject_Z 0). rewrite <- Zle_Qle.
    now apply digits_value_nonneg.
  - rewrite (split_on_dotted d1 d2 Hd1 Hd2), Hd1, Hd2, Hlen.
    eexists. split; [reflexivity |].
    assert (H1 : 0 <= inject_Z (digits_value d1)).
    { change 0 with (inject_Z 0). rewrite <- Zle_Qle.
      now apply digits_value_nonneg. }
    assert (H2 : 0 <= fraction_value d2).
    { unfold fraction_value, Qle. cbn [Qnum Qden].
      pose proof (digits_value_nonneg d2 Hd2). lia. }
    lra.
Qed.

Lemma amount_patterns_set_number (pattern : Re.regex) :
  In pattern amount_patterns_of_text \/ In pattern amount_patterns_of_email ->
  sets_group true number_text pattern.
Proof.
  assert (Hlabel : forall label,
             sets_group true number_text (labelled_amount label)).
  { intro label. unfold labelled_amount.
    repeat apply sets_group_after. apply group_of_number. }
  unfold amount_patterns_of_text, amount_patterns_of_email.
  cbn [In].
  intros [H | H].
  - destruct H as [<- | [<- | [<- | [<- | [<- | [<- | []]]]]]];
      try apply Hlabel.
    + apply sets_group_after, group_of_number.
    + apply sets_group_before; [apply group_of_number | reflexivity].
  - destruct H as [<- | [<- | [<- | []]]]; try apply Hlabel.
    + apply sets_group_after, group_of_number.
    + apply sets_group_before; [apply group_of_number | reflexivity].
Qed.

Lemma no_amount_is_out_of_range (patterns : list Re.regex)
  (text : list ascii) :
  (forall pattern, In pattern patterns -> sets_group true number_text pattern) ->
  amount_from_patterns patterns text = None ->
  forall pattern first later,
    In pattern patterns ->
    Re.findall true pattern text = first :: later ->
    exists amount,
      py_float first = Some amount /\ in_subscription_range amount = false.
Proof.
  induction patterns as [| p ps IH]; intros Hall Hnone pattern first later Hin E.
  - destruct Hin.
  - cbn [amount_from_patterns] in Hnone.
    destruct Hin as [-> | Hin].
    + rewrite E in Hnone.
      destruct (findall_sets_group true number_text pattern text first
                  (Hall pattern (or_introl eq_refl))) as [Hnum _].
      { rewrite E. now left. }
      apply py_float_number in Hnum. destruct Hnum as [amount [Ha _]].
      rewrite Ha in Hnone. exists amount. split; [exact Ha |].
      destruct (in_subscription_range amount); [discriminate | reflexivity].
    + apply (IH (fun q Hq => Hall q (or_intror Hq))) with (pattern := pattern)
                                                         (later := later);
        try assumption.
      destruct (Re.findall true p text) as [| c cs] eqn:Ep; [exact Hnone |].
      destruct (py_float c) as [amount |]; [| exact Hnone].
      destruct (in_subscription_range amount); [discriminate | exact Hnone].
Qed.

Lemma amount_from_email_patterns_none (patterns : list Re.regex)
  (body : list ascii) :
  (forall pattern, In pattern patterns -> sets_group true number_text pattern) ->
  amount_from_email_patterns patterns body = None
  <-> forall pattern, In pattern patterns ->
                      Re.search true pattern body = None.
Proof.
  induction patterns as [| p ps IH]; intros Hall.
  - split; [intros _ pattern [] | reflexivity].
  - cbn [amount_from_email_patterns].
    specialize (IH (fun q Hq => Hall q (or_intror Hq))).
    destruct (Re.search true p body) as [f |] eqn:E.
    + destruct (search_sets_group true number_text p body f
                  (Hall p (or_introl eq_refl)) E) as [Hnum _].
      apply py_float_number in Hnum. destruct Hnum as [amount [Ha _]].
      rewrite Ha. split; [discriminate |].
      intro H. specialize (H p (or_introl eq_refl)). congruence.
    + rewrite IH. split.
      * intros H pattern [<- | Hin]; [exact E | now apply H].
      * intros H pattern Hin. apply H. now right.
Qed.

(** X23. Every text the amount patterns capture is a number [float] can
    read: the ValueError branch of the two amount extractors is never
    taken.  So [_extract_amount_from_text] answers None only when each
    pattern that is found has a first capture outside [0.99, 999.99], and
    the earlier [_extract_amount_from_email] answers None exactly when none
    of its patterns is found. *)
Theorem amount_captures_always_parse :
  forall text : string,
    (forall pattern capture,
       In pattern amount_patterns_of_text ->
       In capture (Re.findall true pattern (Py.chars text)) ->
       exists amount, py_float capture = Some amount /\ 0 <= amount)
    /\ (_extract_amount_from_text text = None ->
        forall pattern first later,
          In pattern amount_patterns_of_text ->
          Re.findall true pattern (Py.chars text) = first :: later ->
          exists amount,
            py_float first = Some amount
            /\ in_subscription_range amount = false)
    /\ (_extract_amount_from_email text = None
        <-> forall pattern,
              In pattern amount_patterns_of_email ->
              Re.search true pattern (Py.chars text) = None).
Proof.
  intro text. split; [| split].
  - intros pattern capture Hin Hc.
    apply py_float_number.
    apply (findall_sets_group true number_text pattern (Py.chars text));
      [| exact Hc].
    apply amount_patterns_set_number. now left.
  - unfold _extract_amount_from_text.
    apply no_amount_is_out_of_range.
    intros pattern Hin. apply amount_patterns_set_number. now left.
  - unfold _extract_amount_from_email.
    apply amount_from_email_patterns_none.
    intros pattern Hin. apply amount_patterns_set_number. now right.
Qed.

Lemma amount_captures_always_parse_witness :
  exists amount, py_float (Py.chars "1500.") = Some amount /\ 0 <= amount.
Proof.
  apply (proj1 (amount_captures_always_parse "Total: $1500. Thanks")
           (Re.Seq (Re.Chr "$") Re.number_group) (Py.chars "1500.")).
  - left. reflexivity.
  - vm_compute. left. reflexivity.
Defined.

Lemma alpha_not_space (c : ascii) :
  Py.is_alpha c = true -> Py.is_space c = false.
Proof.
  destruct c as [[] [] [] [] [] [] [] []]; vm_compute; congruence.
Qed.

Lemma strip_word (t : list ascii) :
  forallb Py.is_alpha t = true -> Py.strip_by Py.is_space t = t.
Proof.
  assert (Hl : forall l, forallb Py.is_alpha l = true ->
                         Py.lstrip_by Py.is_space l = l).
  { intros [| c l] H; [reflexivity |].
    simpl in H. apply andb_prop in H. destruct H as [Hc _].
    cbn [Py.lstrip_by]. now rewrite (alpha_not_space c Hc). }
  intro H. unfold Py.strip_by.
  rewrite (Hl t H), Hl, rev_involutive; [reflexivity |].
  rewrite forallb_forall in *. intros x Hx. apply H. now apply in_rev.
Qed.

Lemma prefix_of_app (t post : list ascii) :
  String.prefix (Py.str t) (Py.str (t ++ post)) = true.
Proof.
  unfold Py.str. induction t as [| a t IH]; cbn [app string_of_list_ascii].
  - destruct (string_of_list_ascii post); reflexivity.
  - cbn [String.prefix]. destruct (ascii_dec a a); [exact IH | congruence].
Qed.

Lemma contains_unfold (sub s : string) :
  Py.contains sub s
  = if String.prefix sub s then true
    else match s with
         | EmptyString => false
         | String _ s' => Py.contains sub s'
         end.
Proof. destruct s; reflexivity. Qed.

Lemma contains_piece (pre t post : list ascii) :
  Py.contains (Py.str t) (Py.str (pre ++ t ++ post)) = true.
Proof.
  induction pre as [| c pre IH].
  - rewrite contains_unfold. cbn [app]. now rewrite prefix_of_app.
  - rewrite contains_unfold.
    destruct (String.prefix (Py.str t) (Py.str ((c :: pre) ++ t ++ post)));
      [reflexivity | exact IH].
Qed.

Lemma subject_patterns_set_word (pattern : Re.regex) :
  In pattern subject_patterns -> sets_group true word_text pattern.
Proof.
  assert (Hword : sets_group true word_text word_group)
    by apply (group_of_plus_cls true Py.is_alpha).
  unfold subject_patterns. cbn [In].
  intros [<- | [<- | [<- | [<- | []]]]].
  - do 2 apply sets_group_after.
    apply sets_group_before; [exact Hword | reflexivity].
  - apply sets_group_before; [exact Hword | reflexivity].
  - do 2 apply sets_group_after. exact Hword.
  - do 2 apply sets_group_after. exact Hword.
Qed.

Lemma merchant_from_patterns_word (patterns : list Re.regex)
  (subject : list ascii) (m : string) :
  (forall pattern, In pattern patterns -> sets_group true word_text pattern) ->
  merchant_from_patterns patterns subject = Some m ->
  exists t pre post,
    m = Py.str t /\ (2 < List.length t)%nat
    /\ forallb Py.is_alpha t = true
    /\ subject = (pre ++ t ++ post)%list.
Proof.
  induction patterns as [| p ps IH]; intros Hall H; [discriminate |].
  cbn [merchant_from_patterns] in H.
  specialize (IH (fun q Hq => Hall q (or_intror Hq))).
  destruct (Re.search true p subject) as [f |] eqn:E; [| now apply IH].
  destruct (search_sets_group true word_text p subject f
              (Hall p (or_introl eq_refl)) E)
    as [[_ Halpha] [pre [post Hs]]].
  cbv zeta in H. rewrite (strip_word _ Halpha) in H.
  destruct (2 <? List.length (Re.group1 f))%nat eqn:Elen; [| now apply IH].
  injection H as <-. apply Nat.ltb_lt in Elen.
  exists (Re.group1 f), pre, post. auto.
Qed.

Lemma str_length (t : list ascii) :
  String.length (Py.str t) = List.length t.
Proof.
  unfold Py.str. induction t as [| c t IH]; [reflexivity |].
  cbn [string_of_list_ascii String.length List.length]. now rewrite IH.
Qed.

Lemma subject_merchant_facts (subject m : string) :
  _extract_merchant_from_subject subject = Some m ->
  (3 <= String.length m)%nat
  /\ forallb Py.is_alpha (Py.chars m) = true
  /\ Py.contains m subject = true.
Proof.
  unfold _extract_merchant_from_subject.
  destruct (negb (Py.truthy subject)); [discriminate |].
  intro H.
  apply merchant_from_patterns_word in H;
    [| exact subject_patterns_set_word].
  destruct H as [t [pre [post [-> [Hlen [Halpha Hs]]]]]].
  split; [| split].
  - rewrite str_length. lia.
  - unfold Py.chars, Py.str. now rewrite list_ascii_of_string_of_list_ascii.
  - rewrite <- (string_of_list_ascii_of_string subject).
    fold (Py.chars subject). rewrite Hs. apply contains_piece.
Qed.

(** X24. A merchant name [_extract_merchant_from_subject] returns is a run
    of at least three letters, and only letters, that stands in the
    subject as it is returned. *)
Theorem subject_merchant_is_a_word :
  forall subject m : string,
    _extract_merchant_from_subject subject = Some m ->
    (3 <= String.length m)%nat
    /\ forallb Py.is_alpha (Py.chars m) = true
    /\ Py.contains m subject = true.
Proof. exact subject_merchant_facts. Qed.

Lemma subject_merchant_is_a_word_witness :
  (3 <= String.length "Netflix")%nat
  /\ forallb Py.is_alpha (Py.chars "Netflix") = true
  /\ Py.contains "Netflix" "Your Netflix subscription was renewed" = true.
Proof.
  apply (subject_merchant_is_a_word
           "Your Netflix subscription was renewed" "Netflix").
  vm_compute. reflexivity.
Defined.

Lemma title_from_length (l : list ascii) :
  forall prev, List.length (Py.title_from prev l) = List.length l.
Proof.
  induction l as [| c l IH]; intro prev; [reflexivity |].
  cbn [Py.title_from List.length]. now rewrite IH.
Qed.

Lemma str_not_empty (l : list ascii) : l <> [] -> Py.str l <> "".
Proof. destruct l; [contradiction | discriminate]. Qed.

(** X25. A merchant name taken from the sender is never the empty string,
    so [_extract_subscription_info_from_email] turns to the subject only
    when the sender gives no name at all, and the name it works with is
    never empty. *)
Theorem email_names_not_empty :
  forall subject sender : string,
    (forall m, _extract_merchant_from_sender sender = Some m -> m <> "")
    /\ email_merchant subject sender
       = match _extract_merchant_from_sender sender with
         | Some m => Some m
         | None => _extract_merchant_from_subject subject
         end
    /\ (forall m, email_merchant subject sender = Some m -> m <> "").
Proof.
  intros subject sender.
  assert (Hsender : forall m, _extract_merchant_from_sender sender = Some m ->
                              m <> "").
  { intro m. unfold _extract_merchant_from_sender.
    destruct (negb (Py.truthy sender)); [discriminate |]. cbv zeta.
    match goal with
    | |- match ?from_name with _ => _ end = _ -> _ =>
        destruct from_name as [name |] eqn:Ename
    end.
    - intro H. injection H as <-.
      destruct (Re.match_at false (Re.Grp (Re.Plus (Re.other_than "<")))
                  (Py.chars sender)) as [f |]; [| discriminate].
      match type of Ename with
      | (if (2 <? List.length ?l)%nat then _ else _) = _ =>
          destruct (2 <? List.length l)%nat eqn:Elen; [| discriminate];
          injection Ename as <-; apply str_not_empty;
          apply Nat.ltb_lt in Elen; destruct l; [simpl in Elen; lia |];
          discriminate
      end.
    - destruct (Re.search false
                  (Re.Seq (Re.Chr "@") (Re.Grp (Re.Plus (Re.other_than "."))))
                  (Py.chars sender)) as [f |] eqn:E; [| discriminate].
      destruct (existsb _ _); [discriminate |].
      intro H. injection H as <-.
      destruct (search_sets_group false _ _ _ _
                  (sets_group_after false _ (Re.Chr "@") _
                     (group_of_plus_cls false
                        (fun x => negb (Ascii.eqb x "."))))
                  E) as [[Hne _] _].
      unfold Py.title, Py.str, Py.chars.
      rewrite list_ascii_of_string_of_list_ascii.
      apply str_not_empty. intro Hempty.
      apply (f_equal (@List.length ascii)) in Hempty.
      rewrite title_from_length in Hempty.
      destruct (Re.group1 f); [now apply Hne | discriminate]. }
  assert (Hor : email_merchant subject sender
                = match _extract_merchant_from_sender sender with
                  | Some m => Some m
                  | None => _extract_merchant_from_subject subject
                  end).
  { unfold email_merchant, Py.or_str, Py.truthy_opt, Py.truthy.
    destruct (_extract_merchant_from_sender sender) as [m |] eqn:E;
      [| reflexivity].
    specialize (Hsender m eq_refl). apply String.eqb_neq in Hsender.
    now rewrite Hsender. }
  split; [exact Hsender |]. split; [exact Hor |].
  intros m. rewrite Hor.
  destruct (_extract_merchant_from_sender sender) as [m' |] eqn:E.
  - intro H. injection H as <-. now apply Hsender.
  - intro H.
    destruct (subject_merchant_facts subject m H) as [Hlen _].
    intros ->. simpl in Hlen. lia.
Qed.

Lemma email_names_not_empty_witness :
  _extract_merchant_from_sender "billing@netflix.com" = Some "netflix.com"
  /\ "netflix.com" <> "".
Proof.
  assert (H : _extract_merchant_from_sender "billing@netflix.com"
              = Some "netflix.com") by (vm_compute; reflexivity).
  split; [exact H |].
  exact (proj1 (email_names_not_empty "" "billing@netflix.com")
           "netflix.com" H).
Defined.

Lemma prefix_shorter (w v : list ascii) :
  forall s, String.prefix (Py.str (w ++ v)) s = true ->
            String.prefix (Py.str w) s = true.
Proof.
  unfold Py.str.
  induction w as [| a w IH]; intros s; cbn [app string_of_list_ascii].
  - intros _. destruct s; reflexivity.
  - destruct s as [| b s]; cbn [String.prefix]; [discriminate |].
    destruct (ascii_dec a b); [apply IH | discriminate].
Qed.

Lemma contains_shorter (w v : list ascii) (s : string) :
  Py.contains (Py.str (w ++ v)) s = true -> Py.contains (Py.str w) s = true.
Proof.
  induction s as [| c s IH]; rewrite !(contains_unfold _ (String _ _)) ||
                             rewrite !(contains_unfold _ EmptyString).
  - destruct (String.prefix (Py.str (w ++ v)) "") eqn:E; [| discriminate].
    now rewrite (prefix_shorter w v _ E).
  - destruct (String.prefix (Py.str (w ++ v)) (String c s)) eqn:E.
    + now rewrite (prefix_shorter w v _ E).
    + intro H. apply IH in H. rewrite H.
      destruct (String.prefix (Py.str w) (String c s)); reflexivity.
Qed.

Lemma contains_longer_absorbed (w v : list ascii) (s : string) :
  Py.contains (Py.str (w ++ v)) s || Py.contains (Py.str w) s
  = Py.contains (Py.str w) s.
Proof.
  destruct (Py.contains (Py.str (w ++ v)) s) eqn:E; [| reflexivity].
  now rewrite (contains_shorter w v s E).
Qed.

Lemma any_in_by_stems (text : string) :
  Py.any_in ["monthly"; "month"; "/mo"] text
  = Py.contains "month" text || Py.contains "/mo" text
  /\ Py.any_in ["annual"; "yearly"; "year"; "/yr"] text
     = Py.contains "annual" text || Py.contains "year" text
       || Py.contains "/yr" text
  /\ Py.any_in ["weekly"; "week"] text = Py.contains "week" text
  /\ Py.any_in ["quarterly"; "quarter"] text = Py.contains "quarter" text.
Proof.
  unfold Py.any_in. cbn [existsb].
  pose proof (contains_longer_absorbed (Py.chars "month") (Py.chars "ly") text)
    as Hm.
  pose proof (contains_longer_absorbed (Py.chars "year") (Py.chars "ly") text)
    as Hy.
  pose proof (contains_longer_absorbed (Py.chars "week") (Py.chars "ly") text)
    as Hw.
  pose proof (contains_longer_absorbed (Py.chars "quarter") (Py.chars "ly")
                text) as Hq.
  cbn [Py.chars list_ascii_of_string app Py.str string_of_list_ascii]
    in Hm, Hy, Hw, Hq.
  rewrite !orb_false_r.
  repeat split.
  - now rewrite orb_assoc, Hm.
  - rewrite (orb_assoc (Py.contains "yearly" text)), Hy.
    now rewrite orb_assoc.
  - exact Hw.
  - exact Hq.
Qed.

(** X26. The billing cycle read from a text depends only on whether the
    text holds month or /mo, annual, year or /yr, week, and quarter, tried
    in this order (a text that says month is 'monthly' whatever else it
    says); the longer keywords of the lists add nothing.  The earlier
    extractor, once its missing answer is replaced by 'monthly', gives what
    [_extract_billing_cycle_from_text] gives on the lower-cased body. *)
Theorem billing_cycle_by_stems :
  forall text : string,
    _extract_billing_cycle_from_text text
    = match cycle_by_stems text with
      | Some cycle => cycle
      | None => "monthly"
      end
    /\ _extract_billing_cycle_from_email text
       = cycle_by_stems (Py.lower text)
    /\ match Py.or_str (_extract_billing_cycle_from_email text)
                       (Some "monthly") with
       | Some cycle => cycle
       | None => "monthly"
       end
       = _extract_billing_cycle_from_text (Py.lower text).
Proof.
  intro text.
  assert (Htext : forall t,
             _extract_billing_cycle_from_text t
             = match cycle_by_stems t with
               | Some cycle => cycle
               | None => "monthly"
               end).
  { intro t. unfold _extract_billing_cycle_from_text, cycle_by_stems.
    destruct (any_in_by_stems t) as [-> [-> [-> ->]]].
    destruct (Py.contains "month" t || Py.contains "/mo" t); [reflexivity |].
    destruct (Py.contains "annual" t || Py.contains "year" t
              || Py.contains "/yr" t); [reflexivity |].
    destruct (Py.contains "week" t); [reflexivity |].
    destruct (Py.contains "quarter" t); reflexivity. }
  assert (Hemail : _extract_billing_cycle_from_email text
                   = cycle_by_stems (Py.lower text)).
  { unfold _extract_billing_cycle_from_email, cycle_by_stems. cbv zeta.
    destruct (any_in_by_stems (Py.lower text)) as [-> [-> [-> ->]]].
    reflexivity. }
  split; [apply Htext |]. split; [exact Hemail |].
  rewrite Htext, Hemail. unfold cycle_by_stems.
  destruct (Py.contains "month" (Py.lower text)
            || Py.contains "/mo" (Py.lower text)); [reflexivity |].
  destruct (Py.contains "annual" (Py.lower text)
            || Py.contains "year" (Py.lower text)
            || Py.contains "/yr" (Py.lower text)); [reflexivity |].
  destruct (Py.contains "week" (Py.lower text)); [reflexivity |].
  destruct (Py.contains "quarter" (Py.lower text)); reflexivity.
Qed.

(* ================================================================== *)
(** ** Confidence of the records handed over *)
(* ================================================================== *)

Lemma clamped_in_unit_interval (x : Q) :
  0 <= x -> 0 <= Py.min (x + 0.1) 1.0 <= 1.
Proof.
  intro Hx. rewrite py_min_Qmin. split.
  - apply Q.min_glb; [| discriminate].
    apply Qle_trans with (x + 0); [now rewrite Qplus_0_r |].
    apply Qplus_le_r. discriminate.
  - eapply Qle_trans; [apply Q.le_min_r | discriminate].
Qed.

Lemma py_max_nonneg (x y : Q) : 0 <= x -> 0 <= y -> 0 <= Py.max x y.
Proof.
  intros Hx Hy. unfold Py.max. now destruct (Py.Qltb x y).
Qed.

Lemma merge_duplicate_in_unit_interval (sub1 sub2 m : DetectedSubscription) :
  in_unit_interval sub1 -> in_unit_interval sub2 ->
  _merge_duplicate_subscriptions sub1 sub2 = inl m ->
  in_unit_interval m.
Proof.
  intros [H1 _] [H2 _]. unfold _merge_duplicate_subscriptions. cbv zeta.
  destruct (latest _ _) as [last_date | e]; [| discriminate].
  cbn [Py.bind Py.ok]. intro H. injection H as <-.
  unfold in_unit_interval. cbn [confidence_score].
  apply clamped_in_unit_interval.
  destruct (String.eqb (detection_source sub1) "bank"),
    (String.eqb (detection_source sub2) "email");
    now apply py_max_nonneg.
Qed.

Lemma merge_data_in_unit_interval (bank_sub email_sub : DetectedSubscription) :
  in_unit_interval bank_sub ->
  in_unit_interval (_merge_subscription_data bank_sub email_sub).
Proof.
  intros [H _]. unfold in_unit_interval, _merge_subscription_data.
  cbn [confidence_score]. now apply clamped_in_unit_interval.
Qed.

Lemma merge_into_in_unit_interval (merged : list DetectedSubscription)
  (email_sub : DetectedSubscription) :
  Forall in_unit_interval merged -> in_unit_interval email_sub ->
  forall merged', merge_into merged email_sub = inl (Some merged') ->
                  Forall in_unit_interval merged'.
Proof.
  intros Hmerged Hemail.
  induction Hmerged as [| existing others Hexisting Hothers IH];
    intros merged'; cbn [merge_into]; [discriminate |].
  destruct (_are_subscriptions_duplicate existing email_sub).
  - destruct (_merge_duplicate_subscriptions existing email_sub)
      as [m |] eqn:Hm; [| discriminate].
    cbn [Py.bind Py.ok]. intro H. injection H as <-.
    constructor; [| exact Hothers].
    exact (merge_duplicate_in_unit_interval _ _ _ Hexisting Hemail Hm).
  - destruct (merge_into others email_sub) as [[found |] |];
      cbn [Py.bind Py.ok option_map]; try discriminate.
    intro H. injection H as <-.
    constructor; [exact Hexisting | now apply IH].
Qed.

Lemma add_email_subs_in_unit_interval
  (email_subs : list DetectedSubscription) :
  Forall in_unit_interval email_subs ->
  forall merged merged',
    Forall in_unit_interval merged ->
    add_email_subs merged email_subs = inl merged' ->
    Forall in_unit_interval merged'.
Proof.
  intro Hemail.
  induction Hemail as [| email_sub later Hsub Hlater IH];
    intros merged merged' Hmerged; cbn [add_email_subs].
  - intro H. injection H as <-. exact Hmerged.
  - unfold add_email_sub.
    destruct (merge_into merged email_sub) as [[found |] |] eqn:Hinto;
      cbn [Py.bind Py.ok]; [| | discriminate].
    + apply IH.
      exact (merge_into_in_unit_interval merged email_sub Hmerged Hsub
               found Hinto).
    + apply IH. apply Forall_app. split; [exact Hmerged |].
      now constructor.
Qed.

Lemma merge_sources_in_unit_interval
  (bank_subs email_subs merged : list DetectedSubscription) :
  Forall in_unit_interval bank_subs ->
  Forall in_unit_interval email_subs ->
  _merge_subscription_sources bank_subs email_subs = inl merged ->
  Forall in_unit_interval merged.
Proof.
  intros Hbank Hemail. unfold _merge_subscription_sources.
  destruct (add_email_subs bank_subs email_subs) as [l |] eqn:Hl;
    cbn [Py.bind Py.ok]; [| discriminate].
  intro H. injection H as <-.
  apply (Permutation_Forall (Permutation_sym (sort_desc_perm l))).
  exact (add_email_subs_in_unit_interval email_subs Hemail bank_subs l
           Hbank Hl).
Qed.

Lemma route_merge_in_unit_interval
  (bank_subs email_subs : list DetectedSubscription) :
  Forall in_unit_interval bank_subs ->
  Forall in_unit_interval email_subs ->
  Forall in_unit_interval (merge_detected_subscriptions bank_subs email_subs).
Proof.
  intros Hbank Hemail. unfold merge_detected_subscriptions. cbv zeta.
  apply Forall_app. split.
  - apply Forall_map.
    apply (Forall_impl _ (P := in_unit_interval)); [| exact Hbank].
    intros bank_sub Hsub.
    destruct (find _ email_subs);
      [now apply merge_data_in_unit_interval | exact Hsub].
  - apply Forall_forall. intros e He. apply filter_In in He.
    destruct He as [He _].
    rewrite Forall_forall in Hemail. now apply Hemail.
Qed.

(** C2. Every record handed to a caller has its confidence within [0, 1]:
    the subscription the bank discovery makes of a stream, the candidate the
    email discovery makes of a message, the record either merge makes of two
    records within [0, 1], and so every record of the lists that
    [_merge_subscription_sources], [merge_detected_subscriptions] and
    [discover_all_subscriptions] return for what the two discoveries
    found. *)
Theorem handed_over_confidence_in_unit_interval :
  (forall d : DetectedSubscription,
     from_bank_discovery d -> in_unit_interval d)
  /\ (forall d : DetectedSubscription,
        from_email_discovery d -> in_unit_interval d)
  /\ (forall sub1 sub2 m : DetectedSubscription,
        in_unit_interval sub1 -> in_unit_interval sub2 ->
        _merge_duplicate_subscriptions sub1 sub2 = inl m ->
        in_unit_interval m)
  /\ (forall bank_sub email_sub : DetectedSubscription,
        in_unit_interval bank_sub ->
        in_unit_interval (_merge_subscription_data bank_sub email_sub))
  /\ (forall bank_subs email_subs : list DetectedSubscription,
        Forall from_bank_discovery bank_subs ->
        Forall from_email_discovery email_subs ->
        (forall merged,
           _merge_subscription_sources bank_subs email_subs = inl merged ->
           Forall in_unit_interval merged)
        /\ Forall in_unit_interval
             (merge_detected_subscriptions bank_subs email_subs)
        /\ (forall (now : Z) (r : Discovery.t),
              discover_all_subscriptions now bank_subs email_subs = inl r ->
              Forall in_unit_interval (Discovery.subscriptions r))).
Proof.
  assert (Hstream : forall d, from_bank_discovery d -> in_unit_interval d).
  { intros d [stream H].
    exact (stream_confidence_in_unit_interval stream d H). }
  assert (Hmail : forall d, from_email_discovery d -> in_unit_interval d).
  { intros d [subject [sender [body [date H]]]].
    exact (email_confidence_in_unit_interval subject sender body date d H). }
  split; [exact Hstream |]. split; [exact Hmail |].
  split; [exact merge_duplicate_in_unit_interval |].
  split; [exact merge_data_in_unit_interval |].
  intros bank_subs email_subs Hbank Hemail.
  assert (Hb : Forall in_unit_interval bank_subs)
    by (apply (Forall_impl _ Hstream); exact Hbank).
  assert (He : Forall in_unit_interval email_subs)
    by (apply (Forall_impl _ Hmail); exact Hemail).
  split; [| split].
  - intros merged H.
    exact (merge_sources_in_unit_interval bank_subs email_subs merged Hb He H).
  - now apply route_merge_in_unit_interval.
  - intros now r. unfold discover_all_subscriptions.
    destruct (_merge_subscription_sources bank_subs email_subs)
      as [merged |] eqn:Hmerged; cbn [Py.bind]; [| discriminate].
    destruct (_analyze_subscription_patterns now merged) as [analysis |];
      cbn [Py.bind]; [| discriminate].
    destruct (_generate_recommendations merged analysis)
      as [recommendations |]; cbn [Py.bind Py.ok]; [| discriminate].
    intro H. injection H as <-. cbn [Discovery.subscriptions].
    exact (merge_sources_in_unit_interval bank_subs email_subs merged Hb He
             Hmerged).
Qed.

Lemma handed_over_confidence_in_unit_interval_witness :
  let stream := {| stream_id := Some "s-7";
                   stream_merchant_name := Py.Value "NETFLIX.COM";
                   stream_last_amount := Py.Value (Py.Value 15.49);
                   stream_frequency := Some "MONTHLY";
                   stream_last_date := Some (Py.Parses (day 40)) |} in
  exists bank email merged,
    _create_subscription_from_plaid_stream stream = Some bank
    /\ _analyze_email_for_subscription
         "Your receipt" "Netflix <info@netflix.com>"
         "You were charged $15.49 for your monthly plan" None = Some email
    /\ _merge_subscription_sources [bank] [email] = inl merged
    /\ Forall in_unit_interval merged.
Proof.
  intro stream.
  destruct (_create_subscription_from_plaid_stream stream)
    as [bank |] eqn:Hb; [| vm_compute in Hb; discriminate].
  destruct (_analyze_email_for_subscription
              "Your receipt" "Netflix <info@netflix.com>"
              "You were charged $15.49 for your monthly plan" None)
    as [email |] eqn:He; [| vm_compute in He; discriminate].
  exists bank, email.
  assert (Hbank : Forall from_bank_discovery [bank]).
  { constructor; [| constructor]. exists stream. exact Hb. }
  assert (Hemail : Forall from_email_discovery [email]).
  { constructor; [| constructor].
    exists "Your receipt", "Netflix <info@netflix.com>",
      "You were charged $15.49 for your monthly plan", None.
    exact He. }
  destruct (_merge_subscription_sources [bank] [email])
    as [merged | e] eqn:Hm.
  - exists merged. split; [reflexivity |]. split; [reflexivity |].
    split; [reflexivity |].
    exact (proj1 (proj2 (proj2 (proj2 (proj2
             handed_over_confidence_in_unit_interval)))
                    [bank] [email] Hbank Hemail) merged Hm).
  - exfalso. vm_compute in Hb. injection Hb as <-.
    vm_compute in He. injection He as <-.
    vm_compute in Hm. discriminate.
Defined.
